(** * The Investec client: token lifecycle, error mapping and wire models

    A shallow embedding of [investec_api/client.py], [investec_api/exceptions.py]
    and [investec_api/models/*.py].

    Python values that reach the code untyped (the decoded JSON of a response) are
    values of [pyval]; the operations the code applies to them ([in], [[]],
    [.get], iteration, truthiness, [str]) are total functions into an exception
    monad that raises what Python raises.  What the Python runtime supplies and
    the code only calls (floats, their [repr] and [float] of a string, ISO date
    parsing, [strftime], [urljoin]) is an interface, [PyRuntime]; every
    definition is parametric in it. *)

From Stdlib Require Import ZArith NArith QArith Bool List String Ascii Lia Lqa.
From Stdlib Require Import DecimalString DecimalPos DecimalN DecimalFacts.
Import ListNotations.

Local Open Scope string_scope.
Local Open Scope Z_scope.
Set Warnings "-register-all".

(** ** Exceptions and the exception monad *)

Module Exc.

(** The builtin exceptions the modelled code can raise and the four kinds of
    [exceptions.py].  [InvestecRequestError] and [InvestecRateLimitError] carry
    [status_code] and [response] (the parsed error body, or [None]); messages
    are not modelled. *)
Inductive exn (V : Type) : Type :=
| TypeError
| AttributeError
| KeyError
| ValueError
| OverflowError
| InvalidOperation
| InvestecAPIError
| InvestecAuthError
| InvestecRequestError (status_code : Z) (response : option V)
| InvestecRateLimitError (status_code : Z) (response : option V).

Arguments TypeError {V}.
Arguments AttributeError {V}.
Arguments KeyError {V}.
Arguments ValueError {V}.
Arguments OverflowError {V}.
Arguments InvalidOperation {V}.
Arguments InvestecAPIError {V}.
Arguments InvestecAuthError {V}.
Arguments InvestecRequestError {V} status_code response.
Arguments InvestecRateLimitError {V} status_code response.

(** The class hierarchy of [exceptions.py]: [isinstance e cls]. *)
Inductive kind := KApiError | KAuthError | KRequestError | KRateLimitError.

Definition isinstance {V} (e : exn V) (k : kind) : bool :=
  match e, k with
  | InvestecAPIError, KApiError => true
  | InvestecAuthError, (KApiError | KAuthError) => true
  | InvestecRequestError _ _, (KApiError | KRequestError) => true
  | InvestecRateLimitError _ _, (KApiError | KRequestError | KRateLimitError) => true
  | _, _ => false
  end.

Inductive result (V A : Type) : Type :=
| Ok (a : A)
| Raise (e : exn V).

Arguments Ok {V A} a.
Arguments Raise {V A} e.

Definition bind {V A B} (m : result V A) (k : A -> result V B) : result V B :=
  match m with
  | Ok a => k a
  | Raise e => Raise e
  end.

(** [[f(x) for x in l]]: the first element that raises ends the loop. *)
Fixpoint mapM {V A B} (f : A -> result V B) (l : list A) : result V (list B) :=
  match l with
  | [] => Ok []
  | x :: l' =>
      match f x with
      | Ok y =>
          match mapM f l' with
          | Ok ys => Ok (y :: ys)
          | Raise e => Raise e
          end
      | Raise e => Raise e
      end
  end.

End Exc.

Export Exc.

Declare Scope py_scope.
Delimit Scope py_scope with py.
Notation "x <- m ;; k" := (bind m (fun x => k))
  (at level 61, m at next level, right associativity) : py_scope.
Local Open Scope py_scope.

(** ** The runtime interface *)

(** What a float stands for where the client computes with it (the expiry
    of a token): a number, floats being taken as the rationals they are meant
    to be, or an infinity or a NaN, which [float] gives for the strings
    ["inf"] and ["nan"] and [json.loads] for [Infinity] and [NaN]. *)
Inductive float_value : Type :=
| Number (q : Q)
| PlusInfinity
| MinusInfinity
| NotANumber.

(** What the code calls and the Python runtime implements.
    - [pyfloat]: the floats of a decoded JSON document, with [repr] (what [str]
      returns for a float), the test [x == 0.0] (the falsy floats), the value
      of a float, and [float(s)] for a string ([None] where Python raises
      [ValueError]);
    - [datetime], [date]: the parsed date types, with [fromisoformat] ([None]
      where Python raises [ValueError]) and [strftime("%Y-%m-%d")];
    - [urljoin]: [urllib.parse.urljoin], which resolves its second argument
      against the first (dot segments, relative paths, a host after [//]); a
      total function here, as it is on the base URLs of the client and the
      paths of its operations. *)
Class PyRuntime : Type := {
  pyfloat : Type;
  float_repr : pyfloat -> string;
  float_is_zero : pyfloat -> bool;
  float_val : pyfloat -> float_value;
  float_of_str : string -> option pyfloat;
  urljoin : string -> string -> string;
  datetime : Type;
  datetime_fromisoformat : string -> option datetime;
  datetime_strftime_ymd : datetime -> string;
  date : Type;
  date_fromisoformat : string -> option date;
  date_strftime_ymd : date -> string
}.

(** ** Python values *)

Module Py.

Section Values.
Context {rt : PyRuntime}.

(** A decoded JSON document ([json.loads]): [None], [bool], [int], [float],
    [str], [list], and [dict] with string keys, kept in insertion order. *)
Inductive pyval : Type :=
| PNone
| PBool (b : bool)
| PInt (n : Z)
| PFloat (f : pyfloat)
| PStr (s : string)
| PList (l : list pyval)
| PDict (d : list (string * pyval)).

Definition pyresult := result pyval.

(** [d[key]] on the items of a dict. *)
Fixpoint lookup (key : string) (d : list (string * pyval)) : option pyval :=
  match d with
  | [] => None
  | (k, v) :: d' => if String.eqb k key then Some v else lookup key d'
  end.

Definition is_str (key : string) (v : pyval) : bool :=
  match v with
  | PStr s => String.eqb s key
  | _ => false
  end.

(** [needle in hay] on strings: [hay] has [needle] as a substring. *)
Fixpoint contains (needle hay : string) : bool :=
  if String.prefix needle hay then true
  else match hay with
       | EmptyString => false
       | String _ hay' => contains needle hay'
       end.

(** [key in v], for a string [key]: keys of a dict, elements of a list,
    substrings of a string; [TypeError] on a value that is not iterable. *)
Definition py_in (key : string) (v : pyval) : pyresult bool :=
  match v with
  | PDict d => Ok (match lookup key d with Some _ => true | None => false end)
  | PList l => Ok (existsb (is_str key) l)
  | PStr s => Ok (contains key s)
  | PNone | PBool _ | PInt _ | PFloat _ => Raise TypeError
  end.

(** [v[key]], for a string [key]: only a dict can be indexed by a string. *)
Definition py_getitem (v : pyval) (key : string) : pyresult pyval :=
  match v with
  | PDict d =>
      match lookup key d with
      | Some x => Ok x
      | None => Raise KeyError
      end
  | _ => Raise TypeError
  end.

(** [v.get(key, default)]: a method of dicts only. *)
Definition py_get (v : pyval) (key : string) (default : pyval) : pyresult pyval :=
  match v with
  | PDict d =>
      match lookup key d with
      | Some x => Ok x
      | None => Ok default
      end
  | _ => Raise AttributeError
  end.

Fixpoint chars (s : string) : list pyval :=
  match s with
  | EmptyString => []
  | String c s' => PStr (String c EmptyString) :: chars s'
  end.

(** [for item in v]: the elements of a list, the keys of a dict, the
    characters of a string. *)
Definition py_iter (v : pyval) : pyresult (list pyval) :=
  match v with
  | PList l => Ok l
  | PDict d => Ok (map (fun kv => PStr (fst kv)) d)
  | PStr s => Ok (chars s)
  | PNone | PBool _ | PInt _ | PFloat _ => Raise TypeError
  end.

(** [bool(v)]. *)
Definition truthy (v : pyval) : bool :=
  match v with
  | PNone => false
  | PBool b => b
  | PInt n => negb (n =? 0)
  | PFloat f => negb (float_is_zero f)
  | PStr s => negb (String.eqb s "")
  | PList l => match l with [] => false | _ => true end
  | PDict d => match d with [] => false | _ => true end
  end.

Definition isinstance_list (v : pyval) : bool :=
  match v with
  | PList _ => true
  | _ => false
  end.

(** The integers from which [float] raises [OverflowError]: those that round
    to [2 ** 1024]. *)
Definition float_overflow : Z := 2 ^ 1024 - 2 ^ 970.

(** [float(v)]: a number gives its value ([True] is 1), a string is parsed
    ([ValueError] when it is not numeric), an integer too large overflows, and
    anything else is a [TypeError]. *)
Definition py_float (v : pyval) : pyresult float_value :=
  match v with
  | PBool b => Ok (Number (if b then 1 else 0))
  | PInt n =>
      if Z.abs n <? float_overflow then Ok (Number (inject_Z n))
      else Raise OverflowError
  | PFloat f => Ok (float_val f)
  | PStr s =>
      match float_of_str s with
      | Some f => Ok (float_val f)
      | None => Raise ValueError
      end
  | PNone | PList _ | PDict _ => Raise TypeError
  end.

End Values.

End Py.

Export Py.

(** ** [decimal.Decimal] *)

(** The library's exact decimals, as the models use them: built from a string
    ([Decimal(str(x))]) and printed with [str].  Strings are byte strings; the
    digits, letters and blanks the library reads are the ASCII ones. *)
Module PyDecimal.

Local Open Scope list_scope.

(** A [Decimal] is a sign, a coefficient and an exponent ([_sign], [_int],
    [_exp]), or a special value: an infinity, or a quiet or signaling NaN with
    its diagnostic digits (none when the payload is 0). *)
Inductive Decimal : Type :=
| Finite (sign : bool) (coeff : N) (exp : Z)
| Infinity (sign : bool)
| NaN (sign : bool) (signaling : bool) (payload : N).

Definition ch (s : string) : list ascii := list_ascii_of_string s.

(** [str(n)] for a natural number: its decimal digits, ["0"] for 0. *)
Definition digits_of_N (n : N) : list ascii :=
  ch (NilEmpty.string_of_uint (N.to_uint n)).

Definition is_digit (c : ascii) : bool :=
  let n := N_of_ascii c in ((48 <=? n) && (n <=? 57))%N.

Definition digit_val (c : ascii) : N := (N_of_ascii c - 48)%N.

(** [int(s)] for a string of digits ([0] for the empty string, where the
    code writes [int(s or '0')]). *)
Definition N_of_digits (l : list ascii) : N :=
  fold_left (fun acc c => (acc * 10 + digit_val c)%N) l 0%N.

Definition sign_str (sign : bool) : list ascii :=
  if sign then ch "-" else [].

(** ["%+d" % z]. *)
Definition fmt_plus_d (z : Z) : list ascii :=
  (if z <? 0 then ch "-" else ch "+") ++ digits_of_N (Z.abs_N z).

(** [Decimal.__str__]: the scientific string of the value (capitals on). *)
Definition to_chars (d : Decimal) : list ascii :=
  match d with
  | Infinity sign => sign_str sign ++ ch "Infinity"
  | NaN sign signaling payload =>
      sign_str sign ++ (if signaling then ch "sNaN" else ch "NaN")
        ++ (if (payload =? 0)%N then [] else digits_of_N payload)
  | Finite sign coeff exp =>
      let _int := digits_of_N coeff in
      let len := Z.of_nat (List.length _int) in
      let leftdigits := exp + len in
      let dotplace :=
        if (exp <=? 0) && (-6 <? leftdigits) then leftdigits else 1 in
      let '(intpart, fracpart) :=
        if dotplace <=? 0 then
          (ch "0", ch "." ++ repeat "0"%char (Z.to_nat (- dotplace)) ++ _int)
        else if len <=? dotplace then
          (_int ++ repeat "0"%char (Z.to_nat (dotplace - len)), [])
        else
          (firstn (Z.to_nat dotplace) _int,
           ch "." ++ skipn (Z.to_nat dotplace) _int) in
      let exp_str :=
        if leftdigits =? dotplace then []
        else ch "E" ++ fmt_plus_d (leftdigits - dotplace) in
      sign_str sign ++ intpart ++ fracpart ++ exp_str
  end.

Definition to_str (d : Decimal) : string := string_of_list_ascii (to_chars d).

(** [str.strip()] and [.replace("_", "")]. *)
Definition is_space (c : ascii) : bool :=
  let n := N_of_ascii c in
  (((9 <=? n) && (n <=? 13)) || ((28 <=? n) && (n <=? 32)))%N.

Fixpoint lstrip (l : list ascii) : list ascii :=
  match l with
  | c :: l' => if is_space c then lstrip l' else l
  | [] => []
  end.

Definition strip (l : list ascii) : list ascii :=
  rev (lstrip (rev (lstrip l))).

Definition drop_underscores (l : list ascii) : list ascii :=
  filter (fun c => negb (Ascii.eqb c "_")) l.

(** The longest prefix of digits and what follows it. *)
Fixpoint span_digits (l : list ascii) : list ascii * list ascii :=
  match l with
  | c :: l' =>
      if is_digit c then let '(ds, r) := span_digits l' in (c :: ds, r)
      else ([], l)
  | [] => ([], [])
  end.

Definition lower (c : ascii) : ascii :=
  let n := N_of_ascii c in
  if ((65 <=? n) && (n <=? 90))%N then ascii_of_N (n + 32) else c.

Definition chars_eqb (a b : list ascii) : bool :=
  String.eqb (string_of_list_ascii a) (string_of_list_ascii b).

(** The exponent part [(E[-+]?\d+)?] up to the end of the string. *)
Definition parse_exponent (l : list ascii) : option Z :=
  match l with
  | [] => Some 0
  | e :: l' =>
      if Ascii.eqb (lower e) "e" then
        let '(neg, ds) :=
          match l' with
          | "-"%char :: r => (true, r)
          | "+"%char :: r => (false, r)
          | _ => (false, l')
          end in
        match ds with
        | [] => None
        | _ :: _ =>
            if forallb is_digit ds then
              Some (if neg then - Z.of_N (N_of_digits ds) else Z.of_N (N_of_digits ds))
            else None
        end
      else None
  end.

(** The number alternative of the grammar: digits with an optional
    fraction, at least one digit in all, and an optional exponent. *)
Definition parse_number (sign : bool) (l : list ascii) : option Decimal :=
  let '(intpart, r1) := span_digits l in
  let '(fracpart, r2) :=
    match r1 with
    | "."%char :: r => span_digits r
    | _ => ([], r1)
    end in
  match intpart ++ fracpart with
  | [] => None
  | _ :: _ =>
      match parse_exponent r2 with
      | Some exp =>
          Some (Finite sign (N_of_digits (intpart ++ fracpart))
                  (exp - Z.of_nat (List.length fracpart)))
      | None => None
      end
  end.

(** The special values: [Inf(inity)?] and [s?NaN\d*], in any case. *)
Definition parse_special (sign : bool) (l : list ascii) : option Decimal :=
  let lc := map lower l in
  if chars_eqb lc (ch "inf") || chars_eqb lc (ch "infinity") then
    Some (Infinity sign)
  else
    match lc with
    | "n"%char :: "a"%char :: "n"%char :: diag =>
        if forallb is_digit diag then Some (NaN sign false (N_of_digits diag))
        else None
    | "s"%char :: "n"%char :: "a"%char :: "n"%char :: diag =>
        if forallb is_digit diag then Some (NaN sign true (N_of_digits diag))
        else None
    | _ => None
    end.

Definition parse_chars (l : list ascii) : option Decimal :=
  let l := drop_underscores (strip l) in
  let '(sign, body) :=
    match l with
    | "-"%char :: r => (true, r)
    | "+"%char :: r => (false, r)
    | _ => (false, l)
    end in
  match parse_number sign body with
  | Some d => Some d
  | None => parse_special sign body
  end.

(** [Decimal(s)] for a string [s], as the grammar of numeric strings reads
    it; [None] where the library raises [InvalidOperation].  The exponent is
    not bounded here: the library's C implementation also refuses what is
    beyond its limits, see [within_limits]. *)
Definition of_str (s : string) : option Decimal := parse_chars (ch s).

(** The limits of the library's C implementation ([decimal.MAX_PREC],
    [decimal.MAX_EMAX], [decimal.MIN_ETINY]), as they are on a 32-bit build,
    where they are narrowest. *)
Definition MAX_PREC : Z := 425000000.
Definition MAX_EMAX : Z := 425000000.
Definition MIN_ETINY : Z := -849999999.

(** A decimal every build of the library constructs from its string: the
    coefficient has at most [MAX_PREC] digits, the exponent is at least
    [MIN_ETINY] and the adjusted exponent at most [MAX_EMAX]. *)
Definition within_limits (d : Decimal) : bool :=
  match d with
  | Finite _ coeff exp =>
      let len := Z.of_nat (List.length (digits_of_N coeff)) in
      (len <=? MAX_PREC) && (MIN_ETINY <=? exp) && (exp + len - 1 <=? MAX_EMAX)
  | Infinity _ => true
  | NaN _ _ payload =>
      Z.of_nat (List.length (digits_of_N payload)) <=? MAX_PREC
  end.

(** *** Vocabulary of the proofs about [to_chars] and [parse_chars] *)

(** The characters of a [Decimal.uint], the step of [N_of_digits], the
    characters that [strip] and [replace] leave alone, what ends a run of
    digits, and the text of a fraction and of an exponent when there is one. *)
Definition uchars (u : Decimal.uint) : list ascii :=
  ch (NilEmpty.string_of_uint u).

Definition step (acc : N) (c : ascii) : N := (acc * 10 + digit_val c)%N.

Definition plain (c : ascii) : bool :=
  negb (is_space c) && negb (Ascii.eqb c "_").

Definition stops (r : list ascii) : Prop :=
  match r with
  | [] => True
  | c :: _ => is_digit c = false
  end.

Definition frac_chars (fp : option (list ascii)) : list ascii :=
  match fp with
  | Some f => "."%char :: f
  | None => []
  end.

Definition exp_chars (ex : option Z) : list ascii :=
  match ex with
  | Some z => "E"%char :: fmt_plus_d z
  | None => []
  end.

End PyDecimal.

(** ** The wire models ([investec_api/models]) *)

(** Helpers shared by the deserializers. *)
Module Wire.

Section WithRuntime.
Context {rt : PyRuntime}.

(** [str(n)] for an [int]. *)
Definition str_int (n : Z) : string :=
  string_of_list_ascii
    ((if n <? 0 then PyDecimal.ch "-" else []) ++ PyDecimal.digits_of_N (Z.abs_N n))%list.

(** [Decimal(str(v))].  [str] of a list or of a dict opens with a bracket,
    which no numeric string does: the library raises [InvalidOperation]. *)
Definition Decimal_of_str_of (v : pyval) : pyresult PyDecimal.Decimal :=
  let parse (s : string) :=
    match PyDecimal.of_str s with
    | Some d => Ok d
    | None => Raise InvalidOperation
    end in
  match v with
  | PStr s => parse s
  | PInt n => parse (str_int n)
  | PFloat f => parse (float_repr f)
  | PBool b => parse (if b then "True" else "False")
  | PNone => parse "None"
  | PList _ | PDict _ => Raise InvalidOperation
  end.

(** [Decimal(str(data.get(key, 0)))]. *)
Definition decimal_field (data : pyval) (key : string) : pyresult PyDecimal.Decimal :=
  v <- py_get data key (PInt 0) ;;
  Decimal_of_str_of v.

(** [str(v)] is a numeric string within the limits of the library:
    [Decimal(str(v))] returns, on every build. *)
Definition numeric (v : pyval) : bool :=
  match Decimal_of_str_of v with
  | Ok d => PyDecimal.within_limits d
  | Raise _ => false
  end.

(** The entry [key] of [d] is numeric if it is there. *)
Definition numeric_at (d : list (string * pyval)) (key : string) : bool :=
  match lookup key d with
  | Some v => numeric v
  | None => true
  end.

(** The same, for an entry that may also be [None]. *)
Definition numeric_or_none_at (d : list (string * pyval)) (key : string) : bool :=
  match lookup key d with
  | Some PNone => true
  | Some v => numeric v
  | None => true
  end.

(** [d.get(key, default)] on the items of a dict. *)
Definition get_or (d : list (string * pyval)) (key : string) (default : pyval) : pyval :=
  match lookup key d with
  | Some x => x
  | None => default
  end.

(** The date fields of [transaction.py]:
    [if key in data and data[key]: try: datetime.fromisoformat(data[key])
     except (ValueError, TypeError): pass].
    A value that is not a string makes [fromisoformat] raise [TypeError], a
    string it cannot read [ValueError]; both leave the field [None]. *)
Definition datetime_field (data : pyval) (key : string) : pyresult (option datetime) :=
  present <- py_in key data ;;
  if present then
    v <- py_getitem data key ;;
    if truthy v then
      Ok (match v with
          | PStr s => datetime_fromisoformat s
          | _ => None
          end)
    else Ok None
  else Ok None.

(** What [datetime_field] comes to on a dict: a non-empty string that
    parses gives the date, anything else [None]. *)
Definition read_datetime (d : list (string * pyval)) (key : string) : option datetime :=
  match lookup key d with
  | Some (PStr s) => if String.eqb s "" then None else datetime_fromisoformat s
  | _ => None
  end.

(** [s.lower()]. *)
Definition str_lower (s : string) : string :=
  string_of_list_ascii (map PyDecimal.lower (list_ascii_of_string s)).

(** A field declared with an [Enum] type.  [data.get(key, Member)] stores
    the wire value as it is when the key is present, the enumeration member
    when it is absent. *)
Inductive enum_field (E : Type) : Type :=
| Member (e : E)
| WireValue (v : pyval).

Definition enum_get {E} (data : pyval) (key : string) (default : E)
  : pyresult (enum_field E) :=
  match data with
  | PDict d =>
      match lookup key d with
      | Some x => Ok (WireValue E x)
      | None => Ok (Member E default)
      end
  | _ => Raise AttributeError
  end.

(** [BaseModel.from_api_response]. *)
Definition from_api_response {T} (from_dict : pyval -> pyresult T)
  (response : pyval) : pyresult T :=
  has_data <- py_in "data" response ;;
  if has_data then
    data <- py_getitem response "data" ;;
    from_dict data
  else from_dict response.

(** [x in a and y in a[x]]: the test in front of every list comprehension. *)
Definition has_nested (response : pyval) (outer inner : string) : pyresult bool :=
  has_outer <- py_in outer response ;;
  if has_outer then
    data <- py_getitem response outer ;;
    py_in inner data
  else Ok false.

(** [BaseModel.list_from_api_response]. *)
Definition list_from_api_response {T} (from_dict : pyval -> pyresult T)
  (response : pyval) (key : string) : pyresult (list T) :=
  ok <- has_nested response "data" key ;;
  if ok then
    data <- py_getitem response "data" ;;
    items <- py_getitem data key ;;
    l <- py_iter items ;;
    mapM from_dict l
  else Ok [].

End WithRuntime.

Arguments Member {rt E} e.
Arguments WireValue {rt E} v.

End Wire.

Export Wire.

(** [account.py] *)
Module Account.

Section WithRuntime.
Context {rt : PyRuntime}.

Record t : Type := {
  account_id : pyval;
  account_number : pyval;
  account_name : pyval;
  reference_name : pyval;
  product_name : pyval;
  kyc_compliant : pyval;
  profile_id : pyval;
  profile_name : pyval
}.

Definition from_dict (data : pyval) : pyresult t :=
  account_id <- py_get data "accountId" (PStr "") ;;
  account_number <- py_get data "accountNumber" (PStr "") ;;
  account_name <- py_get data "accountName" (PStr "") ;;
  reference_name <- py_get data "referenceName" (PStr "") ;;
  product_name <- py_get data "productName" (PStr "") ;;
  kyc_compliant <- py_get data "kycCompliant" (PBool false) ;;
  profile_id <- py_get data "profileId" (PStr "") ;;
  profile_name <- py_get data "profileName" (PStr "") ;;
  Ok {| account_id := account_id; account_number := account_number;
        account_name := account_name; reference_name := reference_name;
        product_name := product_name; kyc_compliant := kyc_compliant;
        profile_id := profile_id; profile_name := profile_name |}.

End WithRuntime.

End Account.

Module AccountBalance.

Section WithRuntime.
Context {rt : PyRuntime}.

Record t : Type := {
  account_id : pyval;
  current_balance : PyDecimal.Decimal;
  available_balance : PyDecimal.Decimal;
  budget_balance : PyDecimal.Decimal;
  straight_balance : PyDecimal.Decimal;
  cash_balance : PyDecimal.Decimal;
  currency : pyval
}.

Definition from_dict (data : pyval) : pyresult t :=
  account_id <- py_get data "accountId" (PStr "") ;;
  current_balance <- decimal_field data "currentBalance" ;;
  available_balance <- decimal_field data "availableBalance" ;;
  budget_balance <- decimal_field data "budgetBalance" ;;
  straight_balance <- decimal_field data "straightBalance" ;;
  cash_balance <- decimal_field data "cashBalance" ;;
  currency <- py_get data "currency" (PStr "ZAR") ;;
  Ok {| account_id := account_id; current_balance := current_balance;
        available_balance := available_balance; budget_balance := budget_balance;
        straight_balance := straight_balance; cash_balance := cash_balance;
        currency := currency |}.

End WithRuntime.

End AccountBalance.

(** [transaction.py] *)
Inductive TransactionType := CREDIT | DEBIT.

Inductive TransactionStatus := POSTED | PENDING.

Definition TransactionType_value (e : TransactionType) : string :=
  match e with
  | CREDIT => "CREDIT"
  | DEBIT => "DEBIT"
  end.

Definition TransactionStatus_value (e : TransactionStatus) : string :=
  match e with
  | POSTED => "POSTED"
  | PENDING => "PENDING"
  end.

Section EnumMembership.
Context {rt : PyRuntime}.

(** The field holds a member of the enumeration: a member itself, or a
    string equal to one (both enumerations are [str] enumerations, so
    ["CREDIT" == TransactionType.CREDIT]). *)
Definition is_TransactionType (f : enum_field TransactionType) : bool :=
  match f with
  | Member _ => true
  | WireValue (PStr s) =>
      existsb (fun e => String.eqb s (TransactionType_value e)) [CREDIT; DEBIT]
  | WireValue _ => false
  end.

Definition is_TransactionStatus (f : enum_field TransactionStatus) : bool :=
  match f with
  | Member _ => true
  | WireValue (PStr s) =>
      existsb (fun e => String.eqb s (TransactionStatus_value e)) [POSTED; PENDING]
  | WireValue _ => false
  end.

End EnumMembership.

Module Transaction.

Section WithRuntime.
Context {rt : PyRuntime}.

Record t : Type := {
  account_id : pyval;
  type : enum_field TransactionType;
  transaction_type : pyval;
  status : enum_field TransactionStatus;
  description : pyval;
  card_number : pyval;
  posted_order : pyval;
  posting_date : option datetime;
  value_date : option datetime;
  action_date : option datetime;
  transaction_date : option datetime;
  amount : PyDecimal.Decimal;
  running_balance : option PyDecimal.Decimal;
  uuid : pyval
}.

(** [if "runningBalance" in data and data["runningBalance"] is not None:
       running_balance = Decimal(str(data["runningBalance"]))]. *)
Definition running_balance_field (data : pyval) : pyresult (option PyDecimal.Decimal) :=
  present <- py_in "runningBalance" data ;;
  if present then
    v <- py_getitem data "runningBalance" ;;
    match v with
    | PNone => Ok None
    | _ =>
        d <- Decimal_of_str_of v ;;
        Ok (Some d)
    end
  else Ok None.

Definition from_dict (data : pyval) : pyresult t :=
  posting_date <- datetime_field data "postingDate" ;;
  value_date <- datetime_field data "valueDate" ;;
  action_date <- datetime_field data "actionDate" ;;
  transaction_date <- datetime_field data "transactionDate" ;;
  amount <- decimal_field data "amount" ;;
  running_balance <- running_balance_field data ;;
  account_id <- py_get data "accountId" (PStr "") ;;
  type <- enum_get data "type" DEBIT ;;
  transaction_type <- py_get data "transactionType" PNone ;;
  status <- enum_get data "status" POSTED ;;
  description <- py_get data "description" (PStr "") ;;
  card_number <- py_get data "cardNumber" PNone ;;
  posted_order <- py_get data "postedOrder" PNone ;;
  uuid <- py_get data "uuid" PNone ;;
  Ok {| account_id := account_id; type := type;
        transaction_type := transaction_type; status := status;
        description := description; card_number := card_number;
        posted_order := posted_order; posting_date := posting_date;
        value_date := value_date; action_date := action_date;
        transaction_date := transaction_date; amount := amount;
        running_balance := running_balance; uuid := uuid |}.

End WithRuntime.

End Transaction.

Module PendingTransaction.

Section WithRuntime.
Context {rt : PyRuntime}.

Record t : Type := {
  account_id : pyval;
  type : enum_field TransactionType;
  status : TransactionStatus;
  description : pyval;
  transaction_date : option datetime;
  amount : PyDecimal.Decimal
}.

Definition from_dict (data : pyval) : pyresult t :=
  transaction_date <- datetime_field data "transactionDate" ;;
  amount <- decimal_field data "amount" ;;
  account_id <- py_get data "accountId" (PStr "") ;;
  type <- enum_get data "type" DEBIT ;;
  description <- py_get data "description" (PStr "") ;;
  Ok {| account_id := account_id; type := type; status := PENDING;
        description := description; transaction_date := transaction_date;
        amount := amount |}.

End WithRuntime.

End PendingTransaction.

(** [beneficiary.py] *)
Module Beneficiary.

Section WithRuntime.
Context {rt : PyRuntime}.

Record t : Type := {
  beneficiary_id : pyval;
  account_number : pyval;
  code : pyval;
  bank : pyval;
  beneficiary_name : pyval;
  last_payment_amount : pyval;
  last_payment_date : pyval;
  cell_no : pyval;
  email_address : pyval;
  name : pyval;
  reference_account_number : pyval;
  reference_name : pyval;
  category_id : pyval;
  profile_id : pyval;
  faster_payment_allowed : pyval;
  beneficiary_type : pyval;
  approved_beneficiary_category : pyval
}.

Definition from_dict (data : pyval) : pyresult t :=
  beneficiary_id <- py_get data "beneficiaryId" (PStr "") ;;
  account_number <- py_get data "accountNumber" PNone ;;
  code <- py_get data "code" PNone ;;
  bank <- py_get data "bank" PNone ;;
  beneficiary_name <- py_get data "beneficiaryName" PNone ;;
  last_payment_amount <- py_get data "lastPaymentAmount" PNone ;;
  last_payment_date <- py_get data "lastPaymentDate" PNone ;;
  cell_no <- py_get data "cellNo" PNone ;;
  email_address <- py_get data "emailAddress" PNone ;;
  name <- py_get data "name" PNone ;;
  reference_account_number <- py_get data "referenceAccountNumber" PNone ;;
  reference_name <- py_get data "referenceName" PNone ;;
  category_id <- py_get data "categoryId" PNone ;;
  profile_id <- py_get data "profileId" PNone ;;
  faster_payment_allowed <- py_get data "fasterPaymentAllowed" (PBool false) ;;
  beneficiary_type <- py_get data "beneficiaryType" PNone ;;
  approved_beneficiary_category <- py_get data "approvedBeneficiaryCategory" PNone ;;
  Ok {| beneficiary_id := beneficiary_id; account_number := account_number;
        code := code; bank := bank; beneficiary_name := beneficiary_name;
        last_payment_amount := last_payment_amount;
        last_payment_date := last_payment_date; cell_no := cell_no;
        email_address := email_address; name := name;
        reference_account_number := reference_account_number;
        reference_name := reference_name; category_id := category_id;
        profile_id := profile_id;
        faster_payment_allowed := faster_payment_allowed;
        beneficiary_type := beneficiary_type;
        approved_beneficiary_category := approved_beneficiary_category |}.

End WithRuntime.

End Beneficiary.

Module BeneficiaryCategory.

Section WithRuntime.
Context {rt : PyRuntime}.

Record t : Type := {
  id : pyval;
  is_default : bool;
  name : pyval
}.

(** [data["isDefault"].lower() == "true" if isinstance(data["isDefault"], str)
     else bool(data["isDefault"])], when the key is there. *)
Definition is_default_field (data : pyval) : pyresult bool :=
  present <- py_in "isDefault" data ;;
  if present then
    v <- py_getitem data "isDefault" ;;
    Ok (match v with
        | PStr s => String.eqb (str_lower s) "true"
        | _ => truthy v
        end)
  else Ok false.

Definition from_dict (data : pyval) : pyresult t :=
  is_default <- is_default_field data ;;
  id <- py_get data "id" (PStr "") ;;
  name <- py_get data "name" (PStr "") ;;
  Ok {| id := id; is_default := is_default; name := name |}.

End WithRuntime.

End BeneficiaryCategory.

(** [profile.py] *)
Module Profile.

Section WithRuntime.
Context {rt : PyRuntime}.

Record t : Type := {
  profile_id : pyval;
  profile_name : pyval;
  default_profile : pyval
}.

Definition from_dict (data : pyval) : pyresult t :=
  profile_id <- py_get data "profileId" (PStr "") ;;
  profile_name <- py_get data "profileName" (PStr "") ;;
  default_profile <- py_get data "defaultProfile" (PBool false) ;;
  Ok {| profile_id := profile_id; profile_name := profile_name;
        default_profile := default_profile |}.

End WithRuntime.

End Profile.

(** [document.py] *)
Module Document.

Section WithRuntime.
Context {rt : PyRuntime}.

Record t : Type := {
  document_type : pyval;
  document_date : date
}.

(** [today] is what [date.today()] returns when the document is read. *)
Definition from_dict (today : date) (data : pyval) : pyresult t :=
  present <- py_in "documentDate" data ;;
  doc_date <-
    (if present then
       v <- py_getitem data "documentDate" ;;
       if truthy v then
         Ok (match v with
             | PStr s => date_fromisoformat s
             | _ => None
             end)
       else Ok None
     else Ok None) ;;
  let doc_date :=
    match doc_date with
    | Some d => d
    | None => today
    end in
  document_type <- py_get data "documentType" (PStr "") ;;
  Ok {| document_type := document_type; document_date := doc_date |}.

End WithRuntime.

End Document.

(** [transfer.py] *)
Module TransferItem.

Section WithRuntime.
Context {rt : PyRuntime}.

Record t : Type := {
  beneficiary_account_id : pyval;
  amount : PyDecimal.Decimal;
  my_reference : pyval;
  their_reference : pyval
}.

Definition to_dict (self : t) : pyval :=
  PDict [ ("beneficiaryAccountId", beneficiary_account_id self);
          ("amount", PStr (PyDecimal.to_str (amount self)));
          ("myReference", my_reference self);
          ("theirReference", their_reference self) ].

Definition from_dict (data : pyval) : pyresult t :=
  beneficiary_account_id <- py_get data "beneficiaryAccountId" (PStr "") ;;
  amount <- decimal_field data "amount" ;;
  my_reference <- py_get data "myReference" (PStr "") ;;
  their_reference <- py_get data "theirReference" (PStr "") ;;
  Ok {| beneficiary_account_id := beneficiary_account_id; amount := amount;
        my_reference := my_reference; their_reference := their_reference |}.

End WithRuntime.

End TransferItem.

Module TransferRequest.

Section WithRuntime.
Context {rt : PyRuntime}.

Record t : Type := {
  transfer_list : list TransferItem.t;
  profile_id : option string
}.

Definition to_dict (self : t) : pyval :=
  PDict (("transferList", PList (map TransferItem.to_dict (transfer_list self)))
         :: match profile_id self with
            | Some p => if String.eqb p "" then [] else [("profileId", PStr p)]
            | None => []
            end).

End WithRuntime.

End TransferRequest.

Module TransferResponseItem.

Section WithRuntime.
Context {rt : PyRuntime}.

Record t : Type := {
  payment_reference_number : pyval;
  payment_date : pyval;
  status : pyval;
  beneficiary_name : pyval;
  beneficiary_account_id : pyval;
  authorisation_required : pyval
}.

Definition from_dict (data : pyval) : pyresult t :=
  payment_reference_number <- py_get data "PaymentReferenceNumber" PNone ;;
  payment_date <- py_get data "PaymentDate" PNone ;;
  status <- py_get data "Status" PNone ;;
  beneficiary_name <- py_get data "BeneficiaryName" PNone ;;
  beneficiary_account_id <- py_get data "BeneficiaryAccountId" PNone ;;
  authorisation_required <- py_get data "AuthorisationRequired" (PBool false) ;;
  Ok {| payment_reference_number := payment_reference_number;
        payment_date := payment_date; status := status;
        beneficiary_name := beneficiary_name;
        beneficiary_account_id := beneficiary_account_id;
        authorisation_required := authorisation_required |}.


End WithRuntime.

End TransferResponseItem.

Module TransferResponse.

Section WithRuntime.
Context {rt : PyRuntime}.

Record t : Type := {
  transfer_responses : list TransferResponseItem.t;
  error_message : pyval
}.

(** [x = default
     if "transferResponse" in data and key in data["transferResponse"]:
         x = data["transferResponse"][key]
     elif key in data:
         x = data[key]]: the nested envelope first, then the bare one. *)
Definition nested_or_bare (data : pyval) (key : string) (default : pyval)
  : pyresult pyval :=
  nested <- has_nested data "transferResponse" key ;;
  if nested then
    inner <- py_getitem data "transferResponse" ;;
    py_getitem inner key
  else
    bare <- py_in key data ;;
    if bare then py_getitem data key else Ok default.

Definition from_dict (data : pyval) : pyresult t :=
  responses <- nested_or_bare data "TransferResponses" (PList []) ;;
  items <- py_iter responses ;;
  transfer_responses <- mapM TransferResponseItem.from_dict items ;;
  error_message <- nested_or_bare data "ErrorMessage" PNone ;;
  Ok {| transfer_responses := transfer_responses;
        error_message := error_message |}.


End WithRuntime.

End TransferResponse.

(** [payment.py] *)
Module BeneficiaryPaymentItem.

Section WithRuntime.
Context {rt : PyRuntime}.

Record t : Type := {
  beneficiary_id : pyval;
  amount : PyDecimal.Decimal;
  my_reference : pyval;
  their_reference : pyval;
  authoriser_a_id : pyval;
  authoriser_b_id : pyval;
  auth_period_id : pyval;
  faster_payment : pyval
}.

Definition to_dict (self : t) : pyval :=
  PDict ([ ("beneficiaryId", beneficiary_id self);
           ("amount", PStr (PyDecimal.to_str (amount self)));
           ("myReference", my_reference self);
           ("theirReference", their_reference self) ]
         ++ (if truthy (authoriser_a_id self)
             then [("authoriserAId", authoriser_a_id self)] else [])
         ++ (if truthy (authoriser_b_id self)
             then [("authoriserBId", authoriser_b_id self)] else [])
         ++ (if truthy (auth_period_id self)
             then [("authPeriodId", auth_period_id self)] else [])
         ++ (match faster_payment self with
             | PNone => []
             | v => [("fasterPayment", v)]
             end))%list.

Definition from_dict (data : pyval) : pyresult t :=
  beneficiary_id <- py_get data "beneficiaryId" (PStr "") ;;
  amount <- decimal_field data "amount" ;;
  my_reference <- py_get data "myReference" (PStr "") ;;
  their_reference <- py_get data "theirReference" (PStr "") ;;
  authoriser_a_id <- py_get data "authoriserAId" PNone ;;
  authoriser_b_id <- py_get data "authoriserBId" PNone ;;
  auth_period_id <- py_get data "authPeriodId" PNone ;;
  faster_payment <- py_get data "fasterPayment" PNone ;;
  Ok {| beneficiary_id := beneficiary_id; amount := amount;
        my_reference := my_reference; their_reference := their_reference;
        authoriser_a_id := authoriser_a_id; authoriser_b_id := authoriser_b_id;
        auth_period_id := auth_period_id; faster_payment := faster_payment |}.

End WithRuntime.

End BeneficiaryPaymentItem.

Module BeneficiaryPaymentRequest.

Section WithRuntime.
Context {rt : PyRuntime}.

Record t : Type := {
  payment_list : list BeneficiaryPaymentItem.t
}.

Definition to_dict (self : t) : pyval :=
  PDict [("paymentList", PList (map BeneficiaryPaymentItem.to_dict (payment_list self)))].

End WithRuntime.

End BeneficiaryPaymentRequest.

Module PaymentResponseItem.

Section WithRuntime.
Context {rt : PyRuntime}.

Record t : Type := {
  payment_reference_number : pyval;
  payment_date : pyval;
  status : pyval;
  beneficiary_name : pyval;
  beneficiary_account_id : pyval;
  authorisation_required : pyval
}.

Definition from_dict (data : pyval) : pyresult t :=
  payment_reference_number <- py_get data "PaymentReferenceNumber" PNone ;;
  payment_date <- py_get data "PaymentDate" PNone ;;
  status <- py_get data "Status" PNone ;;
  beneficiary_name <- py_get data "BeneficiaryName" PNone ;;
  beneficiary_account_id <- py_get data "BeneficiaryAccountId" PNone ;;
  authorisation_required <- py_get data "AuthorisationRequired" (PBool false) ;;
  Ok {| payment_reference_number := payment_reference_number;
        payment_date := payment_date; status := status;
        beneficiary_name := beneficiary_name;
        beneficiary_account_id := beneficiary_account_id;
        authorisation_required := authorisation_required |}.

End WithRuntime.

End PaymentResponseItem.

Module PaymentResponse.

Section WithRuntime.
Context {rt : PyRuntime}.

Record t : Type := {
  transfer_responses : list PaymentResponseItem.t;
  error_message : pyval
}.

Definition from_dict (data : pyval) : pyresult t :=
  present <- py_in "TransferResponses" data ;;
  responses <- (if present then py_getitem data "TransferResponses"
                else Ok (PList [])) ;;
  items <- py_iter responses ;;
  transfer_responses <- mapM PaymentResponseItem.from_dict items ;;
  error_message <- py_get data "ErrorMessage" PNone ;;
  Ok {| transfer_responses := transfer_responses;
        error_message := error_message |}.

End WithRuntime.

End PaymentResponse.

Module AuthorisationPeriod.

Section WithRuntime.
Context {rt : PyRuntime}.

Record t : Type := {
  id : pyval;
  description : pyval
}.

Definition from_dict (data : pyval) : pyresult t :=
  id <- py_get data "id" (PStr "") ;;
  description <- py_get data "description" (PStr "") ;;
  Ok {| id := id; description := description |}.

End WithRuntime.

End AuthorisationPeriod.

Module Authoriser.

Section WithRuntime.
Context {rt : PyRuntime}.

Record t : Type := {
  authoriser_id : pyval;
  name : pyval
}.

Definition from_dict (data : pyval) : pyresult t :=
  authoriser_id <- py_get data "authoriserId" (PStr "") ;;
  name <- py_get data "name" (PStr "") ;;
  Ok {| authoriser_id := authoriser_id; name := name |}.

End WithRuntime.

End Authoriser.

Module AuthorisationSetup.

Section WithRuntime.
Context {rt : PyRuntime}.

Record t : Type := {
  number_of_authorisation_required : pyval;
  period : list AuthorisationPeriod.t;
  authorisers_list_a : list Authoriser.t;
  authorisers_list_b : list Authoriser.t
}.

(** [for x in data.get(key, []): out.append(cls.from_dict(x))]. *)
Definition list_field {T} (from_dict : pyval -> pyresult T) (data : pyval)
  (key : string) : pyresult (list T) :=
  v <- py_get data key (PList []) ;;
  l <- py_iter v ;;
  mapM from_dict l.

Definition from_dict (data : pyval) : pyresult t :=
  periods <- list_field AuthorisationPeriod.from_dict data "period" ;;
  authorisers_a <- list_field Authoriser.from_dict data "authorisersListA" ;;
  authorisers_b <- list_field Authoriser.from_dict data "authorisersListB" ;;
  number <- py_get data "numberOfAuthorisationRequired" (PStr "") ;;
  Ok {| number_of_authorisation_required := number; period := periods;
        authorisers_list_a := authorisers_a;
        authorisers_list_b := authorisers_b |}.

End WithRuntime.

End AuthorisationSetup.

(** ** The client ([investec_api/client.py]) *)

Module Client.

Section WithRuntime.
Context {rt : PyRuntime}.

(** The client object.  [_access_token] and [_token_expires_at] are its only
    mutable fields; times are seconds since the epoch, as [time.time()]
    returns them, taken as rationals; the expiry is a float computed from the
    reply of the token endpoint, so it may be an infinity or a NaN. *)
Record InvestecClient : Type := {
  client_id : string;
  client_secret : string;
  api_key : string;
  base_url : string;
  timeout : Z;
  _access_token : option string;
  _token_expires_at : option float_value
}.

Definition PRODUCTION_URL := "https://openapi.investec.com".
Definition SANDBOX_URL := "https://openapisandbox.investec.com".
Definition TOKEN_URL_PATH := "/identity/v2/oauth2/token".
Definition DEFAULT_TIMEOUT := 30.

(** [InvestecClient.__init__]. *)
Definition __init__ (client_id client_secret api_key : string)
  (use_sandbox : bool) (timeout : Z) : InvestecClient :=
  {| client_id := client_id; client_secret := client_secret;
     api_key := api_key;
     base_url := if use_sandbox then SANDBOX_URL else PRODUCTION_URL;
     timeout := timeout;
     _access_token := None; _token_expires_at := None |}.

(** *** The world outside the client *)

Record request : Type := {
  method : string;
  url : string;
  headers : list (string * string);
  params : list (string * string);
  json : option pyval
}.

(** A response of [requests]: [json_body] is what [response.json()] returns,
    [None] where it raises [ValueError]. *)
Record response : Type := {
  status_code : Z;
  text : string;
  json_body : option pyval;
  content : string
}.

(** [requests.request] returns a response or raises a [RequestException]
    (no connection, timeout, ...). *)
Inductive http_outcome : Type :=
| RequestException
| Response (r : response).

(** What the token request comes to: [requests.post] raises, or
    [raise_for_status] raises [HTTPError], or [response.json()] raises
    [ValueError], or the decoded body is not a mapping (it has no [.get]), or
    it is a mapping, read with [.get("access_token")] and [.get("expires_in")].
    The token is taken at the type the client declares for what it stores, a
    string or nothing; [expires_in] is the entry when there is one, whatever
    JSON value it is. *)
Inductive token_reply : Type :=
| TokenRequestException
| TokenHTTPError
| TokenValueError
| TokenNotMapping
| TokenJson (access_token : option string) (expires_in : option pyval).

(** One call's view of the world: the two readings of [time.time()] (in
    [_get_auth_headers] and in [_authenticate]), [date.today()], the token
    endpoint and the API. *)
Record world : Type := {
  time_check : Q;
  time_auth : Q;
  today : date;
  token_endpoint : token_reply;
  api : request -> http_outcome
}.

Inductive event : Type :=
| TokenRequest
| ApiRequest (r : request).

(** *** The monad of client methods: the client's state, the requests sent,
    and a result or an exception *)

Record outcome (A : Type) : Type := {
  final : InvestecClient;
  trace : list event;
  value : pyresult A
}.

Arguments final {A} o.
Arguments trace {A} o.
Arguments value {A} o.

Definition M (A : Type) : Type := world -> InvestecClient -> outcome A.

Definition ret {A} (a : A) : M A :=
  fun _ self => {| final := self; trace := []; value := Ok a |}.

Definition raise {A} (e : exn pyval) : M A :=
  fun _ self => {| final := self; trace := []; value := Raise e |}.

Definition lift {A} (r : pyresult A) : M A :=
  fun _ self => {| final := self; trace := []; value := r |}.

Definition bindM {A B} (m : M A) (k : A -> M B) : M B :=
  fun w self =>
    let r := m w self in
    match value r with
    | Ok a =>
        let r' := k a w (final r) in
        {| final := final r'; trace := (trace r ++ trace r')%list; value := value r' |}
    | Raise e => {| final := final r; trace := trace r; value := Raise e |}
    end.

Definition ask : M world :=
  fun w self => {| final := self; trace := []; value := Ok w |}.

Definition get_self : M InvestecClient :=
  fun _ self => {| final := self; trace := []; value := Ok self |}.

Definition set_self (self' : InvestecClient) : M unit :=
  fun _ _ => {| final := self'; trace := []; value := Ok tt |}.

Definition emit (e : event) : M unit :=
  fun _ self => {| final := self; trace := [e]; value := Ok tt |}.

End WithRuntime.

Arguments final {rt A} o.
Arguments trace {rt A} o.
Arguments value {rt A} o.

Declare Scope client_scope.
Delimit Scope client_scope with client.
Notation "x <~ m ;; k" := (bindM m (fun x => k))
  (at level 61, m at next level, right associativity) : client_scope.
Local Open Scope client_scope.

Section Methods.
Context {rt : PyRuntime}.

(** *** Token lifecycle *)

Definition token_falsy (tok : option string) : bool :=
  match tok with
  | None => true
  | Some s => String.eqb s ""
  end.

(** [not self._token_expires_at]: [None] and [0.0] are falsy; an infinity
    and a NaN are not. *)
Definition expiry_falsy (t : option float_value) : bool :=
  match t with
  | None => true
  | Some (Number q) => Qeq_bool q 0
  | Some _ => false
  end.

(** [now >= t] on floats: false when [t] is a NaN. *)
Definition float_le (t : float_value) (now : Q) : bool :=
  match t with
  | Number q => Qle_bool q now
  | MinusInfinity => true
  | PlusInfinity | NotANumber => false
  end.

(** The test of [_get_auth_headers]:
    [not self._access_token or not self._token_expires_at
     or time.time() >= self._token_expires_at]. *)
Definition needs_auth (self : InvestecClient) (now : Q) : bool :=
  token_falsy (_access_token self)
  || expiry_falsy (_token_expires_at self)
  || match _token_expires_at self with
     | Some t => float_le t now
     | None => true
     end.

(** [self._access_token = tok]. *)
Definition set_access_token (self : InvestecClient) (tok : option string)
  : InvestecClient :=
  {| client_id := client_id self; client_secret := client_secret self;
     api_key := api_key self; base_url := base_url self;
     timeout := timeout self;
     _access_token := tok;
     _token_expires_at := _token_expires_at self |}.

(** [self._access_token = tok; self._token_expires_at = stamp]. *)
Definition store_token (self : InvestecClient) (tok : option string)
  (stamp : float_value) : InvestecClient :=
  {| client_id := client_id self; client_secret := client_secret self;
     api_key := api_key self; base_url := base_url self;
     timeout := timeout self;
     _access_token := tok;
     _token_expires_at := Some stamp |}.

(** [auth_data.get("expires_in", 1799)]. *)
Definition expires_in_or_default (expires_in : option pyval) : pyval :=
  match expires_in with
  | Some e => e
  | None => PInt 1799
  end.

(** [now + x - 60] for the float [x]. *)
Definition expiry_stamp (now : Q) (x : float_value) : float_value :=
  match x with
  | Number e => Number (now + e - 60)
  | PlusInfinity => PlusInfinity
  | MinusInfinity => MinusInfinity
  | NotANumber => NotANumber
  end.

(** The handlers of [_authenticate] catch [HTTPError], [RequestException]
    and [ValueError]; what else the body raises passes through. *)
Definition auth_handler (e : exn pyval) : exn pyval :=
  match e with
  | ValueError => InvestecAuthError
  | _ => e
  end.

(** [_authenticate].  The token is stored before [float(expires_in)] is
    computed, the expiry after it: when [float] raises, the new token stays
    with the expiry there was. *)
Definition _authenticate : M unit :=
  w <~ ask ;;
  self <~ get_self ;;
  _ <~ emit TokenRequest ;;
  match token_endpoint w with
  | TokenRequestException => raise InvestecAuthError
  | TokenHTTPError => raise InvestecAuthError
  | TokenValueError => raise InvestecAuthError
  | TokenNotMapping => raise AttributeError
  | TokenJson access_token expires_in =>
      _ <~ set_self (set_access_token self access_token) ;;
      match py_float (expires_in_or_default expires_in) with
      | Ok x =>
          _ <~ set_self (store_token self access_token (expiry_stamp (time_auth w) x)) ;;
          if token_falsy access_token then raise InvestecAuthError else ret tt
      | Raise e => raise (auth_handler e)
      end
  end.

(** [f"Bearer {self._access_token}"]. *)
Definition bearer (tok : option string) : string :=
  "Bearer " ++ match tok with Some s => s | None => "None" end.

Definition auth_headers (self : InvestecClient) : list (string * string) :=
  [ ("Authorization", bearer (_access_token self));
    ("x-api-key", api_key self);
    ("Accept", "application/json") ].

Definition _get_auth_headers : M (list (string * string)) :=
  w <~ ask ;;
  self <~ get_self ;;
  _ <~ (if needs_auth self (time_check w) then _authenticate else ret tt) ;;
  self <~ get_self ;;
  ret (auth_headers self).

(** *** Requests *)

(** [response.raise_for_status()] raises [HTTPError] on 4xx and 5xx. *)
Definition is_http_error (status : Z) : bool :=
  (400 <=? status) && (status <? 600).

(** The handler of [HTTPError], in [_request] and in [get_document]:
    the status code and the body when it is there and decodes. *)
Definition request_error (r : response) : exn pyval :=
  InvestecRequestError (status_code r)
    (if String.eqb (text r) "" then None else json_body r).

(** The body of the [try] of [_request] once [requests.request] has
    returned or raised, with its handlers: 429 first, then
    [raise_for_status], then the decoded body ([{}] for an empty one).  A body
    that does not decode raises [ValueError], which the handlers turn into
    [InvestecAPIError], in the 429 branch too. *)
Definition handle_response (o : http_outcome) : pyresult pyval :=
  match o with
  | RequestException => Raise InvestecAPIError
  | Response r =>
      if status_code r =? 429 then
        if String.eqb (text r) "" then Raise (InvestecRateLimitError (status_code r) None)
        else match json_body r with
             | Some body => Raise (InvestecRateLimitError (status_code r) (Some body))
             | None => Raise InvestecAPIError
             end
      else if is_http_error (status_code r) then Raise (request_error r)
      else if String.eqb (text r) "" then Ok (PDict [])
      else match json_body r with
           | Some body => Ok body
           | None => Raise InvestecAPIError
           end
  end.

(** [if json_data: headers["Content-Type"] = "application/json"]. *)
Definition with_content_type (headers : list (string * string))
  (json_data : option pyval) : list (string * string) :=
  match json_data with
  | Some j => if truthy j then (headers ++ [("Content-Type", "application/json")])%list
              else headers
  | None => headers
  end.

Definition _request (method path : string) (params : list (string * string))
  (json_data : option pyval) : M pyval :=
  self <~ get_self ;;
  let url := urljoin (base_url self) path in
  headers <~ _get_auth_headers ;;
  let headers := with_content_type headers json_data in
  w <~ ask ;;
  let req := {| method := method; url := url; headers := headers;
                params := params; json := json_data |} in
  _ <~ emit (ApiRequest req) ;;
  lift (handle_response (api w req)).

(** *** Endpoint operations *)

(** [if "data" in response and isinstance(response["data"], list):
       return [cls.from_dict(x) for x in response["data"]]
     return []]. *)
Definition unwrap_list {T} (from_dict : pyval -> pyresult T) (response : pyval)
  : pyresult (list T) :=
  has_data <- py_in "data" response ;;
  is_list <- (if has_data then
                data <- py_getitem response "data" ;;
                Ok (isinstance_list data)
              else Ok false) ;;
  if is_list then
    data <- py_getitem response "data" ;;
    l <- py_iter data ;;
    mapM from_dict l
  else Ok [].

(** A date argument: [Union[date, datetime, str]]. *)
Inductive date_arg : Type :=
| ADate (d : date)
| ADatetime (d : datetime)
| AStr (s : string).

Definition format_date (a : date_arg) : string :=
  match a with
  | ADate d => date_strftime_ymd d
  | ADatetime d => datetime_strftime_ymd d
  | AStr s => s
  end.

Definition date_truthy (a : date_arg) : bool :=
  match a with
  | AStr s => negb (String.eqb s "")
  | _ => true
  end.

Definition get_accounts : M (list Account.t) :=
  response <~ _request "GET" "/za/pb/v1/accounts" [] None ;;
  lift (list_from_api_response Account.from_dict response "accounts").

Definition get_account_balance (account_id : string) : M AccountBalance.t :=
  response <~ _request "GET" ("/za/pb/v1/accounts/" ++ account_id ++ "/balance") [] None ;;
  lift (from_api_response AccountBalance.from_dict response).

Definition get_account_transactions (account_id : string)
  (from_date to_date : option date_arg) (transaction_type : option string)
  (include_pending : bool) : M (list Transaction.t) :=
  let params :=
    ((match from_date with
      | Some d => if date_truthy d then [("fromDate", format_date d)] else []
      | None => []
      end)
     ++ (match to_date with
         | Some d => if date_truthy d then [("toDate", format_date d)] else []
         | None => []
         end)
     ++ (match transaction_type with
         | Some t => if String.eqb t "" then [] else [("transactionType", t)]
         | None => []
         end)
     ++ (if include_pending then [("includePending", "true")] else []))%list in
  response <~ _request "GET" ("/za/pb/v1/accounts/" ++ account_id ++ "/transactions")
                params None ;;
  lift (list_from_api_response Transaction.from_dict response "transactions").

Definition get_account_pending_transactions (account_id : string)
  : M (list PendingTransaction.t) :=
  response <~ _request "GET"
                ("/za/pb/v1/accounts/" ++ account_id ++ "/pending-transactions") [] None ;;
  lift (list_from_api_response PendingTransaction.from_dict response "PendingTransaction").

Definition transfer_multiple (account_id : string) (transfers : list TransferItem.t)
  (profile_id : option string) : M TransferResponse.t :=
  let transfer_request :=
    {| TransferRequest.transfer_list := transfers;
       TransferRequest.profile_id := profile_id |} in
  response <~ _request "POST"
                ("/za/pb/v1/accounts/" ++ account_id ++ "/transfermultiple") []
                (Some (TransferRequest.to_dict transfer_request)) ;;
  lift (from_api_response TransferResponse.from_dict response).

Definition get_beneficiaries : M (list Beneficiary.t) :=
  response <~ _request "GET" "/za/pb/v1/accounts/beneficiaries" [] None ;;
  lift (unwrap_list Beneficiary.from_dict response).

Definition get_beneficiary_categories : M BeneficiaryCategory.t :=
  response <~ _request "GET" "/za/pb/v1/accounts/beneficiarycategories" [] None ;;
  lift (from_api_response BeneficiaryCategory.from_dict response).

Definition pay_beneficiaries (account_id : string)
  (payments : list BeneficiaryPaymentItem.t) : M PaymentResponse.t :=
  let payment_request := {| BeneficiaryPaymentRequest.payment_list := payments |} in
  response <~ _request "POST"
                ("/za/pb/v1/accounts/" ++ account_id ++ "/paymultiple") []
                (Some (BeneficiaryPaymentRequest.to_dict payment_request)) ;;
  lift (from_api_response PaymentResponse.from_dict response).

Definition get_profiles : M (list Profile.t) :=
  response <~ _request "GET" "/za/pb/v1/profiles" [] None ;;
  lift (unwrap_list Profile.from_dict response).

Definition get_profile_accounts (profile_id : string) : M (list Account.t) :=
  response <~ _request "GET" ("/za/pb/v1/profiles/" ++ profile_id ++ "/accounts") [] None ;;
  lift (unwrap_list Account.from_dict response).

Definition get_authorisation_setup (profile_id account_id : string)
  : M AuthorisationSetup.t :=
  response <~ _request "GET"
                ("/za/pb/v1/profiles/" ++ profile_id ++ "/accounts/" ++ account_id
                 ++ "/authorisationsetupdetails") [] None ;;
  lift (from_api_response AuthorisationSetup.from_dict response).

Definition get_profile_beneficiaries (profile_id account_id : string)
  : M (list Beneficiary.t) :=
  response <~ _request "GET"
                ("/za/pb/v1/profiles/" ++ profile_id ++ "/accounts/" ++ account_id
                 ++ "/beneficiaries") [] None ;;
  lift (unwrap_list Beneficiary.from_dict response).

Definition get_documents (account_id : string) (from_date to_date : date_arg)
  : M (list Document.t) :=
  let params := [("fromDate", format_date from_date); ("toDate", format_date to_date)] in
  response <~ _request "GET" ("/za/pb/v1/accounts/" ++ account_id ++ "/documents")
                params None ;;
  w <~ ask ;;
  lift (unwrap_list (Document.from_dict (today w)) response).

(** The body of the [try] of [get_document] with its handlers:
    [raise_for_status], then the raw content. *)
Definition handle_document_response (o : http_outcome) : pyresult string :=
  match o with
  | RequestException => Raise InvestecAPIError
  | Response r =>
      if is_http_error (status_code r) then Raise (request_error r)
      else Ok (content r)
  end.

(** [get_document] sends its request itself, with [requests.get]. *)
Definition get_document (account_id document_type : string)
  (document_date : date_arg) : M string :=
  let date_str := format_date document_date in
  self <~ get_self ;;
  let url := urljoin (base_url self)
               ("/za/pb/v1/accounts/" ++ account_id ++ "/document/"
                ++ document_type ++ "/" ++ date_str) in
  headers <~ _get_auth_headers ;;
  w <~ ask ;;
  let req := {| method := "GET"; url := url; headers := headers;
                params := []; json := None |} in
  _ <~ emit (ApiRequest req) ;;
  lift (handle_document_response (api w req)).

End Methods.

End Client.

(** ** A runtime to run examples in *)

(** Documents without floats; a date is kept as its text and read when it has
    the form [YYYY-MM-DD]; a URL is joined with a path by appending it, which
    is what [urljoin] does for a base that is a scheme and a host and a path
    of plain segments after one leading slash.  It stands in for the Python runtime
    in the closed examples below, none of which holds a float or a date,
    calls [float] on a string, or joins anything else. *)
Module ExampleRuntime.

Definition digit_char (c : ascii) : bool :=
  match c with
  | "0" | "1" | "2" | "3" | "4" | "5" | "6" | "7" | "8" | "9" => true
  | _ => false
  end%char.

Definition iso_date_shape (s : string) : bool :=
  match list_ascii_of_string s with
  | [y1; y2; y3; y4; sep1; m1; m2; sep2; a1; a2] =>
      forallb digit_char [y1; y2; y3; y4; m1; m2; a1; a2]
      && Ascii.eqb sep1 "-" && Ascii.eqb sep2 "-"
  | _ => false
  end.

Definition fromisoformat (s : string) : option string :=
  if iso_date_shape s then Some s else None.

Definition runtime : PyRuntime :=
  {| pyfloat := Empty_set;
     float_repr := fun f => match f with end;
     float_is_zero := fun f => match f with end;
     float_val := fun f => match f with end;
     float_of_str := fun _ => None;
     urljoin := fun base path => base ++ path;
     datetime := string;
     datetime_fromisoformat := fromisoformat;
     datetime_strftime_ymd := fun d => d;
     date := string;
     date_fromisoformat := fromisoformat;
     date_strftime_ymd := fun d => d |}.

#[local] Existing Instance runtime.

(** A transfer reply in its bare shape, and the same under the nested key. *)
Definition responses_example : list (string * pyval) :=
  [ ("TransferResponses",
     PList [PDict [("PaymentReferenceNumber", PStr "UBP0449124469");
                   ("Status", PStr "- No Errors Encountered");
                   ("AuthorisationRequired", PBool false)]]);
    ("ErrorMessage", PStr "") ].

Definition nested_example : list (string * pyval) :=
  [ ("transferResponse", PDict responses_example) ].

(** A transaction of the wire, with a type the enumeration does not have. *)
Definition transaction_example : list (string * pyval) :=
  [ ("accountId", PStr "A1"); ("type", PStr "REVERSAL"); ("status", PStr "POSTED");
    ("description", PStr "Coffee"); ("amount", PStr "45.50") ].

(** What [Transaction.from_dict] makes of it. *)
Definition transaction_example_parsed : Transaction.t :=
  {| Transaction.account_id := PStr "A1";
     Transaction.type := WireValue (PStr "REVERSAL");
     Transaction.transaction_type := PNone;
     Transaction.status := WireValue (PStr "POSTED");
     Transaction.description := PStr "Coffee";
     Transaction.card_number := PNone;
     Transaction.posted_order := PNone;
     Transaction.posting_date := None;
     Transaction.value_date := None;
     Transaction.action_date := None;
     Transaction.transaction_date := None;
     Transaction.amount := PyDecimal.Finite false 4550 (-2);
     Transaction.running_balance := None;
     Transaction.uuid := PNone |}.

Definition category_example : list (string * pyval) :=
  [ ("id", PStr "10"); ("isDefault", PStr "true"); ("name", PStr "Not Categorised") ].

(** A payload without the [data] envelope. *)
Definition no_data_example : list (string * pyval) :=
  [ ("links", PDict [("self", PStr "/za/pb/v1/accounts")]); ("meta", PDict []) ].

Definition ok_response (body : pyval) : Client.response :=
  {| Client.status_code := 200; Client.text := "{...}";
     Client.json_body := Some body; Client.content := "{...}" |}.

(** A 429 with an empty body. *)
Definition too_many_requests : Client.response :=
  {| Client.status_code := 429; Client.text := "";
     Client.json_body := None; Client.content := "" |}.

(** A world where the token endpoint grants ["token-1"] for 120 seconds and
    the API answers every request with [r]. *)
Definition world_answering (r : Client.response) : Client.world :=
  {| Client.time_check := 1000; Client.time_auth := 1001;
     Client.today := "2024-01-31";
     Client.token_endpoint := Client.TokenJson (Some "token-1") (Some (PInt 120));
     Client.api := fun _ => Client.Response r |}.

Definition fresh_client : Client.InvestecClient :=
  Client.__init__ "client-id" "client-secret" "api-key" true Client.DEFAULT_TIMEOUT.

End ExampleRuntime.

(** ** Vocabulary of the further properties *)

Module ExtraDefs.

Section WithRuntime.
Context {rt : PyRuntime}.

(** A response item of a payment with the fields of a response item of a
    transfer: the two classes declare the same fields. *)
Definition as_payment_item (i : TransferResponseItem.t) : PaymentResponseItem.t :=
  {| PaymentResponseItem.payment_reference_number :=
       TransferResponseItem.payment_reference_number i;
     PaymentResponseItem.payment_date := TransferResponseItem.payment_date i;
     PaymentResponseItem.status := TransferResponseItem.status i;
     PaymentResponseItem.beneficiary_name := TransferResponseItem.beneficiary_name i;
     PaymentResponseItem.beneficiary_account_id :=
       TransferResponseItem.beneficiary_account_id i;
     PaymentResponseItem.authorisation_required :=
       TransferResponseItem.authorisation_required i |}.

Definition isinstance_dict (v : pyval) : bool :=
  match v with
  | PDict _ => true
  | _ => false
  end.

(** An optional field as [to_dict] and [from_dict] carry it over: a falsy
    value is left out of the wire form and read back as [None]. *)
Definition kept_if_truthy (v : pyval) : pyval :=
  if truthy v then v else PNone.

End WithRuntime.
End ExtraDefs.

(** ** Configuration ([config.py]) *)

Module Config.

(** [InvestecConfig]: the settings object.  Built with all seven fields
    given, it holds what it is given. *)
Record InvestecConfig : Type := {
  client_id : string;
  client_secret : string;
  api_key : string;
  use_sandbox : bool;
  timeout : Z;
  production_url : string;
  sandbox_url : string
}.

(** The properties [base_url] and [token_url]. *)
Definition base_url (self : InvestecConfig) : string :=
  if use_sandbox self then sandbox_url self else production_url self.

Definition token_url (self : InvestecConfig) : string :=
  base_url self ++ "/identity/v2/oauth2/token".

(** [os.environ]: the variables that are set. *)
Definition environ : Type := string -> option string.

(** [os.environ.get(key, default)]. *)
Definition getenv (env : environ) (key default : string) : string :=
  match env key with
  | Some v => v
  | None => default
  end.

Section Load.

(** [int(s)] for a string: [None] where it raises [ValueError]. *)
Variable int : string -> option Z.

Definition is_true (s : string) : bool := String.eqb (str_lower s) "true".

(** The [config_args] of one family of variables ([prefix] is
    ["INVESTEC_"] or empty); [None] when [int] raises. *)
Definition config_args (prefix : string) (test_mode : bool) (env : environ)
  : option InvestecConfig :=
  match int (getenv env (prefix ++ "TIMEOUT") "30") with
  | Some t =>
      Some {| client_id := getenv env (prefix ++ "CLIENT_ID") "";
              client_secret := getenv env (prefix ++ "CLIENT_SECRET") "";
              api_key := getenv env (prefix ++ "API_KEY") "";
              use_sandbox :=
                test_mode || is_true (getenv env (prefix ++ "USE_SANDBOX") "");
              timeout := t;
              production_url :=
                getenv env (prefix ++ "PRODUCTION_URL") "https://openapi.investec.com";
              sandbox_url :=
                getenv env (prefix ++ "SANDBOX_URL")
                  "https://openapisandbox.investec.com" |}
  | None => None
  end.

Definition missing (s : string) : bool := String.eqb s "".

(** The [try] block: the prefixed variables, and [ValueError] when a
    credential is missing; [None] when the block raises. *)
Definition prefixed (test_mode : bool) (env : environ) : option InvestecConfig :=
  match config_args "INVESTEC_" test_mode env with
  | Some args =>
      if missing (client_id args) || missing (client_secret args)
         || missing (api_key args)
      then None
      else Some args
  | None => None
  end.

Definition test_client_id := "yAxzQRFX97vOcyQAwluEU6H6ePxMA5eY".
Definition test_client_secret := "4dY0PjEYqoBrZ99r".
Definition test_api_key :=
  "eUF4elFSRlg5N3ZPY3lRQXdsdUVVNkg2ZVB4TUE1ZVk6YVc1MlpYTjBaV010ZW1FdGNHSXRZV05qYjNWdWRITXRjMkZ1WkdKdmVBPT0=".

(** The [except] block: the variables without prefix, and in test mode the
    test defaults for what is missing. *)
Definition unprefixed (test_mode : bool) (env : environ) : option InvestecConfig :=
  match config_args "" test_mode env with
  | Some args =>
      if test_mode then
        Some {| client_id := if missing (client_id args) then test_client_id
                             else client_id args;
                client_secret := if missing (client_secret args) then test_client_secret
                                 else client_secret args;
                api_key := if missing (api_key args) then test_api_key
                           else api_key args;
                use_sandbox :=
                  match env "USE_SANDBOX" with
                  | Some v => if missing v then true else use_sandbox args
                  | None => true
                  end;
                timeout := timeout args;
                production_url := production_url args;
                sandbox_url := sandbox_url args |}
      else Some args
  | None => None
  end.

(** [load_config]: [None] when it raises ([ValueError], from [int] in the
    [except] block). *)
Definition load_config (test_mode : bool) (env : environ) : option InvestecConfig :=
  match prefixed test_mode env with
  | Some cfg => Some cfg
  | None => unprefixed test_mode env
  end.

End Load.

End Config.

(** ** Vocabulary of the traffic of the operations *)

Module TrafficDefs.
Import Client.

Section WithRuntime.
Context {rt : PyRuntime}.

(** The API requests of a trace, in the order sent. *)
Definition api_requests (t : list event) : list request :=
  flat_map (fun ev => match ev with
                      | ApiRequest req => [req]
                      | TokenRequest => []
                      end) t.

(** A computation that raises nothing of [exceptions.py]. *)
Definition builtin_only {A} (m : pyresult A) : Prop :=
  forall e, m = Raise e -> isinstance e KApiError = false.

(** [e] is raised by [_request], whatever it is asked to send. *)
Definition raised_by_request (w : world) (self : InvestecClient) (e : exn pyval) : Prop :=
  exists method path params json_data,
    value (_request method path params json_data w self) = Raise e.

(** A request to a path of the private-banking API, joined with the base
    URL of the client. *)
Definition api_path (self : InvestecClient) (req : request) : Prop :=
  exists rest, url req = urljoin (base_url self) ("/za/pb/v1/" ++ rest).

(** The decoding of a reply: it sends nothing and raises nothing of
    [exceptions.py]. *)
Definition silent {A B} (k : A -> M B) : Prop :=
  forall a w self, trace (k a w self) = [] /\ builtin_only (value (k a w self)).

(** What an operation sends: at most one API request, and that one with
    [method] and the JSON body [body], to a path of the API. *)
Definition sends_at_most_one (self : InvestecClient) (method : string)
  (body : option pyval) (t : list event) : Prop :=
  (List.length (api_requests t) <= 1)%nat
  /\ forall req, In req (api_requests t) ->
       Client.method req = method /\ api_path self req /\ json req = body.

(** An operation fails in its request, or after the request was sent and
    answered, and then with an exception that is not one of [exceptions.py]. *)
Definition fails_in_request_or_after {A} (w : world) (self : InvestecClient)
  (o : outcome A) : Prop :=
  forall e, value o = Raise e ->
    raised_by_request w self e
    \/ (isinstance e KApiError = false /\ exists req, api_requests (trace o) = [req]).

End WithRuntime.
End TrafficDefs.

(** ** More examples to run *)

Module ExtraExamples.

Import ExampleRuntime.
#[local] Existing Instance runtime.

(** A world whose token endpoint answers with an HTTP error. *)
Definition world_refusing : Client.world :=
  {| Client.time_check := 1000; Client.time_auth := 1001;
     Client.today := "2024-01-31";
     Client.token_endpoint := Client.TokenHTTPError;
     Client.api := fun _ => Client.Response too_many_requests |}.

(** The request [get_accounts] sends with the token ["token-1"]. *)
Definition accounts_request : Client.request :=
  {| Client.method := "GET";
     Client.url := "https://openapisandbox.investec.com/za/pb/v1/accounts";
     Client.headers := [ ("Authorization", "Bearer token-1");
                         ("x-api-key", "api-key");
                         ("Accept", "application/json") ];
     Client.params := [];
     Client.json := None |}.

Definition hundred : TransferItem.t :=
  {| TransferItem.beneficiary_account_id := PStr "A2";
     TransferItem.amount := PyDecimal.Finite false 10000 (-2);
     TransferItem.my_reference := PStr "rent";
     TransferItem.their_reference := PStr "rent" |}.

(** A stand-in for [int] on strings of ASCII digits. *)
Definition int_of_digits (s : string) : option Z :=
  match list_ascii_of_string s with
  | [] => None
  | l => if forallb digit_char l then Some (Z.of_N (PyDecimal.N_of_digits l))
         else None
  end.

(** An environment with the unprefixed credentials only. *)
Definition unprefixed_env : Config.environ :=
  fun key =>
    if String.eqb key "CLIENT_ID" then Some "client-id"
    else if String.eqb key "CLIENT_SECRET" then Some "client-secret"
    else if String.eqb key "API_KEY" then Some "api-key"
    else None.

(** The client after one successful authentication. *)
Definition authenticated_client : Client.InvestecClient :=
  Client.final (Client._get_auth_headers (world_answering too_many_requests) fresh_client).

(** A payment without authorisers. *)
Definition payment_example : BeneficiaryPaymentItem.t :=
  {| BeneficiaryPaymentItem.beneficiary_id := PStr "B1";
     BeneficiaryPaymentItem.amount := PyDecimal.Finite false 10000 (-2);
     BeneficiaryPaymentItem.my_reference := PStr "rent";
     BeneficiaryPaymentItem.their_reference := PStr "rent";
     BeneficiaryPaymentItem.authoriser_a_id := PNone;
     BeneficiaryPaymentItem.authoriser_b_id := PNone;
     BeneficiaryPaymentItem.auth_period_id := PNone;
     BeneficiaryPaymentItem.faster_payment := PBool true |}.

(** An environment with the prefixed credentials only. *)
Definition prefixed_env : Config.environ :=
  fun key =>
    if String.eqb key "INVESTEC_CLIENT_ID" then Some "client-id"
    else if String.eqb key "INVESTEC_CLIENT_SECRET" then Some "client-secret"
    else if String.eqb key "INVESTEC_API_KEY" then Some "api-key"
    else None.

(** An environment whose [TIMEOUT] is not a number. *)
Definition bad_timeout_env : Config.environ :=
  fun key => if String.eqb key "TIMEOUT" then Some "soon" else None.
(** A reply with a transaction whose amount is null. *)
Definition unreadable_transactions : pyval :=
  PDict [("data", PDict [("transactions", PList [PDict [("amount", PNone)]])])].

End ExtraExamples.

(** * Properties *)

(** ** [Decimal(str(d))] reads back [d] *)

Module PyDecimalFacts.

Import PyDecimal.
Local Open Scope list_scope.

Lemma uchars_digits u : forallb is_digit (uchars u) = true.
Proof. induction u; simpl; auto. Qed.

Lemma fold_uchars_pos u : forall p,
  fold_left step (uchars u) (N.pos p) = N.pos (Pos.of_uint_acc u p).
Proof.
  unfold uchars, ch.
  induction u; intros p; [reflexivity | ..];
    cbn [NilEmpty.string_of_uint list_ascii_of_string fold_left Pos.of_uint_acc];
    rewrite <- IHu; f_equal; unfold step;
    match goal with
    | |- context [digit_val ?c] =>
        let v := eval vm_compute in (digit_val c) in change (digit_val c) with v
    end; lia.
Qed.

Lemma fold_uchars_zero u : fold_left step (uchars u) 0%N = N.of_uint u.
Proof.
  induction u; [reflexivity | exact IHu | ..];
    cbn [N.of_uint Pos.of_uint]; rewrite <- fold_uchars_pos; reflexivity.
Qed.

Lemma N_of_digits_of_N n : N_of_digits (digits_of_N n) = n.
Proof.
  unfold N_of_digits, digits_of_N.
  change (fold_left step (uchars (N.to_uint n)) 0%N = n).
  rewrite fold_uchars_zero. apply DecimalN.Unsigned.of_to.
Qed.

Lemma digits_of_N_digits n : forallb is_digit (digits_of_N n) = true.
Proof. apply uchars_digits. Qed.

Lemma digits_of_N_nonempty n : digits_of_N n <> [].
Proof.
  intros H. pose proof (N_of_digits_of_N n) as E. rewrite H in E. simpl in E.
  subst n. discriminate H.
Qed.

Lemma digit_plain c : is_digit c = true -> plain c = true.
Proof. destruct c as [[] [] [] [] [] [] [] []]; vm_compute; congruence. Qed.

Lemma digit_not_sign c : is_digit c = true -> c <> "-"%char /\ c <> "+"%char.
Proof. destruct c as [[] [] [] [] [] [] [] []]; vm_compute; intuition congruence. Qed.

Lemma forallb_impl {A} (p q : A -> bool) l :
  (forall x, p x = true -> q x = true) -> forallb p l = true -> forallb q l = true.
Proof.
  intros H. induction l as [|x l IH]; simpl; auto.
  rewrite !andb_true_iff. intros [Hx Hl]. auto.
Qed.

Lemma forallb_firstn {A} (p : A -> bool) k l :
  forallb p l = true -> forallb p (firstn k l) = true.
Proof.
  revert l. induction k as [|k IH]; intros [|x l]; simpl; auto.
  rewrite !andb_true_iff. intros [Hx Hl]. auto.
Qed.

Lemma forallb_skipn {A} (p : A -> bool) k l :
  forallb p l = true -> forallb p (skipn k l) = true.
Proof.
  revert l. induction k as [|k IH]; intros [|x l]; simpl; auto.
  rewrite !andb_true_iff. intros [Hx Hl]. auto.
Qed.

Lemma forallb_repeat {A} (p : A -> bool) x k :
  p x = true -> forallb p (repeat x k) = true.
Proof. intros H. induction k; simpl; auto. rewrite H. auto. Qed.

Lemma span_digits_app ds r :
  forallb is_digit ds = true -> stops r -> span_digits (ds ++ r) = (ds, r).
Proof.
  intros Hds Hr. induction ds as [|c ds IH]; simpl in *.
  - destruct r as [|c r]; simpl in *; auto. rewrite Hr. auto.
  - apply andb_true_iff in Hds as [Hc Hds]. rewrite Hc, (IH Hds). auto.
Qed.

Lemma N_of_digits_zeros k l :
  N_of_digits (repeat "0"%char k ++ l) = N_of_digits l.
Proof.
  unfold N_of_digits. rewrite fold_left_app. f_equal.
  induction k; simpl; auto.
Qed.

Lemma lstrip_plain l : forallb plain l = true -> lstrip l = l.
Proof.
  destruct l as [|c l]; simpl; auto. unfold plain at 1.
  destruct (is_space c); simpl; auto. discriminate.
Qed.

Lemma strip_plain l : forallb plain l = true -> strip l = l.
Proof.
  intros H. unfold strip. rewrite (lstrip_plain l H).
  rewrite lstrip_plain, rev_involutive; auto.
  apply forallb_forall. intros x Hx. apply in_rev in Hx.
  revert x Hx. apply forallb_forall. auto.
Qed.

Lemma drop_underscores_plain l :
  forallb plain l = true -> drop_underscores l = l.
Proof.
  intros H. unfold drop_underscores. apply forallb_filter_id.
  revert H. apply forallb_impl. intros x. unfold plain.
  rewrite andb_true_iff. tauto.
Qed.

Lemma digit_lower c : is_digit c = true -> lower c = c.
Proof. destruct c as [[] [] [] [] [] [] [] []]; vm_compute; congruence. Qed.

Lemma map_lower_digits l : forallb is_digit l = true -> map lower l = l.
Proof.
  induction l as [|c l IH]; simpl; auto.
  rewrite andb_true_iff. intros [Hc Hl]. rewrite digit_lower, IH; auto.
Qed.

Lemma parse_exponent_fmt z : parse_exponent ("E"%char :: fmt_plus_d z) = Some z.
Proof.
  unfold parse_exponent, fmt_plus_d.
  change (Ascii.eqb (lower "E") "e") with true. cbv iota.
  pose proof (digits_of_N_nonempty (Z.abs_N z)) as Hne.
  pose proof (digits_of_N_digits (Z.abs_N z)) as Hd.
  pose proof (N_of_digits_of_N (Z.abs_N z)) as Hv.
  destruct (Z.ltb_spec z 0); cbn [ch list_ascii_of_string app];
    destruct (digits_of_N (Z.abs_N z)) as [|c ds]; try congruence;
    rewrite Hd, Hv; f_equal; lia.
Qed.

Lemma parse_exponent_chars ex :
  parse_exponent (exp_chars ex) = Some (match ex with Some z => z | None => 0 end).
Proof. destruct ex; simpl exp_chars; [apply parse_exponent_fmt | reflexivity]. Qed.

Lemma stops_exp ex : stops (exp_chars ex).
Proof. destruct ex; simpl; auto. Qed.

Lemma parse_number_render sg ip fp ex :
  forallb is_digit ip = true -> ip <> [] ->
  forallb is_digit (match fp with Some f => f | None => [] end) = true ->
  parse_number sg (ip ++ frac_chars fp ++ exp_chars ex) =
    Some (Finite sg
            (N_of_digits (ip ++ match fp with Some f => f | None => [] end))
            (match ex with Some z => z | None => 0 end
             - Z.of_nat (List.length (match fp with Some f => f | None => [] end)))).
Proof.
  intros Hip Hne Hfp. unfold parse_number.
  rewrite (span_digits_app ip); auto.
  2:{ destruct fp; simpl; auto. apply stops_exp. }
  destruct fp as [f|]; cbn [frac_chars app].
  - rewrite (span_digits_app f); auto using stops_exp.
    destruct (ip ++ f) eqn:E.
    + apply app_eq_nil in E. tauto.
    + rewrite parse_exponent_chars. reflexivity.
  - assert (Hr : match exp_chars ex with
                 | "."%char :: r => span_digits r
                 | _ => ([], exp_chars ex)
                 end = ([], exp_chars ex)).
    { destruct ex; reflexivity. }
    rewrite Hr. destruct (ip ++ []) eqn:E.
    + apply app_eq_nil in E. tauto.
    + rewrite parse_exponent_chars. reflexivity.
Qed.

Lemma parse_chars_signed sg body d :
  forallb plain body = true ->
  (forall r, body <> "-"%char :: r) -> (forall r, body <> "+"%char :: r) ->
  parse_number sg body = Some d ->
  parse_chars (sign_str sg ++ body) = Some d.
Proof.
  intros Hp Hm Hq Hn. unfold parse_chars.
  assert (Hs : forallb plain (sign_str sg ++ body) = true).
  { rewrite forallb_app, Hp. destruct sg; reflexivity. }
  rewrite strip_plain, drop_underscores_plain by (rewrite ?strip_plain; auto).
  destruct sg; cbn [sign_str ch list_ascii_of_string app].
  - rewrite Hn. reflexivity.
  - assert (E : match body with
                | "-"%char :: r => (true, r)
                | "+"%char :: r => (false, r)
                | _ => (false, body)
                end = (false, body)).
    { destruct body as [|c r]; auto.
      destruct c as [[] [] [] [] [] [] [] []]; auto.
      - exfalso. eapply Hq; reflexivity.
      - exfalso. eapply Hm; reflexivity. }
    rewrite E, Hn. reflexivity.
Qed.

Lemma fmt_plus_d_plain z : forallb plain (fmt_plus_d z) = true.
Proof.
  unfold fmt_plus_d. rewrite forallb_app.
  rewrite (forallb_impl is_digit plain _ digit_plain (digits_of_N_digits _)).
  destruct (z <? 0); reflexivity.
Qed.

Lemma parse_rendered sg ip fp ex c e :
  forallb is_digit ip = true -> ip <> [] ->
  forallb is_digit (match fp with Some f => f | None => [] end) = true ->
  N_of_digits (ip ++ match fp with Some f => f | None => [] end) = c ->
  match ex with Some z => z | None => 0 end
    - Z.of_nat (List.length (match fp with Some f => f | None => [] end)) = e ->
  parse_chars (sign_str sg ++ ip ++ frac_chars fp ++ exp_chars ex)
    = Some (Finite sg c e).
Proof.
  intros Hip Hne Hfp Hc He. apply parse_chars_signed.
  - rewrite !forallb_app.
    rewrite (forallb_impl is_digit plain _ digit_plain Hip).
    assert (forallb plain (frac_chars fp) = true) as ->.
    { destruct fp; simpl; auto. apply (forallb_impl is_digit plain _ digit_plain Hfp). }
    destruct ex; simpl; auto. apply fmt_plus_d_plain.
  - intros r E. destruct ip as [|x ip]; [congruence|]. simpl in *.
    apply andb_true_iff in Hip as [Hx _]. apply digit_not_sign in Hx. injection E. tauto.
  - intros r E. destruct ip as [|x ip]; [congruence|]. simpl in *.
    apply andb_true_iff in Hip as [Hx _]. apply digit_not_sign in Hx. injection E. tauto.
  - rewrite parse_number_render; auto. congruence.
Qed.

Lemma parse_to_chars_finite sg c e :
  parse_chars (to_chars (Finite sg c e)) = Some (Finite sg c e).
Proof.
  unfold to_chars.
  pose proof (digits_of_N_nonempty c) as Hne.
  pose proof (digits_of_N_digits c) as Hd.
  pose proof (N_of_digits_of_N c) as Hv.
  set (ds := digits_of_N c) in *.
  assert (Hlen : 1 <= Z.of_nat (List.length ds)).
  { destruct ds; [congruence | simpl; lia]. }
  set (len := Z.of_nat (List.length ds)) in *.
  cbv zeta.
  set (dotplace := if (e <=? 0) && (-6 <? e + len) then e + len else 1).
  assert (Hdot : (e <= 0 /\ dotplace = e + len) \/ dotplace = 1).
  { subst dotplace. destruct (Z.leb_spec e 0); simpl; auto.
    destruct (-6 <? e + len); auto. }
  destruct (Z.leb_spec dotplace 0) as [H0|H0].
  - (* 0.000ddd *)
    assert (Hex : (e + len =? dotplace) = true) by lia. rewrite Hex.
    apply (parse_rendered sg (ch "0")
             (Some (repeat "0"%char (Z.to_nat (- dotplace)) ++ ds)) None).
    + reflexivity.
    + discriminate.
    + rewrite forallb_app, Hd, forallb_repeat; auto.
    + change (ch "0" ++ ?l) with (repeat "0"%char 1 ++ l).
      rewrite List.app_assoc, <- repeat_app, N_of_digits_zeros. auto.
    + rewrite length_app, repeat_length. fold len. lia.
  - destruct (Z.leb_spec len dotplace) as [H1|H1].
    + (* ddd or dE+n *)
      assert (Hk : Z.to_nat (dotplace - len) = 0%nat) by lia. rewrite Hk.
      cbn [repeat]. rewrite !List.app_nil_r.
      destruct (Z.eqb_spec (e + len) dotplace) as [He|He].
      * apply (parse_rendered sg ds None None); auto.
        -- rewrite List.app_nil_r. auto.
        -- cbn [List.length]. lia.
      * apply (parse_rendered sg ds None (Some (e + len - dotplace))); auto.
        -- rewrite List.app_nil_r. auto.
        -- cbn [List.length]. lia.
    + (* d.ddd with or without exponent *)
      assert (Hip : firstn (Z.to_nat dotplace) ds <> []).
      { intros E. apply (f_equal (@List.length _)) in E.
        rewrite length_firstn in E. simpl in E. fold len in E. lia. }
      destruct (Z.eqb_spec (e + len) dotplace) as [He|He].
      * apply (parse_rendered sg (firstn (Z.to_nat dotplace) ds)
                 (Some (skipn (Z.to_nat dotplace) ds)) None);
          auto using forallb_firstn, forallb_skipn.
        -- rewrite firstn_skipn. auto.
        -- rewrite length_skipn. fold len. lia.
      * apply (parse_rendered sg (firstn (Z.to_nat dotplace) ds)
                 (Some (skipn (Z.to_nat dotplace) ds)) (Some (e + len - dotplace)));
          auto using forallb_firstn, forallb_skipn.
        -- rewrite firstn_skipn. auto.
        -- rewrite length_skipn. fold len. lia.
Qed.

Lemma parse_to_chars d : parse_chars (to_chars d) = Some d.
Proof.
  destruct d as [sg c e|sg|sg sig p].
  - apply parse_to_chars_finite.
  - destruct sg; reflexivity.
  - assert (Hp : forallb is_digit (if (p =? 0)%N then [] else digits_of_N p) = true
                 /\ N_of_digits (if (p =? 0)%N then [] else digits_of_N p) = p).
    { destruct (N.eqb_spec p 0); [subst; auto|].
      split; [apply digits_of_N_digits | apply N_of_digits_of_N]. }
    destruct Hp as [Hd Hv]. unfold to_chars.
    set (diag := if (p =? 0)%N then [] else digits_of_N p) in *.
    unfold parse_chars.
    assert (Hs : forallb plain
                   (sign_str sg ++ (if sig then ch "sNaN" else ch "NaN") ++ diag) = true).
    { rewrite !forallb_app, (forallb_impl is_digit plain _ digit_plain Hd).
      destruct sg, sig; reflexivity. }
    rewrite strip_plain, drop_underscores_plain by (rewrite ?strip_plain; auto).
    destruct sg, sig; cbn [sign_str ch list_ascii_of_string app];
      unfold parse_number, parse_special; cbn [span_digits is_digit];
      simpl; rewrite map_lower_digits, Hd, Hv; auto.
Qed.

(** [Decimal(str(d))] is [d]. *)
Lemma of_str_to_str d : of_str (to_str d) = Some d.
Proof.
  unfold of_str, to_str, ch. rewrite list_ascii_of_string_of_list_ascii.
  apply parse_to_chars.
Qed.

(** An amount of two places is printed in plain notation and read back to
    the same coefficient and exponent. *)
Example amount_two_places :
  to_str (Finite false 10000 (-2)) = "100.00"%string
  /\ of_str "100.00" = Some (Finite false 10000 (-2))
  /\ to_str (Finite false 4550 (-2)) = "45.50"%string
  /\ to_str (Finite true 5 (-3)) = "-0.005"%string
  /\ to_str (Finite false 123 (-10)) = "1.23E-8"%string.
Proof. repeat split; reflexivity. Qed.

End PyDecimalFacts.

(** ** The wire models *)

Module ModelFacts.

Section WithRuntime.
Context {rt : PyRuntime}.

Lemma py_get_dict d key default :
  py_get (PDict d) key default = Ok (get_or d key default).
Proof. unfold py_get, get_or. destruct (lookup key d); reflexivity. Qed.

Lemma py_in_dict d key :
  py_in key (PDict d) = Ok (match lookup key d with Some _ => true | None => false end).
Proof. reflexivity. Qed.

Lemma enum_get_dict {E} d key (default : E) :
  enum_get (PDict d) key default
  = Ok (match lookup key d with
        | Some v => WireValue v
        | None => Member default
        end).
Proof. unfold enum_get. destruct (lookup key d); reflexivity. Qed.

Lemma datetime_field_dict d key :
  datetime_field (PDict d) key = Ok (read_datetime d key).
Proof.
  unfold datetime_field, read_datetime. rewrite py_in_dict. unfold py_getitem.
  destruct (lookup key d) as [v|]; cbn [bind]; [|reflexivity].
  destruct v as [|b|n|f|s|l|l]; cbn [truthy].
  - reflexivity.
  - destruct b; reflexivity.
  - destruct (n =? 0); reflexivity.
  - destruct (float_is_zero f); reflexivity.
  - destruct (String.eqb s ""); reflexivity.
  - destruct l; reflexivity.
  - destruct l; reflexivity.
Qed.

Lemma decimal_field_str d key x :
  lookup key d = Some (PStr (PyDecimal.to_str x)) ->
  decimal_field (PDict d) key = Ok x.
Proof.
  intros H. unfold decimal_field, py_get. rewrite H. simpl.
  rewrite PyDecimalFacts.of_str_to_str. reflexivity.
Qed.

Lemma decimal_field_numeric d key :
  numeric_at d key = true ->
  exists x, Decimal_of_str_of (get_or d key (PInt 0)) = Ok x
            /\ decimal_field (PDict d) key = Ok x.
Proof.
  unfold numeric_at, numeric, decimal_field. rewrite py_get_dict. unfold get_or.
  cbn [bind]. destruct (lookup key d) as [v|].
  - destruct (Decimal_of_str_of v); [eauto | discriminate].
  - intros _. eexists. split; vm_compute; reflexivity.
Qed.

Lemma running_balance_field_numeric d :
  numeric_or_none_at d "runningBalance" = true ->
  exists x, match lookup "runningBalance" d with
            | None | Some PNone => Ok None
            | Some v => match Decimal_of_str_of v with
                        | Ok y => Ok (Some y)
                        | Raise e => Raise e
                        end
            end = Ok x
            /\ Transaction.running_balance_field (PDict d) = Ok x.
Proof.
  unfold numeric_or_none_at, numeric, Transaction.running_balance_field.
  rewrite py_in_dict. unfold py_getitem.
  destruct (lookup "runningBalance" d) as [v|]; cbn [bind]; [|eauto].
  destruct v; eauto;
    match goal with
    | |- context [Decimal_of_str_of ?v] =>
        destruct (Decimal_of_str_of v); [cbn [bind]; eauto | discriminate]
    end.
Qed.

(** *** The two envelopes of a transfer reply *)


Lemma has_nested_absent d key :
  lookup "transferResponse" d = None ->
  has_nested (PDict d) "transferResponse" key = Ok false.
Proof. intros H. unfold has_nested. rewrite py_in_dict, H. reflexivity. Qed.


Lemma nested_or_bare_bare d key default :
  lookup "transferResponse" d = None ->
  TransferResponse.nested_or_bare (PDict d) key default = Ok (get_or d key default).
Proof.
  intros H. unfold TransferResponse.nested_or_bare.
  rewrite (has_nested_absent d key H). cbn [bind].
  rewrite py_in_dict. unfold get_or. cbn.
  destruct (lookup key d) eqn:E'; cbn; rewrite ?E'; reflexivity.
Qed.





(** C5, as amended.  [PaymentResponse.from_dict] reads the bare shape only:
    its result depends on nothing but the mapping's own [TransferResponses]
    and [ErrorMessage] entries, so what is nested under [transferResponse] is
    never read, and a mapping without these two entries gives the empty list
    of responses and no error message. *)
Theorem payment_response_reads_bare_keys_only (d d' : list (string * pyval)) :
  lookup "TransferResponses" d = lookup "TransferResponses" d' ->
  lookup "ErrorMessage" d = lookup "ErrorMessage" d' ->
  PaymentResponse.from_dict (PDict d) = PaymentResponse.from_dict (PDict d')
  /\ (lookup "TransferResponses" d = None ->
      lookup "ErrorMessage" d = None ->
      PaymentResponse.from_dict (PDict d)
      = Ok {| PaymentResponse.transfer_responses := [];
              PaymentResponse.error_message := PNone |}).
Proof.
  intros Hr He. unfold PaymentResponse.from_dict.
  rewrite !py_in_dict, !py_get_dict. unfold get_or, py_getitem.
  rewrite <- Hr, <- He. split; [reflexivity|].
  intros -> ->. reflexivity.
Qed.

(** *** Decimal and enumeration fields *)

(** C6, as amended.  On a mapping, the deserializers of [Transaction],
    [AccountBalance], [TransferItem] and [BeneficiaryPaymentItem] return
    whenever each decimal entry that is present is numeric, with a string
    form within the limits of the decimal library ([amount], the five
    balances; [runningBalance] may also be [None]), whatever the types of the
    values of all other entries.  The result holds, for a decimal entry, the
    decimal its string form denotes (0 for an absent one, [None] for an
    absent or null [runningBalance]); for a date entry, the date when the
    entry is a non-empty string [fromisoformat] reads and [None] otherwise;
    and for every other field the entry as it is, neither coerced nor
    replaced, or the default when the key is absent. *)
Theorem deserializers_total_on_numeric_amounts (d : list (string * pyval)) :
  (numeric_at d "amount" = true ->
   numeric_or_none_at d "runningBalance" = true ->
   exists amount running_balance,
     Decimal_of_str_of (get_or d "amount" (PInt 0)) = Ok amount
     /\ match lookup "runningBalance" d with
        | None | Some PNone => Ok None
        | Some v => match Decimal_of_str_of v with
                    | Ok y => Ok (Some y)
                    | Raise e => Raise e
                    end
        end = Ok running_balance
     /\ Transaction.from_dict (PDict d)
        = Ok {| Transaction.account_id := get_or d "accountId" (PStr "");
                Transaction.type :=
                  match lookup "type" d with
                  | Some v => WireValue v
                  | None => Member DEBIT
                  end;
                Transaction.transaction_type := get_or d "transactionType" PNone;
                Transaction.status :=
                  match lookup "status" d with
                  | Some v => WireValue v
                  | None => Member POSTED
                  end;
                Transaction.description := get_or d "description" (PStr "");
                Transaction.card_number := get_or d "cardNumber" PNone;
                Transaction.posted_order := get_or d "postedOrder" PNone;
                Transaction.posting_date := read_datetime d "postingDate";
                Transaction.value_date := read_datetime d "valueDate";
                Transaction.action_date := read_datetime d "actionDate";
                Transaction.transaction_date := read_datetime d "transactionDate";
                Transaction.amount := amount;
                Transaction.running_balance := running_balance;
                Transaction.uuid := get_or d "uuid" PNone |})
  /\ (numeric_at d "currentBalance" = true ->
      numeric_at d "availableBalance" = true ->
      numeric_at d "budgetBalance" = true ->
      numeric_at d "straightBalance" = true ->
      numeric_at d "cashBalance" = true ->
      exists current available budget straight cash,
        Decimal_of_str_of (get_or d "currentBalance" (PInt 0)) = Ok current
        /\ Decimal_of_str_of (get_or d "availableBalance" (PInt 0)) = Ok available
        /\ Decimal_of_str_of (get_or d "budgetBalance" (PInt 0)) = Ok budget
        /\ Decimal_of_str_of (get_or d "straightBalance" (PInt 0)) = Ok straight
        /\ Decimal_of_str_of (get_or d "cashBalance" (PInt 0)) = Ok cash
        /\ AccountBalance.from_dict (PDict d)
           = Ok {| AccountBalance.account_id := get_or d "accountId" (PStr "");
                   AccountBalance.current_balance := current;
                   AccountBalance.available_balance := available;
                   AccountBalance.budget_balance := budget;
                   AccountBalance.straight_balance := straight;
                   AccountBalance.cash_balance := cash;
                   AccountBalance.currency := get_or d "currency" (PStr "ZAR") |})
  /\ (numeric_at d "amount" = true ->
      exists amount,
        Decimal_of_str_of (get_or d "amount" (PInt 0)) = Ok amount
        /\ TransferItem.from_dict (PDict d)
           = Ok {| TransferItem.beneficiary_account_id :=
                     get_or d "beneficiaryAccountId" (PStr "");
                   TransferItem.amount := amount;
                   TransferItem.my_reference := get_or d "myReference" (PStr "");
                   TransferItem.their_reference :=
                     get_or d "theirReference" (PStr "") |})
  /\ (numeric_at d "amount" = true ->
      exists amount,
        Decimal_of_str_of (get_or d "amount" (PInt 0)) = Ok amount
        /\ BeneficiaryPaymentItem.from_dict (PDict d)
           = Ok {| BeneficiaryPaymentItem.beneficiary_id :=
                     get_or d "beneficiaryId" (PStr "");
                   BeneficiaryPaymentItem.amount := amount;
                   BeneficiaryPaymentItem.my_reference :=
                     get_or d "myReference" (PStr "");
                   BeneficiaryPaymentItem.their_reference :=
                     get_or d "theirReference" (PStr "");
                   BeneficiaryPaymentItem.authoriser_a_id :=
                     get_or d "authoriserAId" PNone;
                   BeneficiaryPaymentItem.authoriser_b_id :=
                     get_or d "authoriserBId" PNone;
                   BeneficiaryPaymentItem.auth_period_id :=
                     get_or d "authPeriodId" PNone;
                   BeneficiaryPaymentItem.faster_payment :=
                     get_or d "fasterPayment" PNone |}).
Proof.
  split; [|split; [|split]].
  - intros Ha Hr.
    destruct (decimal_field_numeric d "amount" Ha) as (a & Pa & Ea).
    destruct (running_balance_field_numeric d Hr) as (r & Pr & Er).
    exists a, r. split; [exact Pa|]. split; [exact Pr|].
    unfold Transaction.from_dict.
    rewrite !datetime_field_dict, Ea, Er, !py_get_dict, !enum_get_dict. reflexivity.
  - intros H1 H2 H3 H4 H5.
    destruct (decimal_field_numeric d _ H1) as (x1 & P1 & E1).
    destruct (decimal_field_numeric d _ H2) as (x2 & P2 & E2).
    destruct (decimal_field_numeric d _ H3) as (x3 & P3 & E3).
    destruct (decimal_field_numeric d _ H4) as (x4 & P4 & E4).
    destruct (decimal_field_numeric d _ H5) as (x5 & P5 & E5).
    exists x1, x2, x3, x4, x5. repeat (split; [assumption|]).
    unfold AccountBalance.from_dict.
    rewrite E1, E2, E3, E4, E5, !py_get_dict. reflexivity.
  - intros Ha. destruct (decimal_field_numeric d "amount" Ha) as (a & Pa & Ea).
    exists a. split; [exact Pa|].
    unfold TransferItem.from_dict. rewrite Ea, !py_get_dict. reflexivity.
  - intros Ha. destruct (decimal_field_numeric d "amount" Ha) as (a & Pa & Ea).
    exists a. split; [exact Pa|].
    unfold BeneficiaryPaymentItem.from_dict. rewrite Ea, !py_get_dict. reflexivity.
Qed.

(** C7, as amended.  When [Transaction.from_dict] returns on a mapping, its
    [type] and [status] are the wire values unchanged where the keys are
    present, and the members [DEBIT] and [POSTED] where, and only where, they
    are absent.  So a field holds a member of its enumeration exactly when its
    key is absent or its wire value is one of the enumeration's strings: an
    unknown wire value is kept as it is, never turned into a member. *)
Theorem transaction_enum_fields_pass_through (d : list (string * pyval))
  (t : Transaction.t) :
  Transaction.from_dict (PDict d) = Ok t ->
  Transaction.type t
    = match lookup "type" d with
      | Some v => WireValue v
      | None => Member DEBIT
      end
  /\ Transaction.status t
    = match lookup "status" d with
      | Some v => WireValue v
      | None => Member POSTED
      end
  /\ (is_TransactionType (Transaction.type t) = true <->
      lookup "type" d = None \/ lookup "type" d = Some (PStr "CREDIT")
      \/ lookup "type" d = Some (PStr "DEBIT"))
  /\ (is_TransactionStatus (Transaction.status t) = true <->
      lookup "status" d = None \/ lookup "status" d = Some (PStr "POSTED")
      \/ lookup "status" d = Some (PStr "PENDING")).
Proof.
  unfold Transaction.from_dict.
  rewrite !datetime_field_dict, !py_get_dict, !enum_get_dict. cbn [bind].
  destruct (decimal_field (PDict d) "amount"); [|discriminate].
  destruct (Transaction.running_balance_field (PDict d)); [|discriminate].
  cbn [bind]. intros H. injection H as <-. cbn [Transaction.type Transaction.status].
  split; [reflexivity|]. split; [reflexivity|]. split.
  - destruct (lookup "type" d) as [[| | | |s| |]|]; cbn; try (intuition congruence).
    rewrite !orb_true_iff, !String.eqb_eq. intuition (subst; auto; congruence).
  - destruct (lookup "status" d) as [[| | | |s| |]|]; cbn; try (intuition congruence).
    rewrite !orb_true_iff, !String.eqb_eq. intuition (subst; auto; congruence).
Qed.

(** C8.  Serializing a [TransferItem] and deserializing the result gives the
    item back: the same [beneficiary_account_id], [my_reference] and
    [their_reference], and the same [amount] as a decimal, coefficient and
    exponent alike (so [100.00] comes back as [100.00], to its two places). *)
Theorem transfer_item_round_trip (item : TransferItem.t) :
  TransferItem.from_dict (TransferItem.to_dict item) = Ok item.
Proof.
  destruct item as [acct amt mine theirs].
  unfold TransferItem.from_dict, TransferItem.to_dict.
  cbn [TransferItem.beneficiary_account_id TransferItem.amount
       TransferItem.my_reference TransferItem.their_reference].
  rewrite (decimal_field_str _ "amount" amt) by reflexivity.
  reflexivity.
Qed.

(** C9.  For a mapping whose [isDefault] is the string ["true"] or ["false"]
    or the boolean [true] or [false], [BeneficiaryCategory.from_dict] returns
    and [is_default] is the boolean the value spells: the string and the
    boolean of one truth value give the same result. *)
Theorem is_default_normalizes (d : list (string * pyval)) (v : pyval) (b : bool) :
  lookup "isDefault" d = Some v ->
  v = PStr (if b then "true" else "false") \/ v = PBool b ->
  exists c, BeneficiaryCategory.from_dict (PDict d) = Ok c
            /\ BeneficiaryCategory.is_default c = b.
Proof.
  intros Hd Hv.
  unfold BeneficiaryCategory.from_dict, BeneficiaryCategory.is_default_field.
  rewrite py_in_dict, !py_get_dict. unfold py_getitem. rewrite Hd. cbn [bind].
  eexists. split; [reflexivity|]. cbn [BeneficiaryCategory.is_default].
  destruct Hv as [-> | ->]; destruct b; reflexivity.
Qed.

End WithRuntime.

(** *** Closed instances, in the example runtime *)

Import ExampleRuntime.
#[local] Existing Instance runtime.


(** C5 does not hold as the specification states it: the bare reply gives its item and its
    error message, the same reply under [transferResponse] gives the empty
    list and [None], where [TransferResponse.from_dict] reads both alike. *)
Lemma payment_response_nested_is_lost :
  (exists item,
      PaymentResponse.from_dict (PDict responses_example)
      = Ok {| PaymentResponse.transfer_responses := [item];
              PaymentResponse.error_message := PStr "" |})
  /\ PaymentResponse.from_dict (PDict nested_example)
     = Ok {| PaymentResponse.transfer_responses := [];
             PaymentResponse.error_message := PNone |}
  /\ TransferResponse.from_dict (PDict nested_example)
     = TransferResponse.from_dict (PDict responses_example).
Proof.
  split; [eexists; reflexivity|]. split; reflexivity.
Qed.

Lemma payment_response_reads_bare_keys_only_witness :
  PaymentResponse.from_dict
    (PDict (("transferResponse", PDict responses_example) :: responses_example))
  = PaymentResponse.from_dict (PDict responses_example).
Proof.
  exact (proj1 (payment_response_reads_bare_keys_only
                  (("transferResponse", PDict responses_example) :: responses_example)
                  responses_example eq_refl eq_refl)).
Defined.

(** C6 does not hold as the specification states it: an [amount] that is not a numeric string,
    or a balance that is [None], makes the deserializer raise
    [decimal.InvalidOperation]. *)
Lemma non_numeric_amount_raises :
  Transaction.from_dict (PDict [("accountId", PStr "A1"); ("amount", PStr "abc")])
  = Raise InvalidOperation
  /\ AccountBalance.from_dict (PDict [("accountId", PStr "A1"); ("currentBalance", PNone)])
     = Raise InvalidOperation
  /\ TransferItem.from_dict (PDict [("amount", PStr "abc")]) = Raise InvalidOperation
  /\ BeneficiaryPaymentItem.from_dict (PDict [("amount", PStr "abc")])
     = Raise InvalidOperation.
Proof. repeat split; reflexivity. Qed.

Lemma deserializers_total_on_numeric_amounts_witness :
  exists amount running_balance,
    Decimal_of_str_of (PStr "45.50") = Ok amount
    /\ (Ok None : pyresult (option PyDecimal.Decimal)) = Ok running_balance
    /\ Transaction.from_dict (PDict transaction_example)
       = Ok {| Transaction.account_id := PStr "A1";
               Transaction.type := WireValue (PStr "REVERSAL");
               Transaction.transaction_type := PNone;
               Transaction.status := WireValue (PStr "POSTED");
               Transaction.description := PStr "Coffee";
               Transaction.card_number := PNone;
               Transaction.posted_order := PNone;
               Transaction.posting_date := None;
               Transaction.value_date := None;
               Transaction.action_date := None;
               Transaction.transaction_date := None;
               Transaction.amount := amount;
               Transaction.running_balance := running_balance;
               Transaction.uuid := PNone |}.
Proof.
  exact (proj1 (deserializers_total_on_numeric_amounts transaction_example)
           eq_refl eq_refl).
Defined.

Lemma transaction_example_parses :
  Transaction.from_dict (PDict transaction_example) = Ok transaction_example_parsed.
Proof. reflexivity. Qed.

(** C7 does not hold as the specification states it: the wire type ["REVERSAL"] is stored as
    it is, and is no member of [{CREDIT, DEBIT}]. *)
Lemma unknown_type_is_kept :
  Transaction.from_dict (PDict transaction_example) = Ok transaction_example_parsed
  /\ Transaction.type transaction_example_parsed = WireValue (PStr "REVERSAL")
  /\ is_TransactionType (Transaction.type transaction_example_parsed) = false.
Proof. split; [exact transaction_example_parses|]. split; reflexivity. Qed.

Lemma transaction_enum_fields_pass_through_witness :
  Transaction.type transaction_example_parsed = WireValue (PStr "REVERSAL")
  /\ Transaction.status transaction_example_parsed = WireValue (PStr "POSTED").
Proof.
  split; [exact (proj1 (transaction_enum_fields_pass_through
                          transaction_example transaction_example_parsed
                          transaction_example_parses))
         |exact (proj1 (proj2 (transaction_enum_fields_pass_through
                                 transaction_example transaction_example_parsed
                                 transaction_example_parses)))].
Defined.

Lemma is_default_normalizes_witness :
  exists c, BeneficiaryCategory.from_dict (PDict category_example) = Ok c
            /\ BeneficiaryCategory.is_default c = true.
Proof.
  exact (is_default_normalizes category_example (PStr "true") true
           eq_refl (or_introl eq_refl)).
Defined.

End ModelFacts.

(** ** The client *)

Module ClientFacts.

Import Client.
Local Open Scope client_scope.

Section WithRuntime.
Context {rt : PyRuntime}.

Lemma value_bindM {A B} (m : M A) (k : A -> M B) w self :
  value (bindM m k w self)
  = match value (m w self) with
    | Ok a => value (k a w (final (m w self)))
    | Raise e => Raise e
    end.
Proof. unfold bindM. destruct (value (m w self)); reflexivity. Qed.

(** *** What the methods come to *)

Lemma _authenticate_eq w self :
  _authenticate w self
  = match token_endpoint w with
    | TokenJson tok e =>
        match py_float (expires_in_or_default e) with
        | Ok x =>
            {| final := store_token self tok (expiry_stamp (time_auth w) x);
               trace := [TokenRequest];
               value := if token_falsy tok then Raise InvestecAuthError else Ok tt |}
        | Raise err =>
            {| final := set_access_token self tok; trace := [TokenRequest];
               value := Raise (auth_handler err) |}
        end
    | TokenNotMapping =>
        {| final := self; trace := [TokenRequest]; value := Raise AttributeError |}
    | _ => {| final := self; trace := [TokenRequest]; value := Raise InvestecAuthError |}
    end.
Proof.
  unfold _authenticate. cbv [bindM ask get_self emit value final trace].
  destruct (token_endpoint w) as [| | | |tok e]; try reflexivity.
  cbv [bindM set_self value final trace].
  destruct (py_float (expires_in_or_default e)) as [x|err]; [|reflexivity].
  cbv [bindM set_self value final trace]. destruct (token_falsy tok); reflexivity.
Qed.

Lemma _get_auth_headers_eq w self :
  _get_auth_headers w self
  = if needs_auth self (time_check w) then
      let r := _authenticate w self in
      {| final := final r; trace := trace r;
         value := match value r with
                  | Ok _ => Ok (auth_headers (final r))
                  | Raise e => Raise e
                  end |}
    else {| final := self; trace := []; value := Ok (auth_headers self) |}.
Proof.
  unfold _get_auth_headers. cbv [bindM ask get_self value final trace].
  destruct (needs_auth self (time_check w)).
  - cbv zeta. destruct (_authenticate w self) as [f t [[]|e]]; cbn.
    + rewrite List.app_nil_r. reflexivity.
    + reflexivity.
  - reflexivity.
Qed.

Lemma _request_eq method path params json_data w self :
  _request method path params json_data w self
  = let a := _get_auth_headers w self in
    match value a with
    | Ok hs =>
        let req := {| method := method; url := urljoin (base_url self) path;
                      headers := with_content_type hs json_data;
                      params := params; json := json_data |} in
        {| final := final a; trace := (trace a ++ [ApiRequest req])%list;
           value := handle_response (api w req) |}
    | Raise e => {| final := final a; trace := trace a; value := Raise e |}
    end.
Proof.
  unfold _request. cbv [bindM ask get_self emit lift value final trace].
  destruct (_get_auth_headers w self) as [f t [hs|e]]; cbn; [|reflexivity].
  rewrite ?List.app_nil_r. reflexivity.
Qed.

Lemma get_document_eq account_id document_type document_date w self :
  get_document account_id document_type document_date w self
  = let a := _get_auth_headers w self in
    match value a with
    | Ok hs =>
        let req := {| method := "GET";
                      url := urljoin (base_url self)
                               ("/za/pb/v1/accounts/" ++ account_id ++ "/document/"
                                ++ document_type ++ "/" ++ format_date document_date);
                      headers := hs; params := []; json := None |} in
        {| final := final a; trace := (trace a ++ [ApiRequest req])%list;
           value := handle_document_response (api w req) |}
    | Raise e => {| final := final a; trace := trace a; value := Raise e |}
    end.
Proof.
  unfold get_document. cbv [bindM ask get_self emit lift value final trace].
  destruct (_get_auth_headers w self) as [f t [hs|e]]; cbn; [|reflexivity].
  rewrite ?List.app_nil_r. reflexivity.
Qed.

(** *** Token lifecycle *)

(** The token request is sent exactly when the test of [_get_auth_headers]
    holds. *)
Lemma auth_trace w self :
  trace (_get_auth_headers w self)
  = if needs_auth self (time_check w) then [TokenRequest] else [].
Proof.
  rewrite _get_auth_headers_eq, _authenticate_eq.
  destruct (needs_auth self (time_check w)); [|reflexivity].
  destruct (token_endpoint w) as [| | | |tok e]; try reflexivity.
  destruct (py_float (expires_in_or_default e)); reflexivity.
Qed.

Lemma needs_auth_spec self now :
  needs_auth self now = true <->
  token_falsy (_access_token self) = true
  \/ match _token_expires_at self with
     | Some (Number t) => (t == 0 \/ t <= now)%Q
     | Some MinusInfinity => True
     | Some _ => False
     | None => True
     end.
Proof.
  unfold needs_auth, expiry_falsy, float_le. rewrite !orb_true_iff.
  destruct (_token_expires_at self) as [[t| | |]|].
  - rewrite Qeq_bool_iff, Qle_bool_iff. tauto.
  - intuition discriminate.
  - tauto.
  - intuition discriminate.
  - tauto.
Qed.

(** C1.  Let the token request of [_authenticate], run at time [T], return a
    token and [expires_in], a number of seconds ([float(expires_in)] gives
    it), and [_authenticate] return normally.  Then the client stores the
    expiry timestamp [T + expires_in - 60], with 1799 for an absent
    [expires_in]; a later call, at a time [now] of the clock (seconds since
    the epoch, so not negative), sends a token request exactly when the
    stored token is absent or [now >= T + expires_in - 60]; and for
    [expires_in = 120] a call at [T + 61] or later re-authenticates and a call
    before [T + 60] does not. *)
Theorem token_expiry_timing (w0 : world) (self0 : InvestecClient)
  (tok : option string) (expires_in : option pyval) (seconds : Q) :
  token_endpoint w0 = TokenJson tok expires_in ->
  py_float (expires_in_or_default expires_in) = Ok (Number seconds) ->
  value (_authenticate w0 self0) = Ok tt ->
  let self := final (_authenticate w0 self0) in
  let T := time_auth w0 in
  let stamp := (T + seconds - 60)%Q in
  _token_expires_at self = Some (Number stamp)
  /\ py_float (expires_in_or_default None) = Ok (Number 1799)
  /\ (forall w : world,
        (0 <= time_check w)%Q ->
        (In TokenRequest (trace (_get_auth_headers w self)) <->
         token_falsy (_access_token self) = true \/ (stamp <= time_check w)%Q))
  /\ (expires_in = Some (PInt 120) ->
      forall w : world,
        (0 <= time_check w)%Q ->
        ((T + 61 <= time_check w)%Q ->
         trace (_get_auth_headers w self) = [TokenRequest])
        /\ ((time_check w < T + 60)%Q ->
            trace (_get_auth_headers w self) = [])).
Proof.
  intros Hreply Hfloat Hok. cbv zeta. revert Hok.
  rewrite _authenticate_eq, Hreply, Hfloat.
  cbn [value final expiry_stamp]. destruct (token_falsy tok) eqn:Htok; [discriminate|].
  intros _.
  assert (Hiff : forall w : world,
             (0 <= time_check w)%Q ->
             needs_auth (store_token self0 tok (Number (time_auth w0 + seconds - 60)%Q))
                        (time_check w) = true
             <-> (time_auth w0 + seconds - 60 <= time_check w)%Q).
  { intros w Hw. rewrite needs_auth_spec. cbn [store_token _access_token _token_expires_at].
    rewrite Htok. split.
    - intros [H|[H|H]]; [discriminate| |exact H]. rewrite H. exact Hw.
    - auto. }
  split; [reflexivity|]. split; [reflexivity|]. split.
  - intros w Hw. rewrite auth_trace.
    cbn [store_token _access_token]. rewrite Htok.
    specialize (Hiff w Hw).
    destruct (needs_auth _ (time_check w)); cbn [In].
    + split; [intros _; right; apply Hiff; reflexivity | auto].
    + split; [tauto|]. intros [H|H]; [discriminate|].
      apply Hiff in H. discriminate.
  - intros -> w Hw. specialize (Hiff w Hw).
    assert (Hs : (seconds == 120)%Q).
    { revert Hfloat. cbn [expires_in_or_default py_float].
      destruct (Z.abs 120 <? float_overflow); [|discriminate].
      intros H. injection H as <-. reflexivity. }
    rewrite auth_trace. split; intros H.
    + assert (E : needs_auth (store_token self0 tok
                                (Number (time_auth w0 + seconds - 60)%Q))
                    (time_check w) = true) by (apply Hiff; lra).
      rewrite E. reflexivity.
    + destruct (needs_auth (store_token self0 tok
                              (Number (time_auth w0 + seconds - 60)%Q))
                  (time_check w)) eqn:E; [|reflexivity].
      apply proj1 in Hiff. specialize (Hiff eq_refl). lra.
Qed.

Lemma get_auth_headers_token (w : world) (self : InvestecClient)
  (hs : list (string * string)) :
  value (_get_auth_headers w self) = Ok hs ->
  exists tok : string,
    _access_token (final (_get_auth_headers w self)) = Some tok
    /\ tok <> ""
    /\ hs = [ ("Authorization", "Bearer " ++ tok);
              ("x-api-key", api_key self);
              ("Accept", "application/json") ].
Proof.
  rewrite _get_auth_headers_eq, _authenticate_eq.
  destruct (needs_auth self (time_check w)) eqn:Hn.
  - destruct (token_endpoint w) as [| | | |tok e]; cbn; try discriminate.
    destruct (py_float (expires_in_or_default e)); cbn; [|discriminate].
    destruct tok as [tok|]; cbn; [|discriminate].
    destruct (String.eqb_spec tok ""); [discriminate|].
    intros H. injection H as <-. exists tok. repeat split; auto.
  - cbn. intros H. injection H as <-.
    unfold needs_auth in Hn. apply orb_false_iff in Hn as [Hn _].
    apply orb_false_iff in Hn as [Hn _]. unfold token_falsy in Hn.
    destruct (_access_token self) as [tok|] eqn:E; [|discriminate].
    exists tok. destruct (String.eqb_spec tok ""); [discriminate|].
    unfold auth_headers. rewrite E. repeat split; auto.
Qed.

Lemma sent_request_headers (w : world) (self : InvestecClient) (req : request) :
  (forall method path params json_data,
      In (ApiRequest req) (trace (_request method path params json_data w self)) ->
      exists hs, value (_get_auth_headers w self) = Ok hs
                 /\ headers req = with_content_type hs json_data)
  /\ (forall account_id document_type document_date,
      In (ApiRequest req)
         (trace (get_document account_id document_type document_date w self)) ->
      exists hs, value (_get_auth_headers w self) = Ok hs /\ headers req = hs).
Proof.
  assert (Ht : forall e, In e (trace (_get_auth_headers w self)) -> e = TokenRequest).
  { intros e. rewrite auth_trace. destruct (needs_auth _ _); cbn; intuition congruence. }
  split; intros *.
  - rewrite _request_eq. cbv zeta.
    destruct (value (_get_auth_headers w self)) as [hs|e] eqn:Hv; cbn [trace].
    + rewrite in_app_iff. intros [H|[H|[]]]; [apply Ht in H; discriminate|].
      injection H as <-. eauto.
    + intros H. apply Ht in H. discriminate.
  - rewrite get_document_eq. cbv zeta.
    destruct (value (_get_auth_headers w self)) as [hs|e] eqn:Hv; cbn [trace].
    + rewrite in_app_iff. intros [H|[H|[]]]; [apply Ht in H; discriminate|].
      injection H as <-. eauto.
    + intros H. apply Ht in H. discriminate.
Qed.

(** C10.  Whenever [_get_auth_headers] returns normally, the stored access
    token is a non-empty string [tok] and the [Authorization] header it
    returns is ["Bearer "] followed by [tok]; and every request the client
    sends, through [_request] or in [get_document], carries that header, so
    none goes out with an absent or empty bearer token. *)
Theorem bearer_token_is_never_empty (w : world) (self : InvestecClient) :
  (forall hs : list (string * string),
      value (_get_auth_headers w self) = Ok hs ->
      exists tok : string,
        _access_token (final (_get_auth_headers w self)) = Some tok
        /\ tok <> ""
        /\ hs = [ ("Authorization", "Bearer " ++ tok);
                  ("x-api-key", api_key self);
                  ("Accept", "application/json") ])
  /\ (forall (req : request) method path params json_data,
      In (ApiRequest req) (trace (_request method path params json_data w self)) ->
      exists tok : string,
        tok <> "" /\ In ("Authorization", "Bearer " ++ tok) (headers req))
  /\ (forall (req : request) account_id document_type document_date,
      In (ApiRequest req)
         (trace (get_document account_id document_type document_date w self)) ->
      exists tok : string,
        tok <> "" /\ In ("Authorization", "Bearer " ++ tok) (headers req)).
Proof.
  split; [exact (get_auth_headers_token w self)|]. split.
  - intros req method path params json_data H.
    apply (proj1 (sent_request_headers w self req)) in H as (hs & Hv & ->).
    destruct (get_auth_headers_token w self hs Hv) as (tok & _ & Hne & ->).
    exists tok. split; [exact Hne|]. unfold with_content_type.
    destruct json_data as [j|]; [destruct (truthy j)|]; cbn; auto.
  - intros req account_id document_type document_date H.
    apply (proj2 (sent_request_headers w self req)) in H as (hs & Hv & ->).
    destruct (get_auth_headers_token w self hs Hv) as (tok & _ & Hne & ->).
    exists tok. split; [exact Hne|]. cbn. auto.
Qed.

(** *** Error mapping *)

(** C2.  With the bearer header built and the API answering with the
    response [r]:
    - status 429: every operation that goes through [_request] raises
      [InvestecRateLimitError] with status 429 and the decoded body (when the
      body is empty or decodes), but [get_document] raises the generic
      [InvestecRequestError] with status 429, which is no rate-limit error;
    - status 404: [_request] and [get_document] both raise
      [InvestecRequestError] with status 404. *)
Theorem error_mapping_of_429_and_404 (w : world) (self : InvestecClient)
  (hs : list (string * string)) (r : response) :
  value (_get_auth_headers w self) = Ok hs ->
  (forall req, api w req = Response r) ->
  (status_code r = 429 ->
   (forall account_id document_type document_date,
       value (get_document account_id document_type document_date w self)
       = Raise (InvestecRequestError 429
                  (if String.eqb (text r) "" then None else json_body r)))
   /\ isinstance
        (InvestecRequestError 429 (if String.eqb (text r) "" then None else json_body r))
        KRateLimitError = false
   /\ (forall method path params json_data,
         text r = "" \/ json_body r <> None ->
         value (_request method path params json_data w self)
         = Raise (InvestecRateLimitError 429
                    (if String.eqb (text r) "" then None else json_body r))))
  /\ (status_code r = 404 ->
      (forall account_id document_type document_date,
          value (get_document account_id document_type document_date w self)
          = Raise (InvestecRequestError 404
                     (if String.eqb (text r) "" then None else json_body r)))
      /\ (forall method path params json_data,
            value (_request method path params json_data w self)
            = Raise (InvestecRequestError 404
                       (if String.eqb (text r) "" then None else json_body r)))).
Proof.
  intros Hh Hapi. split; intros Hs.
  - split; [|split].
    + intros. rewrite get_document_eq. cbv zeta. rewrite Hh. cbn [value].
      rewrite Hapi. unfold handle_document_response, request_error. rewrite Hs.
      reflexivity.
    + reflexivity.
    + intros method path params json_data Hb. rewrite _request_eq. cbv zeta.
      rewrite Hh. cbn [value]. rewrite Hapi. unfold handle_response. rewrite Hs.
      cbn [Z.eqb Pos.eqb]. destruct (String.eqb (text r) "") eqn:E; [reflexivity|].
      destruct Hb as [Hb|Hb]; [rewrite Hb in E; discriminate|].
      destruct (json_body r); [reflexivity | congruence].
  - split.
    + intros. rewrite get_document_eq. cbv zeta. rewrite Hh. cbn [value].
      rewrite Hapi. unfold handle_document_response, request_error. rewrite Hs.
      reflexivity.
    + intros. rewrite _request_eq. cbv zeta. rewrite Hh. cbn [value].
      rewrite Hapi. unfold handle_response, request_error. rewrite Hs. reflexivity.
Qed.

(** *** Payloads without the [data] envelope *)

Lemma list_from_api_response_no_data {T} (from_dict : pyval -> pyresult T) d key :
  lookup "data" d = None ->
  list_from_api_response from_dict (PDict d) key = Ok [].
Proof.
  intros H. unfold list_from_api_response, has_nested, py_in. rewrite H. reflexivity.
Qed.

Lemma unwrap_list_no_data {T} (from_dict : pyval -> pyresult T) d :
  lookup "data" d = None -> unwrap_list from_dict (PDict d) = Ok [].
Proof. intros H. unfold unwrap_list, py_in. rewrite H. reflexivity. Qed.

(** C3.  When the request of an operation succeeds with a JSON mapping [d]
    that has no [data] key, each of the eight list-returning operations
    returns the empty list, and so does [BaseModel.list_from_api_response]. *)
Theorem list_operations_empty_without_data (w : world) (self : InvestecClient)
  (d : list (string * pyval)) :
  lookup "data" d = None ->
  (forall method path params json_data,
      value (_request method path params json_data w self) = Ok (PDict d)) ->
  value (get_accounts w self) = Ok []
  /\ (forall account_id from_date to_date transaction_type include_pending,
      value (get_account_transactions account_id from_date to_date
               transaction_type include_pending w self) = Ok [])
  /\ (forall account_id,
      value (get_account_pending_transactions account_id w self) = Ok [])
  /\ value (get_beneficiaries w self) = Ok []
  /\ value (get_profiles w self) = Ok []
  /\ (forall profile_id, value (get_profile_accounts profile_id w self) = Ok [])
  /\ (forall profile_id account_id,
      value (get_profile_beneficiaries profile_id account_id w self) = Ok [])
  /\ (forall account_id from_date to_date,
      value (get_documents account_id from_date to_date w self) = Ok [])
  /\ (forall T (from_dict : pyval -> pyresult T) key,
      list_from_api_response from_dict (PDict d) key = Ok []).
Proof.
  intros Hd Hreq.
  repeat split; intros;
    try (apply list_from_api_response_no_data; exact Hd);
    unfold get_accounts, get_account_transactions, get_account_pending_transactions,
      get_beneficiaries, get_profiles, get_profile_accounts,
      get_profile_beneficiaries, get_documents;
    rewrite !value_bindM, ?Hreq; cbn [value lift ask];
    first [ apply list_from_api_response_no_data | apply unwrap_list_no_data ];
    exact Hd.
Qed.

End WithRuntime.

(** *** Closed instances, in the example runtime *)

Import ExampleRuntime.
#[local] Existing Instance runtime.

Lemma token_expiry_timing_witness :
  _token_expires_at (final (_authenticate (world_answering too_many_requests) fresh_client))
  = Some (Number (1001 + 120 - 60)%Q).
Proof.
  exact (proj1 (token_expiry_timing (world_answering too_many_requests) fresh_client
                  (Some "token-1") (Some (PInt 120)) 120 eq_refl eq_refl eq_refl)).
Defined.

Lemma bearer_token_is_never_empty_witness :
  exists tok : string,
    _access_token
      (final (_get_auth_headers (world_answering too_many_requests) fresh_client))
    = Some tok
    /\ tok <> ""
    /\ [ ("Authorization", "Bearer token-1"); ("x-api-key", "api-key");
         ("Accept", "application/json") ]
       = [ ("Authorization", "Bearer " ++ tok); ("x-api-key", api_key fresh_client);
           ("Accept", "application/json") ].
Proof.
  exact (proj1 (bearer_token_is_never_empty (world_answering too_many_requests)
                  fresh_client) _ eq_refl).
Defined.

Lemma error_mapping_of_429_and_404_witness :
  value (get_document "A1" "Statement" (AStr "2024-01-31")
           (world_answering too_many_requests) fresh_client)
  = Raise (InvestecRequestError 429 None).
Proof.
  exact (proj1 (proj1 (error_mapping_of_429_and_404
                         (world_answering too_many_requests) fresh_client _
                         too_many_requests eq_refl (fun _ => eq_refl))
                  eq_refl) "A1" "Statement" (AStr "2024-01-31")).
Defined.

Lemma list_operations_empty_without_data_witness :
  value (get_accounts (world_answering (ok_response (PDict no_data_example)))
           fresh_client) = Ok [].
Proof.
  exact (proj1 (list_operations_empty_without_data
                  (world_answering (ok_response (PDict no_data_example)))
                  fresh_client no_data_example eq_refl
                  (fun _ _ _ _ => eq_refl))).
Defined.

End ClientFacts.

(** ** Further properties of the client *)

Module ClientLaws.
Import Client ClientFacts.
Local Open Scope client_scope.

Section WithRuntime.
Context {rt : PyRuntime}.

Lemma final_bindM {A B} (m : M A) (k : A -> M B) w self :
  final (bindM m k w self)
  = match value (m w self) with
    | Ok a => final (k a w (final (m w self)))
    | Raise e => final (m w self)
    end.
Proof. unfold bindM. destruct (value (m w self)); reflexivity. Qed.

Lemma trace_bindM {A B} (m : M A) (k : A -> M B) w self :
  trace (bindM m k w self)
  = match value (m w self) with
    | Ok a => (trace (m w self) ++ trace (k a w (final (m w self))))%list
    | Raise e => trace (m w self)
    end.
Proof. unfold bindM. destruct (value (m w self)); reflexivity. Qed.

(** The test of [_get_auth_headers] is monotone in the clock. *)
Lemma needs_auth_later self now now' :
  (now <= now')%Q -> needs_auth self now = true -> needs_auth self now' = true.
Proof.
  intros Hle. rewrite !needs_auth_spec. intros [H|H]; [auto|right].
  destruct (_token_expires_at self) as [[t| | |]|]; auto.
  destruct H; [auto|right]. lra.
Qed.

Lemma py_float_raises v err :
  py_float v = Raise err -> err = ValueError \/ err = TypeError \/ err = OverflowError.
Proof.
  unfold py_float.
  destruct v as [|b|n|f|s|l|d]; try discriminate;
    try (intros H; injection H as <-; auto; fail).
  - destruct (Z.abs n <? float_overflow); [discriminate|].
    intros H; injection H as <-; auto.
  - destruct (float_of_str s); [discriminate|]. intros H; injection H as <-; auto.
Qed.

(** When header construction raises, [_authenticate] was called and raised. *)
Lemma auth_failure (w : world) (self : InvestecClient) (e : exn pyval) :
  value (_get_auth_headers w self) = Raise e ->
  needs_auth self (time_check w) = true
  /\ trace (_get_auth_headers w self) = [TokenRequest]
  /\ value (_authenticate w self) = Raise e
  /\ final (_get_auth_headers w self) = final (_authenticate w self).
Proof.
  intros H. rewrite auth_trace. revert H. rewrite _get_auth_headers_eq.
  destruct (needs_auth self (time_check w)) eqn:Hn; [|discriminate].
  cbv zeta. cbn [value final].
  destruct (value (_authenticate w self)); [discriminate|].
  intros H. injection H as <-. repeat split.
Qed.

(** The ways in which [_authenticate] raises, and what it leaves. *)
Lemma authenticate_failure (w : world) (self : InvestecClient) (e : exn pyval) :
  value (_authenticate w self) = Raise e ->
  match token_endpoint w with
  | TokenJson tok expires_in =>
      match py_float (expires_in_or_default expires_in) with
      | Ok x =>
          token_falsy tok = true /\ e = InvestecAuthError
          /\ final (_authenticate w self)
             = store_token self tok (expiry_stamp (time_auth w) x)
      | Raise err =>
          e = auth_handler err
          /\ final (_authenticate w self) = set_access_token self tok
      end
  | TokenNotMapping => e = AttributeError /\ final (_authenticate w self) = self
  | _ => e = InvestecAuthError /\ final (_authenticate w self) = self
  end.
Proof.
  rewrite _authenticate_eq.
  destruct (token_endpoint w) as [| | | |tok ex]; cbn [value final];
    try (intros H; injection H as <-; auto; fail).
  destruct (py_float (expires_in_or_default ex)) as [x|err]; cbn [value final].
  - destruct (token_falsy tok); [|discriminate]. intros H; injection H as <-; auto.
  - intros H; injection H as <-; auto.
Qed.

(** The exceptions of header construction: [InvestecAuthError], or a builtin
    exception when the reply of the token endpoint is malformed. *)
Lemma header_failure_kinds (w : world) (self : InvestecClient) (e : exn pyval) :
  value (_get_auth_headers w self) = Raise e ->
  e = InvestecAuthError
  \/ (e = AttributeError /\ token_endpoint w = TokenNotMapping)
  \/ ((e = TypeError \/ e = OverflowError)
      /\ exists tok expires_in,
           token_endpoint w = TokenJson tok expires_in
           /\ py_float (expires_in_or_default expires_in) = Raise e).
Proof.
  intros H. destruct (auth_failure w self e H) as (_ & _ & Ha & _).
  apply authenticate_failure in Ha.
  destruct (token_endpoint w) as [| | | |tok ex]; try (destruct Ha as [-> _]; auto; fail).
  destruct (py_float (expires_in_or_default ex)) as [x|err] eqn:Hf.
  - destruct Ha as (_ & -> & _). auto.
  - destruct Ha as [-> _].
    destruct (py_float_raises _ _ Hf) as [-> | [-> | ->]]; cbn [auth_handler]; eauto 8.
Qed.

(** X1.  When header construction raises, exactly one token request was
    sent.  If the token exchange itself failed (no reply, HTTP error, a body
    that does not decode or is not a mapping) the client is left as it was.
    If the reply was a mapping, its token is stored, usable or not, and when
    [float(expires_in)] raised the expiry is still the one there was.  Unless
    the reply held a non-empty token, a later call, at a time not before this
    one, sends a token request again. *)
Theorem failed_authentication_is_retried (w : world) (self : InvestecClient)
  (e : exn pyval) :
  value (_get_auth_headers w self) = Raise e ->
  trace (_get_auth_headers w self) = [TokenRequest]
  /\ ((forall tok expires_in, token_endpoint w <> TokenJson tok expires_in) ->
      final (_get_auth_headers w self) = self)
  /\ (forall tok expires_in,
        token_endpoint w = TokenJson tok expires_in ->
        _access_token (final (_get_auth_headers w self)) = tok
        /\ (forall err,
              py_float (expires_in_or_default expires_in) = Raise err ->
              _token_expires_at (final (_get_auth_headers w self))
              = _token_expires_at self))
  /\ (forall w' : world,
        (time_check w <= time_check w')%Q ->
        (forall tok expires_in,
            token_endpoint w = TokenJson (Some tok) expires_in -> tok = "") ->
        trace (_get_auth_headers w' (final (_get_auth_headers w self)))
        = [TokenRequest]).
Proof.
  intros H. destruct (auth_failure w self e H) as (Hn & Ht & Ha & ->).
  apply authenticate_failure in Ha. split; [exact Ht|].
  destruct (token_endpoint w) as [| | | |tok ex] eqn:Hr.
  1-4: destruct Ha as [_ ->]; split; [auto|]; split; [discriminate|];
       intros w' Hle _; rewrite auth_trace, (needs_auth_later self _ _ Hle Hn);
       reflexivity.
  split; [intros Hne; specialize (Hne tok ex); congruence|].
  destruct (py_float (expires_in_or_default ex)) as [x|err] eqn:Hx.
  - destruct Ha as (Hf & _ & ->). split.
    + intros tok' ex' E. injection E as <- <-. split; [reflexivity|].
      intros err Herr. congruence.
    + intros w' _ _. rewrite auth_trace. unfold needs_auth.
      cbn [store_token _access_token]. rewrite Hf. reflexivity.
  - destruct Ha as [_ ->]. split.
    + intros tok' ex' E. injection E as <- <-. split; reflexivity.
    + intros w' _ Hempty. rewrite auth_trace. unfold needs_auth.
      cbn [set_access_token _access_token].
      destruct tok as [tok|]; [|reflexivity].
      rewrite (Hempty tok ex eq_refl). reflexivity.
Qed.

(** X2.  When header construction raises, [_request] and [get_document] raise
    the same exception and send nothing but the token request: no API request
    goes out without a token. *)
Theorem no_request_without_token (w : world) (self : InvestecClient) (e : exn pyval) :
  value (_get_auth_headers w self) = Raise e ->
  (forall method path params json_data,
      value (_request method path params json_data w self) = Raise e
      /\ trace (_request method path params json_data w self) = [TokenRequest])
  /\ (forall account_id document_type document_date,
      value (get_document account_id document_type document_date w self) = Raise e
      /\ trace (get_document account_id document_type document_date w self)
         = [TokenRequest]).
Proof.
  intros H.
  destruct (auth_failure w self e H) as (_ & Ht & _).
  split; intros.
  - rewrite _request_eq. cbv zeta. rewrite H. cbn [value trace]. auto.
  - rewrite get_document_eq. cbv zeta. rewrite H. cbn [value trace]. auto.
Qed.

Lemma fresh_needs_auth client_id client_secret api_key use_sandbox timeout now :
  needs_auth (__init__ client_id client_secret api_key use_sandbox timeout) now = true.
Proof. reflexivity. Qed.

(** X3.  The first request of a newly built client, when the token endpoint
    grants a non-empty token with an [expires_in] that [float] reads (or
    none), sends exactly one token request and then the API request, to the
    path joined with the base URL of the chosen environment, with the granted
    token and the API key in its headers; its result is what
    [handle_response] makes of the reply. *)
Theorem first_call_authenticates_once
  (client_id client_secret api_key : string) (use_sandbox : bool) (timeout : Z)
  (w : world) (tok : string) (expires_in : option pyval) (x : float_value) :
  token_endpoint w = TokenJson (Some tok) expires_in ->
  tok <> "" ->
  py_float (expires_in_or_default expires_in) = Ok x ->
  forall method path params json_data,
  exists req : request,
    trace (_request method path params json_data w
             (__init__ client_id client_secret api_key use_sandbox timeout))
    = [TokenRequest; ApiRequest req]
    /\ method = Client.method req
    /\ url req = urljoin (if use_sandbox then SANDBOX_URL else PRODUCTION_URL) path
    /\ In ("Authorization", "Bearer " ++ tok) (headers req)
    /\ In ("x-api-key", api_key) (headers req)
    /\ value (_request method path params json_data w
                (__init__ client_id client_secret api_key use_sandbox timeout))
       = handle_response (api w req).
Proof.
  intros Hr Hne Hf method path params json_data.
  rewrite _request_eq. cbv zeta.
  rewrite _get_auth_headers_eq, fresh_needs_auth, _authenticate_eq, Hr, Hf.
  cbn [value final trace token_falsy].
  destruct (String.eqb_spec tok ""); [contradiction|].
  cbn [app]. eexists. split; [reflexivity|]. cbn [Client.method url headers].
  repeat split.
  - unfold with_content_type.
    destruct json_data as [j|]; [destruct (truthy j)|]; cbn; auto.
  - unfold with_content_type.
    destruct json_data as [j|]; [destruct (truthy j)|]; cbn; auto.
Qed.

(** X4.  Every exception [_request] or [get_document] raises is either the
    one header construction raised, which is [InvestecAuthError], or a
    builtin exception when the reply of the token endpoint is malformed
    ([AttributeError] for a body that is not a mapping, [TypeError] or
    [OverflowError] from [float(expires_in)]); or, the headers being built,
    one of the client's own kinds: [InvestecAPIError], [InvestecRequestError]
    with a status in 400..599 (never 429 from [_request]), or, from
    [_request] only, [InvestecRateLimitError] with status 429. *)
Theorem raised_errors_are_classified (w : world) (self : InvestecClient)
  (e : exn pyval) :
  (forall method path params json_data,
      value (_request method path params json_data w self) = Raise e ->
      (value (_get_auth_headers w self) = Raise e
       /\ (e = InvestecAuthError
           \/ (e = AttributeError /\ token_endpoint w = TokenNotMapping)
           \/ ((e = TypeError \/ e = OverflowError)
               /\ exists tok expires_in,
                    token_endpoint w = TokenJson tok expires_in
                    /\ py_float (expires_in_or_default expires_in) = Raise e)))
      \/ ((exists hs, value (_get_auth_headers w self) = Ok hs)
          /\ isinstance e KApiError = true
          /\ (e = InvestecAPIError
              \/ (exists status body,
                     e = InvestecRequestError status body
                     /\ 400 <= status < 600 /\ status <> 429)
              \/ (exists body, e = InvestecRateLimitError 429 body))))
  /\ (forall account_id document_type document_date,
      value (get_document account_id document_type document_date w self) = Raise e ->
      (value (_get_auth_headers w self) = Raise e
       /\ (e = InvestecAuthError
           \/ (e = AttributeError /\ token_endpoint w = TokenNotMapping)
           \/ ((e = TypeError \/ e = OverflowError)
               /\ exists tok expires_in,
                    token_endpoint w = TokenJson tok expires_in
                    /\ py_float (expires_in_or_default expires_in) = Raise e)))
      \/ ((exists hs, value (_get_auth_headers w self) = Ok hs)
          /\ isinstance e KApiError = true
          /\ (e = InvestecAPIError
              \/ (exists status body,
                     e = InvestecRequestError status body /\ 400 <= status < 600)))).
Proof.
  split; intros *.
  - rewrite _request_eq. cbv zeta.
    destruct (value (_get_auth_headers w self)) as [hs|e'] eqn:Hv; cbn [value].
    + intros Hraise. right. split; [eauto|]. revert Hraise. unfold handle_response.
      destruct (api w _) as [|r]; [intros Hraise; injection Hraise as <-; auto|].
      destruct (Z.eqb_spec (status_code r) 429) as [E|E].
      * rewrite E. destruct (String.eqb (text r) "");
          [|destruct (json_body r)]; intros Hraise; injection Hraise as <-;
          split; auto; eauto 6.
      * unfold is_http_error, request_error.
        destruct (Z.leb_spec 400 (status_code r)); destruct (Z.ltb_spec (status_code r) 600);
          cbn [andb].
        -- intros Hraise; injection Hraise as <-. split; auto. right. left.
           eexists _, _. split; [reflexivity|]. lia.
        -- destruct (String.eqb (text r) ""); [discriminate|].
           destruct (json_body r); [discriminate|]. intros Hraise; injection Hraise as <-; auto.
        -- destruct (String.eqb (text r) ""); [discriminate|].
           destruct (json_body r); [discriminate|]. intros Hraise; injection Hraise as <-; auto.
        -- destruct (String.eqb (text r) ""); [discriminate|].
           destruct (json_body r); [discriminate|]. intros Hraise; injection Hraise as <-; auto.
    + intros Hraise; injection Hraise as <-. left. split; [reflexivity|].
      exact (header_failure_kinds w self e' Hv).
  - rewrite get_document_eq. cbv zeta.
    destruct (value (_get_auth_headers w self)) as [hs|e'] eqn:Hv; cbn [value].
    + intros Hraise. right. split; [eauto|]. revert Hraise.
      unfold handle_document_response.
      destruct (api w _) as [|r]; [intros Hraise; injection Hraise as <-; auto|].
      unfold is_http_error, request_error.
      destruct (Z.leb_spec 400 (status_code r)); destruct (Z.ltb_spec (status_code r) 600);
        cbn [andb]; try discriminate.
      intros Hraise; injection Hraise as <-. split; auto. right.
      eexists _, _. split; [reflexivity|]. lia.
    + intros Hraise; injection Hraise as <-. left. split; [reflexivity|].
      exact (header_failure_kinds w self e' Hv).
Qed.

(** X5.  [_request] returns a value exactly when header construction
    succeeds, the API replies, the status is outside 400..599 (so 1xx, 2xx and
    3xx alike), and the body is empty, giving [{}], or decodes, giving the
    decoded body. *)
Theorem request_returns_iff (w : world) (self : InvestecClient)
  (method path : string) (params : list (string * string))
  (json_data : option pyval) (v : pyval) :
  value (_request method path params json_data w self) = Ok v <->
  exists hs r,
    value (_get_auth_headers w self) = Ok hs
    /\ api w {| Client.method := method; url := urljoin (base_url self) path;
                headers := with_content_type hs json_data;
                params := params; json := json_data |} = Response r
    /\ (status_code r < 400 \/ 600 <= status_code r)
    /\ ((text r = "" /\ v = PDict []) \/ (text r <> "" /\ json_body r = Some v)).
Proof.
  rewrite _request_eq. cbv zeta.
  destruct (value (_get_auth_headers w self)) as [hs|e'] eqn:Hv; cbn [value].
  2:{ split; [discriminate|]. intros (hs & r & H & _). discriminate. }
  unfold handle_response. split.
  - destruct (api w _) as [|r] eqn:Ha; [discriminate|].
    destruct (Z.eqb_spec (status_code r) 429) as [E|E].
    { destruct (String.eqb (text r) ""); [|destruct (json_body r)]; discriminate. }
    unfold is_http_error.
    destruct (Z.leb_spec 400 (status_code r)); destruct (Z.ltb_spec (status_code r) 600);
      cbn [andb]; try discriminate;
      (destruct (String.eqb_spec (text r) "");
       [intros Hraise; injection Hraise as <-; exists hs, r; repeat split; auto; lia
       |destruct (json_body r) eqn:Hj; [|discriminate];
        intros Hraise; injection Hraise as <-; exists hs, r; repeat split; auto; lia]).
  - intros (hs' & r & Hh & Ha & Hs & Hb). injection Hh as <-. rewrite Ha.
    assert (E : (status_code r =? 429) = false) by lia. rewrite E.
    assert (E' : is_http_error (status_code r) = false) by (unfold is_http_error; lia).
    rewrite E'. destruct Hb as [[-> ->]|[Hne ->]]; [reflexivity|].
    destruct (String.eqb_spec (text r) ""); [contradiction | reflexivity].
Qed.

Lemma final_get_auth_headers w self :
  let s' := final (_get_auth_headers w self) in
  client_id s' = client_id self /\ client_secret s' = client_secret self
  /\ api_key s' = api_key self /\ base_url s' = base_url self
  /\ timeout s' = timeout self
  /\ (needs_auth self (time_check w) = false -> s' = self).
Proof.
  cbv zeta. rewrite _get_auth_headers_eq, _authenticate_eq.
  destruct (needs_auth self (time_check w)).
  - destruct (token_endpoint w) as [| | | |tok e];
      [| | | |destruct (py_float (expires_in_or_default e))];
      cbn; repeat split; discriminate.
  - cbn. repeat split.
Qed.

Lemma final_request method path params json_data w self :
  final (_request method path params json_data w self) = final (_get_auth_headers w self).
Proof.
  rewrite _request_eq. cbv zeta.
  destruct (value (_get_auth_headers w self)); reflexivity.
Qed.

Lemma final_get_document account_id document_type document_date w self :
  final (get_document account_id document_type document_date w self)
  = final (_get_auth_headers w self).
Proof.
  rewrite get_document_eq. cbv zeta.
  destruct (value (_get_auth_headers w self)); reflexivity.
Qed.

Lemma final_then_lift {A B} (m : M A) (k : A -> pyresult B) w self :
  final (bindM m (fun a => lift (k a)) w self) = final (m w self).
Proof. rewrite final_bindM. destruct (value (m w self)); reflexivity. Qed.

(** X6.  No operation changes the client beyond what header construction
    does: every operation leaves the client in the state [_get_auth_headers]
    leaves it in, which keeps the credentials, the base URL and the timeout,
    and is the state before the call when no authentication was needed. *)
Theorem operations_change_only_the_token (w : world) (self : InvestecClient) :
  let s' := final (_get_auth_headers w self) in
  (client_id s' = client_id self /\ client_secret s' = client_secret self
   /\ api_key s' = api_key self /\ base_url s' = base_url self
   /\ timeout s' = timeout self
   /\ (needs_auth self (time_check w) = false -> s' = self))
  /\ final (get_accounts w self) = s'
  /\ (forall a, final (get_account_balance a w self) = s')
  /\ (forall a f t ty ip, final (get_account_transactions a f t ty ip w self) = s')
  /\ (forall a, final (get_account_pending_transactions a w self) = s')
  /\ (forall a l p, final (transfer_multiple a l p w self) = s')
  /\ final (get_beneficiaries w self) = s'
  /\ final (get_beneficiary_categories w self) = s'
  /\ (forall a l, final (pay_beneficiaries a l w self) = s')
  /\ final (get_profiles w self) = s'
  /\ (forall p, final (get_profile_accounts p w self) = s')
  /\ (forall p a, final (get_authorisation_setup p a w self) = s')
  /\ (forall p a, final (get_profile_beneficiaries p a w self) = s')
  /\ (forall a f t, final (get_documents a f t w self) = s')
  /\ (forall a ty d, final (get_document a ty d w self) = s').
Proof.
  cbv zeta. split; [exact (final_get_auth_headers w self)|].
  repeat split; intros;
    try apply final_get_document;
    try (unfold get_accounts, get_account_balance, get_account_transactions,
           get_account_pending_transactions, transfer_multiple, get_beneficiaries,
           get_beneficiary_categories, pay_beneficiaries, get_profiles,
           get_profile_accounts, get_authorisation_setup, get_profile_beneficiaries;
         rewrite final_then_lift; apply final_request).
  unfold get_documents. rewrite final_bindM.
  destruct (value (_request _ _ _ _ w self)); [|apply final_request].
  rewrite final_then_lift. cbn [ask final]. apply final_request.
Qed.

(** X7.  After a request that authenticated with a granted token, any
    request made before the stored expiry (at a clock reading that is not
    negative) sends the API request alone, with the same token, and leaves the
    client unchanged. *)
Theorem token_is_reused_until_expiry (w1 w2 : world) (self : InvestecClient)
  (tok : string) (expires_in : option pyval) (seconds : Q) :
  token_endpoint w1 = TokenJson (Some tok) expires_in ->
  py_float (expires_in_or_default expires_in) = Ok (Number seconds) ->
  tok <> "" ->
  needs_auth self (time_check w1) = true ->
  (0 <= time_check w2)%Q ->
  (time_check w2 < time_auth w1 + seconds - 60)%Q ->
  forall method1 path1 params1 json1 method2 path2 params2 json2,
    let s1 := final (_request method1 path1 params1 json1 w1 self) in
    exists req : request,
      trace (_request method2 path2 params2 json2 w2 s1) = [ApiRequest req]
      /\ In ("Authorization", "Bearer " ++ tok) (headers req)
      /\ final (_request method2 path2 params2 json2 w2 s1) = s1.
Proof.
  intros Hr Hf Hne Hn H0 Hlt *. subst s1. rewrite !final_request.
  assert (Hs : final (_get_auth_headers w1 self)
               = store_token self (Some tok)
                   (Number (time_auth w1 + seconds - 60)%Q)).
  { rewrite _get_auth_headers_eq, Hn, _authenticate_eq, Hr, Hf. reflexivity. }
  rewrite Hs.
  set (s1 := store_token self (Some tok) _).
  assert (Hv : needs_auth s1 (time_check w2) = false).
  { destruct (needs_auth s1 (time_check w2)) eqn:E; [|reflexivity].
    apply needs_auth_spec in E. cbn [s1 store_token _access_token _token_expires_at token_falsy] in E.
    destruct (String.eqb_spec tok ""); [contradiction|].
    destruct E as [E|[E|E]]; [discriminate|lra|lra]. }
  rewrite _request_eq. cbv zeta. rewrite _get_auth_headers_eq, Hv.
  cbn [value final trace app]. eexists. split; [reflexivity|]. split; [|reflexivity].
  cbn [headers]. unfold with_content_type.
  destruct json2 as [j|]; [destruct (truthy j)|]; cbn; auto.
Qed.

(** X8.  Every API request [_request] sends has the method, the parameters
    and the JSON body it was given, the URL [urljoin(base_url, path)], the
    [x-api-key] and [Accept] headers, and the header
    [Content-Type: application/json] exactly when it has a non-empty JSON
    body. *)
Theorem request_contract (w : world) (self : InvestecClient)
  (method path : string) (params : list (string * string))
  (json_data : option pyval) (req : request) :
  In (ApiRequest req) (trace (_request method path params json_data w self)) ->
  Client.method req = method
  /\ url req = urljoin (base_url self) path
  /\ Client.params req = params
  /\ json req = json_data
  /\ In ("x-api-key", api_key self) (headers req)
  /\ In ("Accept", "application/json") (headers req)
  /\ (In ("Content-Type", "application/json") (headers req) <->
      exists body, json_data = Some body /\ truthy body = true).
Proof.
  intros H.
  assert (Ht : forall e, In e (trace (_get_auth_headers w self)) -> e = TokenRequest).
  { intros e. rewrite auth_trace. destruct (needs_auth _ _); cbn; intuition congruence. }
  revert H. rewrite _request_eq. cbv zeta.
  destruct (value (_get_auth_headers w self)) as [hs|e] eqn:Hv; cbn [trace].
  2:{ intros H. apply Ht in H. discriminate. }
  rewrite in_app_iff. intros [H|[H|[]]]; [apply Ht in H; discriminate|].
  injection H as <-. cbn [Client.method url Client.params json headers].
  destruct (get_auth_headers_token w self hs Hv) as (tok & _ & _ & ->).
  unfold with_content_type.
  split; [reflexivity|]. split; [reflexivity|]. split; [reflexivity|].
  split; [reflexivity|].
  destruct json_data as [j|]; [destruct (truthy j) eqn:E|]; cbn [app In].
  - split; [auto|]. split; [auto|]. split; [eauto|]. intros _. auto 6.
  - split; [auto|]. split; [auto|]. split.
    + intros [H|[H|[H|[]]]]; discriminate.
    + intros (body & Hb & Ht'). injection Hb as <-. congruence.
  - split; [auto|]. split; [auto|]. split.
    + intros [H|[H|[H|[]]]]; discriminate.
    + intros (body & Hb & _). discriminate.
Qed.

End WithRuntime.

(** *** Closed instances, in the example runtime *)

Import ExampleRuntime ExtraExamples.
#[local] Existing Instance runtime.

Lemma failed_authentication_is_retried_witness :
  trace (_get_auth_headers world_refusing
           (final (_get_auth_headers world_refusing fresh_client)))
  = [TokenRequest].
Proof.
  apply (proj2 (proj2 (proj2 (failed_authentication_is_retried
                                world_refusing fresh_client InvestecAuthError
                                eq_refl))) world_refusing).
  - unfold Qle. simpl. lia.
  - intros tok expires_in H. discriminate H.
Defined.

Lemma no_request_without_token_witness :
  value (_request "GET" "/za/pb/v1/accounts" [] None world_refusing fresh_client)
  = Raise InvestecAuthError
  /\ trace (_request "GET" "/za/pb/v1/accounts" [] None world_refusing fresh_client)
     = [TokenRequest].
Proof.
  exact (proj1 (no_request_without_token world_refusing fresh_client
                  InvestecAuthError eq_refl) "GET" "/za/pb/v1/accounts" [] None).
Defined.

Lemma first_call_authenticates_once_witness :
  exists req : request,
    trace (_request "GET" "/za/pb/v1/accounts" [] None
             (world_answering too_many_requests)
             (__init__ "client-id" "client-secret" "api-key" true 30))
    = [TokenRequest; ApiRequest req]
    /\ "GET" = Client.method req
    /\ url req = urljoin SANDBOX_URL "/za/pb/v1/accounts"
    /\ In ("Authorization", "Bearer " ++ "token-1") (headers req)
    /\ In ("x-api-key", "api-key") (headers req)
    /\ value (_request "GET" "/za/pb/v1/accounts" [] None
                (world_answering too_many_requests)
                (__init__ "client-id" "client-secret" "api-key" true 30))
       = handle_response (api (world_answering too_many_requests) req).
Proof.
  apply (first_call_authenticates_once "client-id" "client-secret" "api-key" true 30
           (world_answering too_many_requests) "token-1" (Some (PInt 120))
           (Number 120));
    [reflexivity | discriminate | reflexivity].
Defined.

Lemma token_is_reused_until_expiry_witness :
  exists req : request,
    trace (_request "GET" "/za/pb/v1/profiles" [] None
             (world_answering too_many_requests)
             (final (_request "GET" "/za/pb/v1/accounts" [] None
                       (world_answering too_many_requests) fresh_client)))
    = [ApiRequest req]
    /\ In ("Authorization", "Bearer " ++ "token-1") (headers req)
    /\ final (_request "GET" "/za/pb/v1/profiles" [] None
                (world_answering too_many_requests)
                (final (_request "GET" "/za/pb/v1/accounts" [] None
                          (world_answering too_many_requests) fresh_client)))
       = final (_request "GET" "/za/pb/v1/accounts" [] None
                  (world_answering too_many_requests) fresh_client).
Proof.
  apply (token_is_reused_until_expiry (world_answering too_many_requests)
           (world_answering too_many_requests) fresh_client "token-1"
           (Some (PInt 120)) 120);
    [reflexivity | reflexivity | discriminate | reflexivity
    | unfold Qle; simpl; lia | unfold Qlt; simpl; lia].
Defined.

Lemma request_contract_witness :
  Client.method accounts_request = "GET"
  /\ url accounts_request = urljoin (base_url fresh_client) "/za/pb/v1/accounts"
  /\ Client.params accounts_request = []
  /\ json accounts_request = None
  /\ In ("x-api-key", api_key fresh_client) (headers accounts_request)
  /\ In ("Accept", "application/json") (headers accounts_request)
  /\ (In ("Content-Type", "application/json") (headers accounts_request) <->
      exists body, @None pyval = Some body /\ truthy body = true).
Proof.
  apply (request_contract (world_answering too_many_requests) fresh_client
           "GET" "/za/pb/v1/accounts" [] None accounts_request).
  right. left. reflexivity.
Defined.

Lemma raised_errors_are_classified_witness :
  (exists hs,
      value (_get_auth_headers (world_answering too_many_requests) fresh_client) = Ok hs)
  /\ isinstance (InvestecRequestError 429 None : exn pyval) KApiError = true.
Proof.
  destruct (proj2 (raised_errors_are_classified (world_answering too_many_requests)
                     fresh_client (InvestecRequestError 429 None))
              "A1" "Statement" (AStr "2024-01-31") eq_refl)
    as [[H _]|(Hh & Hi & _)].
  - discriminate H.
  - split; assumption.
Defined.

Lemma request_returns_iff_witness :
  value (_request "GET" "/za/pb/v1/accounts" [] None
           (world_answering (ok_response (PDict no_data_example))) fresh_client)
  = Ok (PDict no_data_example).
Proof.
  apply (proj2 (request_returns_iff
                  (world_answering (ok_response (PDict no_data_example)))
                  fresh_client "GET" "/za/pb/v1/accounts" [] None
                  (PDict no_data_example))).
  exists [ ("Authorization", "Bearer token-1"); ("x-api-key", "api-key");
           ("Accept", "application/json") ], (ok_response (PDict no_data_example)).
  split; [reflexivity|]. split; [reflexivity|]. split; [left; simpl; lia|].
  right. split; [discriminate | reflexivity].
Defined.

Lemma operations_change_only_the_token_witness :
  final (_get_auth_headers (world_answering too_many_requests) authenticated_client)
  = authenticated_client.
Proof.
  exact (proj2 (proj2 (proj2 (proj2 (proj2 (proj1
           (operations_change_only_the_token (world_answering too_many_requests)
              authenticated_client)))))) eq_refl).
Defined.
End ClientLaws.

(** ** Further properties of the wire models *)

Module ModelLaws.
Import ExtraDefs ModelFacts.

Section WithRuntime.
Context {rt : PyRuntime}.

(** X9.  Serializing a [BeneficiaryPaymentItem] and deserializing the
    result gives back the beneficiary id, the amount, the two references and
    [faster_payment]; an authoriser or period id comes back when it is truthy
    and as [None] otherwise (an empty string is lost), so the item is
    reproduced whenever its three optional ids are [None] or truthy. *)
Theorem payment_item_round_trip (item : BeneficiaryPaymentItem.t) :
  BeneficiaryPaymentItem.from_dict (BeneficiaryPaymentItem.to_dict item)
  = Ok {| BeneficiaryPaymentItem.beneficiary_id := BeneficiaryPaymentItem.beneficiary_id item;
          BeneficiaryPaymentItem.amount := BeneficiaryPaymentItem.amount item;
          BeneficiaryPaymentItem.my_reference := BeneficiaryPaymentItem.my_reference item;
          BeneficiaryPaymentItem.their_reference := BeneficiaryPaymentItem.their_reference item;
          BeneficiaryPaymentItem.authoriser_a_id :=
            kept_if_truthy (BeneficiaryPaymentItem.authoriser_a_id item);
          BeneficiaryPaymentItem.authoriser_b_id :=
            kept_if_truthy (BeneficiaryPaymentItem.authoriser_b_id item);
          BeneficiaryPaymentItem.auth_period_id :=
            kept_if_truthy (BeneficiaryPaymentItem.auth_period_id item);
          BeneficiaryPaymentItem.faster_payment := BeneficiaryPaymentItem.faster_payment item |}
  /\ (kept_if_truthy (BeneficiaryPaymentItem.authoriser_a_id item)
        = BeneficiaryPaymentItem.authoriser_a_id item ->
      kept_if_truthy (BeneficiaryPaymentItem.authoriser_b_id item)
        = BeneficiaryPaymentItem.authoriser_b_id item ->
      kept_if_truthy (BeneficiaryPaymentItem.auth_period_id item)
        = BeneficiaryPaymentItem.auth_period_id item ->
      BeneficiaryPaymentItem.from_dict (BeneficiaryPaymentItem.to_dict item) = Ok item).
Proof.
  destruct item as [bid amt mine theirs a b p f].
  cbn [BeneficiaryPaymentItem.beneficiary_id BeneficiaryPaymentItem.amount
       BeneficiaryPaymentItem.my_reference BeneficiaryPaymentItem.their_reference
       BeneficiaryPaymentItem.authoriser_a_id BeneficiaryPaymentItem.authoriser_b_id
       BeneficiaryPaymentItem.auth_period_id BeneficiaryPaymentItem.faster_payment].
  assert (E : BeneficiaryPaymentItem.from_dict
                (BeneficiaryPaymentItem.to_dict
                   {| BeneficiaryPaymentItem.beneficiary_id := bid;
                      BeneficiaryPaymentItem.amount := amt;
                      BeneficiaryPaymentItem.my_reference := mine;
                      BeneficiaryPaymentItem.their_reference := theirs;
                      BeneficiaryPaymentItem.authoriser_a_id := a;
                      BeneficiaryPaymentItem.authoriser_b_id := b;
                      BeneficiaryPaymentItem.auth_period_id := p;
                      BeneficiaryPaymentItem.faster_payment := f |})
              = Ok {| BeneficiaryPaymentItem.beneficiary_id := bid;
                      BeneficiaryPaymentItem.amount := amt;
                      BeneficiaryPaymentItem.my_reference := mine;
                      BeneficiaryPaymentItem.their_reference := theirs;
                      BeneficiaryPaymentItem.authoriser_a_id := kept_if_truthy a;
                      BeneficiaryPaymentItem.authoriser_b_id := kept_if_truthy b;
                      BeneficiaryPaymentItem.auth_period_id := kept_if_truthy p;
                      BeneficiaryPaymentItem.faster_payment := f |}).
  { unfold BeneficiaryPaymentItem.from_dict, BeneficiaryPaymentItem.to_dict, kept_if_truthy.
    cbn [BeneficiaryPaymentItem.beneficiary_id BeneficiaryPaymentItem.amount
         BeneficiaryPaymentItem.my_reference BeneficiaryPaymentItem.their_reference
         BeneficiaryPaymentItem.authoriser_a_id BeneficiaryPaymentItem.authoriser_b_id
         BeneficiaryPaymentItem.auth_period_id BeneficiaryPaymentItem.faster_payment].
    rewrite (decimal_field_str _ "amount" amt) by reflexivity.
    destruct (truthy a), (truthy b), (truthy p), f; reflexivity. }
  split; [exact E|]. intros Ha Hb Hp. rewrite E, Ha, Hb, Hp. reflexivity.
Qed.

Lemma transfer_item_decodes (item : TransferItem.t) :
  TransferItem.from_dict (TransferItem.to_dict item) = Ok item.
Proof.
  destruct item as [acct amt mine theirs].
  unfold TransferItem.from_dict, TransferItem.to_dict.
  cbn [TransferItem.beneficiary_account_id TransferItem.amount
       TransferItem.my_reference TransferItem.their_reference].
  rewrite (decimal_field_str _ "amount" amt) by reflexivity.
  reflexivity.
Qed.

Lemma transfer_items_decode (l : list TransferItem.t) :
  mapM TransferItem.from_dict (map TransferItem.to_dict l) = Ok l.
Proof.
  induction l as [|x l IH]; [reflexivity|].
  cbn [map mapM]. rewrite transfer_item_decodes, IH. reflexivity.
Qed.

(** X10.  The wire form of a [TransferRequest] is a non-empty mapping whose
    [transferList] has one entry per transfer, each deserializing back to its
    item, and which has a [profileId] exactly when the profile id is a
    non-empty string. *)
Theorem transfer_request_wire_form (r : TransferRequest.t) :
  truthy (TransferRequest.to_dict r) = true
  /\ (exists l,
        py_getitem (TransferRequest.to_dict r) "transferList" = Ok (PList l)
        /\ List.length l = List.length (TransferRequest.transfer_list r)
        /\ mapM TransferItem.from_dict l = Ok (TransferRequest.transfer_list r))
  /\ (forall p, TransferRequest.profile_id r = Some p -> p <> "" ->
      py_getitem (TransferRequest.to_dict r) "profileId" = Ok (PStr p))
  /\ (TransferRequest.profile_id r = None \/ TransferRequest.profile_id r = Some "" ->
      py_in "profileId" (TransferRequest.to_dict r) = Ok false).
Proof.
  destruct r as [l p]. unfold TransferRequest.to_dict.
  cbn [TransferRequest.transfer_list TransferRequest.profile_id].
  split; [reflexivity|]. split; [|split].
  - eexists. split; [reflexivity|]. rewrite length_map. split; [reflexivity|].
    apply transfer_items_decode.
  - intros p' -> Hne. cbn.
    destruct (String.eqb_spec p' ""); [contradiction|]. reflexivity.
  - intros [->| ->]; reflexivity.
Qed.

Lemma transfer_response_item_dict d :
  TransferResponseItem.from_dict (PDict d)
  = Ok {| TransferResponseItem.payment_reference_number :=
            get_or d "PaymentReferenceNumber" PNone;
          TransferResponseItem.payment_date := get_or d "PaymentDate" PNone;
          TransferResponseItem.status := get_or d "Status" PNone;
          TransferResponseItem.beneficiary_name := get_or d "BeneficiaryName" PNone;
          TransferResponseItem.beneficiary_account_id :=
            get_or d "BeneficiaryAccountId" PNone;
          TransferResponseItem.authorisation_required :=
            get_or d "AuthorisationRequired" (PBool false) |}.
Proof. unfold TransferResponseItem.from_dict. rewrite !py_get_dict. reflexivity. Qed.

Lemma payment_response_item_dict d :
  PaymentResponseItem.from_dict (PDict d)
  = Ok (as_payment_item
          {| TransferResponseItem.payment_reference_number :=
               get_or d "PaymentReferenceNumber" PNone;
             TransferResponseItem.payment_date := get_or d "PaymentDate" PNone;
             TransferResponseItem.status := get_or d "Status" PNone;
             TransferResponseItem.beneficiary_name := get_or d "BeneficiaryName" PNone;
             TransferResponseItem.beneficiary_account_id :=
               get_or d "BeneficiaryAccountId" PNone;
             TransferResponseItem.authorisation_required :=
               get_or d "AuthorisationRequired" (PBool false) |}).
Proof. unfold PaymentResponseItem.from_dict. rewrite !py_get_dict. reflexivity. Qed.

(** The two item deserializers read alike. *)
Lemma payment_items_as_transfer_items (l : list pyval) :
  mapM PaymentResponseItem.from_dict l
  = match mapM TransferResponseItem.from_dict l with
    | Ok items => Ok (map as_payment_item items)
    | Raise e => Raise e
    end.
Proof.
  induction l as [|x l IH]; [reflexivity|]. cbn [mapM].
  destruct x as [| | | | | |d]; try reflexivity.
  rewrite transfer_response_item_dict, payment_response_item_dict, IH.
  destruct (mapM TransferResponseItem.from_dict l); reflexivity.
Qed.

Lemma transfer_response_bare d :
  lookup "transferResponse" d = None ->
  TransferResponse.from_dict (PDict d)
  = (items <- py_iter (get_or d "TransferResponses" (PList [])) ;;
     transfer_responses <- mapM TransferResponseItem.from_dict items ;;
     Ok {| TransferResponse.transfer_responses := transfer_responses;
           TransferResponse.error_message := get_or d "ErrorMessage" PNone |}).
Proof.
  intros H. unfold TransferResponse.from_dict.
  rewrite !(nested_or_bare_bare d) by exact H. reflexivity.
Qed.

Lemma payment_response_dict d :
  PaymentResponse.from_dict (PDict d)
  = (items <- py_iter (get_or d "TransferResponses" (PList [])) ;;
     transfer_responses <- mapM PaymentResponseItem.from_dict items ;;
     Ok {| PaymentResponse.transfer_responses := transfer_responses;
           PaymentResponse.error_message := get_or d "ErrorMessage" PNone |}).
Proof.
  unfold PaymentResponse.from_dict. rewrite py_in_dict, py_get_dict.
  unfold get_or, py_getitem. destruct (lookup "TransferResponses" d); reflexivity.
Qed.

(** X11.  On a mapping without a [transferResponse] key (the bare shape)
    [PaymentResponse.from_dict] and [TransferResponse.from_dict] agree: they
    raise the same exception or return the same items, field by field, and the
    same error message. *)
Theorem payment_response_agrees_on_bare_replies (d : list (string * pyval)) :
  lookup "transferResponse" d = None ->
  PaymentResponse.from_dict (PDict d)
  = match TransferResponse.from_dict (PDict d) with
    | Ok t =>
        Ok {| PaymentResponse.transfer_responses :=
                map as_payment_item (TransferResponse.transfer_responses t);
              PaymentResponse.error_message := TransferResponse.error_message t |}
    | Raise e => Raise e
    end.
Proof.
  intros H. rewrite (transfer_response_bare d H), payment_response_dict.
  destruct (py_iter (get_or d "TransferResponses" (PList []))) as [items|e];
    [|reflexivity].
  cbn [bind]. rewrite payment_items_as_transfer_items.
  destruct (mapM TransferResponseItem.from_dict items); reflexivity.
Qed.

Lemma response_items_of_dicts (l : list pyval) :
  (forallb isinstance_dict l = true ->
   exists items, mapM TransferResponseItem.from_dict l = Ok items
                 /\ List.length items = List.length l)
  /\ (forallb isinstance_dict l = false ->
      mapM TransferResponseItem.from_dict l = Raise AttributeError).
Proof.
  induction l as [|x l [IH1 IH2]]; cbn [forallb mapM].
  - split; [eauto | discriminate].
  - destruct x as [| | | | | |d]; cbn [isinstance_dict andb];
      try (split; [discriminate | reflexivity]).
    rewrite transfer_response_item_dict. split.
    + intros H. destruct (IH1 H) as (items & -> & Hl). eexists. split; [reflexivity|].
      cbn. congruence.
    + intros H. rewrite (IH2 H). reflexivity.
Qed.

(** X12.  For a bare reply whose [TransferResponses] is a list,
    [TransferResponse.from_dict] returns one response item per entry when every
    entry is a mapping, and raises [AttributeError], with no partial result,
    when some entry is not. *)
Theorem transfer_response_items (d : list (string * pyval)) (l : list pyval) :
  lookup "transferResponse" d = None ->
  lookup "TransferResponses" d = Some (PList l) ->
  (forallb isinstance_dict l = true ->
   exists t, TransferResponse.from_dict (PDict d) = Ok t
             /\ List.length (TransferResponse.transfer_responses t) = List.length l
             /\ TransferResponse.error_message t = get_or d "ErrorMessage" PNone)
  /\ (forallb isinstance_dict l = false ->
      TransferResponse.from_dict (PDict d) = Raise AttributeError).
Proof.
  intros Hn Hl. rewrite (transfer_response_bare d Hn).
  assert (E : get_or d "TransferResponses" (PList []) = PList l)
    by (unfold get_or; rewrite Hl; reflexivity).
  rewrite E. cbn [py_iter bind].
  destruct (response_items_of_dicts l) as [H1 H2]. split; intros H.
  - destruct (H1 H) as (items & -> & Hlen). eexists. split; [reflexivity|]. auto.
  - rewrite (H2 H). reflexivity.
Qed.

Lemma document_from_dict (today : date) (d : list (string * pyval)) :
  Document.from_dict today (PDict d)
  = Ok {| Document.document_type := get_or d "documentType" (PStr "");
          Document.document_date :=
            match lookup "documentDate" d with
            | Some (PStr s) =>
                if String.eqb s "" then today
                else match date_fromisoformat s with
                     | Some dt => dt
                     | None => today
                     end
            | _ => today
            end |}.
Proof.
  unfold Document.from_dict. rewrite py_in_dict, py_get_dict. unfold py_getitem.
  destruct (lookup "documentDate" d) as [v|]; cbn [bind]; [|reflexivity].
  destruct v as [|b|n|f|s|l|l]; cbn [truthy].
  - reflexivity.
  - destruct b; reflexivity.
  - destruct (n =? 0); reflexivity.
  - destruct (float_is_zero f); reflexivity.
  - destruct (String.eqb s ""); cbn [negb bind]; [reflexivity|].
    destruct (date_fromisoformat s); reflexivity.
  - destruct l; reflexivity.
  - destruct l; reflexivity.
Qed.

(** X13.  [Document.from_dict] never raises on a mapping; the document date
    is the date read from a non-empty [documentDate] string that
    [fromisoformat] accepts, and today's date in every other case. *)
Theorem document_date_falls_back_to_today (today : date) (d : list (string * pyval)) :
  exists doc,
    Document.from_dict today (PDict d) = Ok doc
    /\ Document.document_type doc = get_or d "documentType" (PStr "")
    /\ (forall s dt,
          lookup "documentDate" d = Some (PStr s) -> s <> "" ->
          date_fromisoformat s = Some dt -> Document.document_date doc = dt)
    /\ ((forall s dt, lookup "documentDate" d = Some (PStr s) ->
                      date_fromisoformat s = Some dt -> s = "") ->
        Document.document_date doc = today).
Proof.
  rewrite document_from_dict. eexists. split; [reflexivity|].
  cbn [Document.document_type Document.document_date]. split; [reflexivity|]. split.
  - intros s dt -> Hne ->. destruct (String.eqb_spec s ""); [contradiction|reflexivity].
  - intros H. destruct (lookup "documentDate" d) as [[| | | |s| |]|]; try reflexivity.
    destruct (String.eqb_spec s ""); [reflexivity|].
    destruct (date_fromisoformat s) as [dt|] eqn:E; [|reflexivity].
    specialize (H s dt eq_refl E). contradiction.
Qed.

(** X14.  When the three list keys of an authorisation setup are absent the
    lists are empty; when one of them is present with the value [None] (and
    those read before it are absent) deserialization raises [TypeError]. *)
Theorem authorisation_lists_default_to_empty (d : list (string * pyval)) :
  (lookup "period" d = None ->
   lookup "authorisersListA" d = None ->
   lookup "authorisersListB" d = None ->
   AuthorisationSetup.from_dict (PDict d)
   = Ok {| AuthorisationSetup.number_of_authorisation_required :=
             get_or d "numberOfAuthorisationRequired" (PStr "");
           AuthorisationSetup.period := [];
           AuthorisationSetup.authorisers_list_a := [];
           AuthorisationSetup.authorisers_list_b := [] |})
  /\ (lookup "period" d = Some PNone \/
      (lookup "period" d = None /\ lookup "authorisersListA" d = Some PNone) \/
      (lookup "period" d = None /\ lookup "authorisersListA" d = None
       /\ lookup "authorisersListB" d = Some PNone) ->
      AuthorisationSetup.from_dict (PDict d) = Raise TypeError).
Proof.
  unfold AuthorisationSetup.from_dict, AuthorisationSetup.list_field.
  rewrite !py_get_dict. unfold get_or. split.
  - intros -> -> ->. reflexivity.
  - intros [->|[[-> ->]|(-> & -> & ->)]]; reflexivity.
Qed.

(** X15.  Whenever [Transaction.from_dict] returns on a mapping,
    [PendingTransaction.from_dict] returns on it too, with the same account
    id, type, description, transaction date and amount, and with the status
    [PENDING] whatever the wire says. *)
Theorem pending_transaction_is_transaction_projection (d : list (string * pyval))
  (t : Transaction.t) :
  Transaction.from_dict (PDict d) = Ok t ->
  PendingTransaction.from_dict (PDict d)
  = Ok {| PendingTransaction.account_id := Transaction.account_id t;
          PendingTransaction.type := Transaction.type t;
          PendingTransaction.status := PENDING;
          PendingTransaction.description := Transaction.description t;
          PendingTransaction.transaction_date := Transaction.transaction_date t;
          PendingTransaction.amount := Transaction.amount t |}.
Proof.
  unfold Transaction.from_dict, PendingTransaction.from_dict.
  rewrite !datetime_field_dict, !py_get_dict, !enum_get_dict. cbn [bind].
  destruct (decimal_field (PDict d) "amount"); [|discriminate].
  destruct (Transaction.running_balance_field (PDict d)); [|discriminate].
  cbn [bind]. intros H. injection H as <-. reflexivity.
Qed.

(** [Decimal(str(n))] for an [int]. *)
Lemma Decimal_of_str_of_int (n : Z) :
  Decimal_of_str_of (PInt n) = Ok (PyDecimal.Finite (n <? 0) (Z.abs_N n) 0).
Proof.
  unfold Decimal_of_str_of, str_int, PyDecimal.of_str, PyDecimal.ch.
  rewrite list_ascii_of_string_of_list_ascii.
  change (if n <? 0 then list_ascii_of_string "-" else [])
    with (PyDecimal.sign_str (n <? 0)).
  pose proof (PyDecimalFacts.parse_rendered (n <? 0)
                (PyDecimal.digits_of_N (Z.abs_N n)) None None (Z.abs_N n) 0
                (PyDecimalFacts.digits_of_N_digits _)
                (PyDecimalFacts.digits_of_N_nonempty _) eq_refl) as H.
  cbn [PyDecimal.frac_chars PyDecimal.exp_chars app] in H.
  rewrite List.app_nil_r in H. rewrite H; auto.
  apply PyDecimalFacts.N_of_digits_of_N.
Qed.

(** X16.  An [amount] given as a JSON integer [n] is read exactly, as the
    decimal [n] with exponent 0; an [amount] that is [None], a boolean, a list
    or a mapping makes [Transaction], [PendingTransaction], [TransferItem] and
    [BeneficiaryPaymentItem] deserialization raise [InvalidOperation]. *)
Theorem integer_and_null_amounts (d : list (string * pyval)) (v : pyval) :
  lookup "amount" d = Some v ->
  (forall n, v = PInt n ->
     decimal_field (PDict d) "amount" = Ok (PyDecimal.Finite (n <? 0) (Z.abs_N n) 0)
     /\ exists i, TransferItem.from_dict (PDict d) = Ok i
                  /\ TransferItem.amount i = PyDecimal.Finite (n <? 0) (Z.abs_N n) 0)
  /\ (v = PNone \/ (exists b, v = PBool b) \/ (exists l, v = PList l)
      \/ (exists l, v = PDict l) ->
      Transaction.from_dict (PDict d) = Raise InvalidOperation
      /\ PendingTransaction.from_dict (PDict d) = Raise InvalidOperation
      /\ TransferItem.from_dict (PDict d) = Raise InvalidOperation
      /\ BeneficiaryPaymentItem.from_dict (PDict d) = Raise InvalidOperation).
Proof.
  intros Hd.
  assert (Hf : decimal_field (PDict d) "amount" = Decimal_of_str_of v).
  { unfold decimal_field. rewrite py_get_dict. unfold get_or. rewrite Hd. reflexivity. }
  split.
  - intros n ->. rewrite Hf, Decimal_of_str_of_int. split; [reflexivity|].
    unfold TransferItem.from_dict. rewrite Hf, Decimal_of_str_of_int, !py_get_dict.
    eexists. split; reflexivity.
  - intros Hv.
    assert (Hr : Decimal_of_str_of v = Raise InvalidOperation).
    { destruct Hv as [->|[[b ->]|[[l ->]|[l ->]]]]; try reflexivity. destruct b; reflexivity. }
    unfold Transaction.from_dict, PendingTransaction.from_dict, TransferItem.from_dict,
      BeneficiaryPaymentItem.from_dict.
    rewrite !datetime_field_dict, !py_get_dict, Hf, Hr. repeat split.
Qed.

(** X17.  The wire amount of a [TransferItem] whose amount has an exponent
    from -6 to -1 is its sign, at least one digit, a point and exactly that
    many fraction digits, with no exponent; an amount with a positive exponent
    is sent in scientific notation (its text contains [E]). *)
Theorem amount_wire_form (item : TransferItem.t) (sign : bool) (coeff : N) (exp : Z) :
  TransferItem.amount item = PyDecimal.Finite sign coeff exp ->
  (-6 <= exp < 0 ->
   exists intpart fracpart,
     py_getitem (TransferItem.to_dict item) "amount"
     = Ok (PStr (string_of_list_ascii
                   (PyDecimal.sign_str sign ++ intpart ++ "."%char :: fracpart)%list))
     /\ intpart <> []
     /\ forallb PyDecimal.is_digit intpart = true
     /\ forallb PyDecimal.is_digit fracpart = true
     /\ Z.of_nat (List.length fracpart) = - exp)
  /\ (0 < exp ->
      exists s, py_getitem (TransferItem.to_dict item) "amount" = Ok (PStr s)
                /\ In "E"%char (list_ascii_of_string s)).
Proof.
  intros Ha. unfold TransferItem.to_dict, py_getitem. cbn [lookup String.eqb Ascii.eqb Bool.eqb].
  rewrite Ha. unfold PyDecimal.to_str, PyDecimal.to_chars.
  pose proof (PyDecimalFacts.digits_of_N_nonempty coeff) as Hne.
  pose proof (PyDecimalFacts.digits_of_N_digits coeff) as Hd.
  set (ds := PyDecimal.digits_of_N coeff) in *.
  assert (Hlen : 1 <= Z.of_nat (List.length ds)).
  { destruct ds; [congruence | simpl; lia]. }
  set (len := Z.of_nat (List.length ds)) in *. cbv zeta.
  split; intros He.
  - assert (E1 : ((exp <=? 0) && (-6 <? exp + len)) = true) by lia. rewrite E1.
    assert (E2 : (exp + len =? exp + len) = true) by lia. rewrite E2.
    destruct (Z.leb_spec (exp + len) 0) as [H0|H0].
    + exists (PyDecimal.ch "0"), (repeat "0"%char (Z.to_nat (- (exp + len))) ++ ds)%list.
      split; [rewrite List.app_nil_r; reflexivity|]. split; [discriminate|].
      split; [reflexivity|]. split.
      * rewrite forallb_app, Hd, PyDecimalFacts.forallb_repeat; auto.
      * rewrite length_app, repeat_length. fold len. lia.
    + assert (E3 : (len <=? exp + len) = false) by lia. rewrite E3.
      exists (firstn (Z.to_nat (exp + len)) ds), (skipn (Z.to_nat (exp + len)) ds).
      split; [rewrite List.app_nil_r; reflexivity|]. split.
      { intros E. apply (f_equal (@List.length _)) in E.
        rewrite length_firstn in E. simpl in E. fold len in E. lia. }
      split; [apply PyDecimalFacts.forallb_firstn; auto|].
      split; [apply PyDecimalFacts.forallb_skipn; auto|].
      rewrite length_skipn. fold len. lia.
  - assert (E1 : ((exp <=? 0) && (-6 <? exp + len)) = false) by lia. rewrite E1.
    assert (E2 : (exp + len =? 1) = false) by lia. rewrite E2.
    eexists. split; [reflexivity|]. rewrite list_ascii_of_string_of_list_ascii.
    destruct (1 <=? 0); [|destruct (len <=? 1)];
      rewrite !in_app_iff; do 3 right; left; left; reflexivity.
Qed.

End WithRuntime.

(** *** Closed instances, in the example runtime *)

Import ExampleRuntime ExtraExamples.
#[local] Existing Instance runtime.

Lemma payment_response_agrees_on_bare_replies_witness :
  PaymentResponse.from_dict (PDict responses_example)
  = match TransferResponse.from_dict (PDict responses_example) with
    | Ok t =>
        Ok {| PaymentResponse.transfer_responses :=
                map as_payment_item (TransferResponse.transfer_responses t);
              PaymentResponse.error_message := TransferResponse.error_message t |}
    | Raise e => Raise e
    end.
Proof.
  exact (payment_response_agrees_on_bare_replies responses_example eq_refl).
Defined.

Lemma transfer_response_items_witness :
  exists t, TransferResponse.from_dict (PDict responses_example) = Ok t
            /\ List.length (TransferResponse.transfer_responses t) = 1%nat
            /\ TransferResponse.error_message t
               = get_or responses_example "ErrorMessage" PNone.
Proof.
  exact (proj1 (transfer_response_items responses_example _ eq_refl eq_refl) eq_refl).
Defined.

Lemma pending_transaction_is_transaction_projection_witness :
  PendingTransaction.from_dict (PDict transaction_example)
  = Ok {| PendingTransaction.account_id := PStr "A1";
          PendingTransaction.type := WireValue (PStr "REVERSAL");
          PendingTransaction.status := PENDING;
          PendingTransaction.description := PStr "Coffee";
          PendingTransaction.transaction_date := None;
          PendingTransaction.amount := PyDecimal.Finite false 4550 (-2) |}.
Proof.
  exact (pending_transaction_is_transaction_projection transaction_example
           transaction_example_parsed transaction_example_parses).
Defined.

Lemma integer_and_null_amounts_witness :
  decimal_field (PDict [("amount", PInt (-100))]) "amount"
  = Ok (PyDecimal.Finite true 100 0)
  /\ exists i, TransferItem.from_dict (PDict [("amount", PInt (-100))]) = Ok i
               /\ TransferItem.amount i = PyDecimal.Finite true 100 0.
Proof.
  exact (proj1 (integer_and_null_amounts [("amount", PInt (-100))] (PInt (-100)) eq_refl)
           (-100) eq_refl).
Defined.

Lemma amount_wire_form_witness :
  exists intpart fracpart,
    py_getitem (TransferItem.to_dict hundred) "amount"
    = Ok (PStr (string_of_list_ascii
                  (PyDecimal.sign_str false ++ intpart ++ "."%char :: fracpart)%list))
    /\ intpart <> []
    /\ forallb PyDecimal.is_digit intpart = true
    /\ forallb PyDecimal.is_digit fracpart = true
    /\ Z.of_nat (List.length fracpart) = - -2.
Proof.
  apply (proj1 (amount_wire_form hundred false 10000 (-2) eq_refl)). lia.
Defined.

Lemma payment_item_round_trip_witness :
  BeneficiaryPaymentItem.from_dict (BeneficiaryPaymentItem.to_dict payment_example)
  = Ok payment_example.
Proof.
  exact (proj2 (payment_item_round_trip payment_example) eq_refl eq_refl eq_refl).
Defined.

Lemma transfer_request_wire_form_witness :
  py_getitem (TransferRequest.to_dict
                {| TransferRequest.transfer_list := [hundred];
                   TransferRequest.profile_id := Some "P1" |}) "profileId"
  = Ok (PStr "P1").
Proof.
  apply (proj1 (proj2 (proj2 (transfer_request_wire_form
                  {| TransferRequest.transfer_list := [hundred];
                     TransferRequest.profile_id := Some "P1" |}))) "P1");
    [reflexivity | discriminate].
Defined.

Lemma document_date_falls_back_to_today_witness :
  exists doc,
    Document.from_dict (rt := runtime) "2024-02-29" (PDict [("documentDate", PStr "2024-01-31")]) = Ok doc
    /\ Document.document_date doc = "2024-01-31".
Proof.
  destruct (document_date_falls_back_to_today (rt := runtime) "2024-02-29"
              [("documentDate", PStr "2024-01-31")]) as (doc & H & _ & Hd & _).
  exists doc. split; [exact H|].
  apply (Hd "2024-01-31"); [reflexivity | discriminate | reflexivity].
Defined.

Lemma authorisation_lists_default_to_empty_witness :
  AuthorisationSetup.from_dict (PDict [("numberOfAuthorisationRequired", PStr "2")])
  = Ok {| AuthorisationSetup.number_of_authorisation_required := PStr "2";
          AuthorisationSetup.period := [];
          AuthorisationSetup.authorisers_list_a := [];
          AuthorisationSetup.authorisers_list_b := [] |}.
Proof.
  exact (proj1 (authorisation_lists_default_to_empty
                  [("numberOfAuthorisationRequired", PStr "2")])
           eq_refl eq_refl eq_refl).
Defined.
End ModelLaws.

(** ** Loading the configuration *)

Module ConfigFacts.
Import Config.

Section Load.
Variable int : string -> option Z.

Lemma missing_spec s : missing s = true <-> s = "".
Proof. unfold missing. apply String.eqb_eq. Qed.

(** X18.  In test mode [load_config], when it returns, gives a
    configuration for the sandbox: [use_sandbox] is set, the base URL is the
    sandbox URL, and no credential is empty. *)
Theorem test_mode_uses_the_sandbox (env : environ) (cfg : InvestecConfig) :
  load_config int true env = Some cfg ->
  use_sandbox cfg = true
  /\ base_url cfg = sandbox_url cfg
  /\ client_id cfg <> "" /\ client_secret cfg <> "" /\ api_key cfg <> "".
Proof.
  assert (Hd : forall s d, d <> "" -> (if missing s then d else s) <> "").
  { intros s d Hd. destruct (missing s) eqn:E; [exact Hd|].
    rewrite <- missing_spec. congruence. }
  assert (Hu : forall cfg',
             unprefixed int true env = Some cfg' ->
             use_sandbox cfg' = true /\ base_url cfg' = sandbox_url cfg'
             /\ client_id cfg' <> "" /\ client_secret cfg' <> "" /\ api_key cfg' <> "").
  { intros cfg'. unfold unprefixed, config_args, base_url. cbn [String.append].
    destruct (int (getenv env "TIMEOUT" "30")) as [t|]; [|discriminate].
    intros H. injection H as <-. cbn.
    assert (Hs : match env "USE_SANDBOX" with
                 | Some v => if missing v then true else true
                 | None => true
                 end = true).
    { destruct (env "USE_SANDBOX") as [v|]; [destruct (missing v)|]; reflexivity. }
    rewrite Hs. repeat split; apply Hd; discriminate. }
  unfold load_config. destruct (prefixed int true env) as [c|] eqn:Hp; [|apply Hu].
  intros H. injection H as <-. revert Hp. clear Hu.
  unfold prefixed, config_args, base_url. cbn [String.append].
  destruct (int (getenv env "INVESTEC_TIMEOUT" "30")) as [t|]; [|discriminate].
  cbn [client_id client_secret api_key].
  destruct (missing (getenv env "INVESTEC_CLIENT_ID" "")) eqn:E1; [discriminate|].
  destruct (missing (getenv env "INVESTEC_CLIENT_SECRET" "")) eqn:E2; [discriminate|].
  destruct (missing (getenv env "INVESTEC_API_KEY" "")) eqn:E3; [discriminate|].
  cbn [orb]. intros H. injection H as <-. cbn.
  repeat split; rewrite <- missing_spec; congruence.
Qed.

(** X19.  [load_config] takes all its values from one family of variables:
    from the [INVESTEC_] ones when the three prefixed credentials are set and
    [INVESTEC_TIMEOUT] is an integer; and, outside test mode, from the ones
    without prefix as soon as one prefixed credential is missing, whatever the
    other prefixed variables hold. *)
Theorem credentials_come_from_one_family (test_mode : bool) (env : environ) :
  (getenv env "INVESTEC_CLIENT_ID" "" <> "" ->
   getenv env "INVESTEC_CLIENT_SECRET" "" <> "" ->
   getenv env "INVESTEC_API_KEY" "" <> "" ->
   forall t, int (getenv env "INVESTEC_TIMEOUT" "30") = Some t ->
   load_config int test_mode env
   = Some {| client_id := getenv env "INVESTEC_CLIENT_ID" "";
             client_secret := getenv env "INVESTEC_CLIENT_SECRET" "";
             api_key := getenv env "INVESTEC_API_KEY" "";
             use_sandbox := test_mode || is_true (getenv env "INVESTEC_USE_SANDBOX" "");
             timeout := t;
             production_url :=
               getenv env "INVESTEC_PRODUCTION_URL" "https://openapi.investec.com";
             sandbox_url :=
               getenv env "INVESTEC_SANDBOX_URL" "https://openapisandbox.investec.com" |})
  /\ (getenv env "INVESTEC_CLIENT_ID" "" = ""
      \/ getenv env "INVESTEC_CLIENT_SECRET" "" = ""
      \/ getenv env "INVESTEC_API_KEY" "" = "" ->
      forall cfg, load_config int false env = Some cfg ->
      client_id cfg = getenv env "CLIENT_ID" ""
      /\ client_secret cfg = getenv env "CLIENT_SECRET" ""
      /\ api_key cfg = getenv env "API_KEY" ""
      /\ use_sandbox cfg = is_true (getenv env "USE_SANDBOX" "")
      /\ int (getenv env "TIMEOUT" "30") = Some (timeout cfg)
      /\ production_url cfg = getenv env "PRODUCTION_URL" "https://openapi.investec.com"
      /\ sandbox_url cfg = getenv env "SANDBOX_URL" "https://openapisandbox.investec.com").
Proof.
  split.
  - intros H1 H2 H3 t Ht. unfold load_config, prefixed, config_args.
    cbn [String.append]. rewrite Ht. cbn [client_id client_secret api_key].
    rewrite <- missing_spec in H1, H2, H3.
    destruct (missing (getenv env "INVESTEC_CLIENT_ID" "")); [congruence|].
    destruct (missing (getenv env "INVESTEC_CLIENT_SECRET" "")); [congruence|].
    destruct (missing (getenv env "INVESTEC_API_KEY" "")); [congruence|].
    reflexivity.
  - intros Hm cfg. unfold load_config.
    assert (Hp : prefixed int false env = None).
    { unfold prefixed, config_args. cbn [String.append].
      destruct (int (getenv env "INVESTEC_TIMEOUT" "30")); [|reflexivity].
      cbn [client_id client_secret api_key]. rewrite <- !missing_spec in Hm.
      destruct Hm as [-> | [-> | ->]]; rewrite ?orb_true_r; reflexivity. }
    rewrite Hp. unfold unprefixed, config_args. cbn [String.append].
    destruct (int (getenv env "TIMEOUT" "30")) as [t|]; [|discriminate].
    intros H. injection H as <-. cbn. repeat split.
Qed.

(** X20.  [load_config] raises only when [TIMEOUT] is not an integer, and
    then it does raise as soon as the prefixed family cannot be used (a
    prefixed credential missing, or [INVESTEC_TIMEOUT] not an integer):
    missing credentials alone are never an error. *)
Theorem load_config_fails_only_on_timeout (test_mode : bool) (env : environ) :
  (load_config int test_mode env = None ->
   int (getenv env "TIMEOUT" "30") = None)
  /\ (int (getenv env "TIMEOUT" "30") = None ->
      getenv env "INVESTEC_CLIENT_ID" "" = ""
      \/ getenv env "INVESTEC_CLIENT_SECRET" "" = ""
      \/ getenv env "INVESTEC_API_KEY" "" = ""
      \/ int (getenv env "INVESTEC_TIMEOUT" "30") = None ->
      load_config int test_mode env = None).
Proof.
  unfold load_config, prefixed, unprefixed, config_args. cbn [String.append]. split.
  - destruct (int (getenv env "INVESTEC_TIMEOUT" "30"));
      [destruct (_ || _ || _); [|discriminate]|];
      destruct (int (getenv env "TIMEOUT" "30")); auto;
      destruct test_mode; discriminate.
  - intros -> Hm.
    destruct (int (getenv env "INVESTEC_TIMEOUT" "30")) as [t|]; [|reflexivity].
    cbn [client_id client_secret api_key]. rewrite <- !missing_spec in Hm.
    destruct Hm as [-> | [-> | [-> | H]]]; rewrite ?orb_true_r; try reflexivity.
    discriminate.
Qed.

End Load.

(** *** Closed instances *)

Import ExtraExamples.

Lemma test_mode_uses_the_sandbox_witness :
  use_sandbox
    {| client_id := "client-id"; client_secret := "client-secret";
       api_key := "api-key"; use_sandbox := true; timeout := 30;
       production_url := "https://openapi.investec.com";
       sandbox_url := "https://openapisandbox.investec.com" |} = true
  /\ base_url
       {| client_id := "client-id"; client_secret := "client-secret";
          api_key := "api-key"; use_sandbox := true; timeout := 30;
          production_url := "https://openapi.investec.com";
          sandbox_url := "https://openapisandbox.investec.com" |}
     = "https://openapisandbox.investec.com"
  /\ "client-id" <> "" /\ "client-secret" <> "" /\ "api-key" <> "".
Proof.
  exact (test_mode_uses_the_sandbox int_of_digits unprefixed_env _ eq_refl).
Defined.

Lemma credentials_come_from_one_family_witness :
  load_config int_of_digits false prefixed_env
  = Some {| client_id := "client-id"; client_secret := "client-secret";
            api_key := "api-key"; use_sandbox := false; timeout := 30;
            production_url := "https://openapi.investec.com";
            sandbox_url := "https://openapisandbox.investec.com" |}.
Proof.
  apply (proj1 (credentials_come_from_one_family int_of_digits false prefixed_env));
    [discriminate | discriminate | discriminate | reflexivity].
Defined.

Lemma load_config_fails_only_on_timeout_witness :
  load_config int_of_digits false bad_timeout_env = None.
Proof.
  apply (proj2 (load_config_fails_only_on_timeout int_of_digits false bad_timeout_env));
    [reflexivity | left; reflexivity].
Defined.
End ConfigFacts.

(** ** What the operations send, and how they fail *)

Module TrafficLaws.
Import Client ClientFacts ClientLaws TrafficDefs.
Local Open Scope client_scope.

Section WithRuntime.
Context {rt : PyRuntime}.

Lemma builtin_ok {A} (a : A) : builtin_only (Ok a).
Proof. intros e H. discriminate. Qed.

Lemma builtin_bind {A B} (m : pyresult A) (k : A -> pyresult B) :
  builtin_only m -> (forall a, builtin_only (k a)) -> builtin_only (bind m k).
Proof.
  intros Hm Hk e. destruct m as [a|e']; cbn.
  - apply Hk.
  - intros H. injection H as <-. apply Hm. reflexivity.
Qed.

Lemma builtin_mapM {A B} (f : A -> pyresult B) (l : list A) :
  (forall x, builtin_only (f x)) -> builtin_only (mapM f l).
Proof.
  intros Hf. induction l as [|x l IH]; cbn; [apply builtin_ok|].
  intros e. destruct (f x) as [y|e'] eqn:Ex.
  - destruct (mapM f l) as [ys|e'']; [discriminate|].
    intros H. injection H as <-. apply IH. reflexivity.
  - intros H. injection H as <-. apply (Hf x). exact Ex.
Qed.

Ltac raised := let e := fresh "e" in let H := fresh "H" in
  intros e H; first [discriminate H | injection H as <-; reflexivity].

Lemma builtin_py_in key v : builtin_only (py_in key v).
Proof. destruct v; raised. Qed.

Lemma builtin_py_getitem v key : builtin_only (py_getitem v key).
Proof. destruct v as [| | | | |l|d]; try raised. cbn. destruct (lookup key d); raised. Qed.

Lemma builtin_py_get v key default : builtin_only (py_get v key default).
Proof. destruct v as [| | | | |l|d]; try raised. cbn. destruct (lookup key d); raised. Qed.

Lemma builtin_py_iter v : builtin_only (py_iter v).
Proof. destruct v; raised. Qed.

Lemma builtin_Decimal_of_str_of v : builtin_only (Decimal_of_str_of v).
Proof.
  destruct v; cbn; try raised;
    match goal with |- builtin_only (match ?x with _ => _ end) => destruct x end; raised.
Qed.

Lemma builtin_enum_get {E} data key (default : E) :
  builtin_only (enum_get data key default).
Proof. destruct data as [| | | | |l|d]; try raised. cbn. destruct (lookup key d); raised. Qed.

Ltac builtin :=
  repeat first
    [ apply builtin_ok
    | apply builtin_py_in | apply builtin_py_getitem | apply builtin_py_get
    | apply builtin_py_iter | apply builtin_Decimal_of_str_of | apply builtin_enum_get
    | apply builtin_mapM; intros
    | apply builtin_bind; [|intros]
    | match goal with
      | |- builtin_only (if ?b then _ else _) => destruct b
      | |- builtin_only (match ?x with _ => _ end) => destruct x
      end ].

Lemma builtin_decimal_field data key : builtin_only (decimal_field data key).
Proof. unfold decimal_field. builtin. Qed.

Lemma builtin_datetime_field data key : builtin_only (datetime_field data key).
Proof. unfold datetime_field. builtin. Qed.

Lemma builtin_has_nested r outer inner : builtin_only (has_nested r outer inner).
Proof. unfold has_nested. builtin. Qed.

Lemma builtin_from_api_response {T} (from_dict : pyval -> pyresult T) r :
  (forall v, builtin_only (from_dict v)) -> builtin_only (from_api_response from_dict r).
Proof. intros Hf. unfold from_api_response. builtin; apply Hf. Qed.

Lemma builtin_list_from_api_response {T} (from_dict : pyval -> pyresult T) r key :
  (forall v, builtin_only (from_dict v)) ->
  builtin_only (list_from_api_response from_dict r key).
Proof.
  intros Hf. unfold list_from_api_response.
  apply builtin_bind; [apply builtin_has_nested|]. intros. builtin; apply Hf.
Qed.

Lemma builtin_unwrap_list {T} (from_dict : pyval -> pyresult T) r :
  (forall v, builtin_only (from_dict v)) -> builtin_only (unwrap_list from_dict r).
Proof. intros Hf. unfold unwrap_list. builtin; apply Hf. Qed.

Lemma builtin_Account v : builtin_only (Account.from_dict v).
Proof. unfold Account.from_dict. builtin. Qed.

Lemma builtin_AccountBalance v : builtin_only (AccountBalance.from_dict v).
Proof.
  unfold AccountBalance.from_dict.
  repeat first [apply builtin_ok | apply builtin_py_get | apply builtin_decimal_field
               | apply builtin_bind; [|intros]].
Qed.

Lemma builtin_Transaction v : builtin_only (Transaction.from_dict v).
Proof.
  unfold Transaction.from_dict, Transaction.running_balance_field.
  repeat first [apply builtin_ok | apply builtin_py_get | apply builtin_decimal_field
               | apply builtin_datetime_field | apply builtin_enum_get
               | apply builtin_py_in | apply builtin_py_getitem
               | apply builtin_Decimal_of_str_of
               | apply builtin_bind; [|intros]
               | match goal with
                 | |- builtin_only (if ?b then _ else _) => destruct b
                 | |- builtin_only (match ?x with _ => _ end) => destruct x
                 end ].
Qed.

Lemma builtin_PendingTransaction v : builtin_only (PendingTransaction.from_dict v).
Proof.
  unfold PendingTransaction.from_dict.
  repeat first [apply builtin_ok | apply builtin_py_get | apply builtin_decimal_field
               | apply builtin_datetime_field | apply builtin_enum_get
               | apply builtin_bind; [|intros]].
Qed.

Lemma builtin_Beneficiary v : builtin_only (Beneficiary.from_dict v).
Proof. unfold Beneficiary.from_dict. builtin. Qed.

Lemma builtin_BeneficiaryCategory v : builtin_only (BeneficiaryCategory.from_dict v).
Proof. unfold BeneficiaryCategory.from_dict, BeneficiaryCategory.is_default_field. builtin. Qed.

Lemma builtin_Profile v : builtin_only (Profile.from_dict v).
Proof. unfold Profile.from_dict. builtin. Qed.

Lemma builtin_Document today v : builtin_only (Document.from_dict today v).
Proof. unfold Document.from_dict. builtin. Qed.

Lemma builtin_AuthorisationSetup v : builtin_only (AuthorisationSetup.from_dict v).
Proof.
  unfold AuthorisationSetup.from_dict, AuthorisationSetup.list_field,
    AuthorisationPeriod.from_dict, Authoriser.from_dict.
  builtin.
Qed.

Lemma builtin_TransferResponse v : builtin_only (TransferResponse.from_dict v).
Proof.
  unfold TransferResponse.from_dict, TransferResponse.nested_or_bare,
    TransferResponseItem.from_dict.
  repeat first [apply builtin_has_nested | progress builtin].
Qed.

Lemma builtin_PaymentResponse v : builtin_only (PaymentResponse.from_dict v).
Proof. unfold PaymentResponse.from_dict, PaymentResponseItem.from_dict. builtin. Qed.

Lemma api_requests_app t1 t2 :
  api_requests (t1 ++ t2) = (api_requests t1 ++ api_requests t2)%list.
Proof. unfold api_requests. apply flat_map_app. Qed.

Lemma api_requests_auth w self : api_requests (trace (_get_auth_headers w self)) = [].
Proof. rewrite auth_trace. destruct (needs_auth _ _); reflexivity. Qed.

(** What [_request] sends. *)
Lemma request_traffic method path params json_data w self :
  api_requests (trace (_request method path params json_data w self))
  = match value (_get_auth_headers w self) with
    | Ok hs => [ {| Client.method := method; url := urljoin (base_url self) path;
                    headers := with_content_type hs json_data;
                    Client.params := params; json := json_data |} ]
    | Raise _ => []
    end.
Proof.
  rewrite _request_eq. cbv zeta.
  destruct (value (_get_auth_headers w self)); cbn [trace].
  - rewrite api_requests_app, api_requests_auth. reflexivity.
  - apply api_requests_auth.
Qed.

Lemma request_returned_sent method path params json_data w self v :
  value (_request method path params json_data w self) = Ok v ->
  exists req, api_requests (trace (_request method path params json_data w self)) = [req].
Proof.
  rewrite request_traffic. rewrite _request_eq. cbv zeta.
  destruct (value (_get_auth_headers w self)); cbn [value]; [eauto|discriminate].
Qed.

Lemma silent_lift {A B} (k : A -> pyresult B) :
  (forall a, builtin_only (k a)) -> silent (fun a => lift (k a)).
Proof. intros Hk a w self. split; [reflexivity|apply Hk]. Qed.

Lemma trace_then_silent {B} method path params json_data (k : pyval -> M B) w self :
  silent k ->
  trace (bindM (_request method path params json_data) k w self)
  = trace (_request method path params json_data w self).
Proof.
  intros Hk. rewrite trace_bindM.
  destruct (value (_request method path params json_data w self)) as [v|e]; [|reflexivity].
  rewrite (proj1 (Hk v w _)). apply List.app_nil_r.
Qed.

Lemma fails_then_silent {B} method path params json_data (k : pyval -> M B) w self :
  silent k ->
  fails_in_request_or_after w self (bindM (_request method path params json_data) k w self).
Proof.
  intros Hk e. rewrite trace_then_silent by exact Hk. rewrite value_bindM.
  destruct (value (_request method path params json_data w self)) as [v|e'] eqn:Hv.
  - intros H. right. split; [exact (proj2 (Hk v w _) e H)|].
    exact (request_returned_sent _ _ _ _ _ _ _ Hv).
  - intros H. injection H as <-. left. exists method, path, params, json_data. exact Hv.
Qed.

Lemma sends_then_silent {B} method rest params json_data (k : pyval -> M B) w self :
  silent k ->
  sends_at_most_one self method json_data
    (trace (bindM (_request method ("/za/pb/v1/" ++ rest) params json_data) k w self)).
Proof.
  intros Hk. rewrite trace_then_silent by exact Hk. unfold sends_at_most_one.
  rewrite request_traffic.
  destruct (value (_get_auth_headers w self)) as [hs|e]; cbn [List.length In].
  - split; [lia|]. intros req [<-|[]]. cbn [Client.method json].
    split; [reflexivity|]. split; [|reflexivity]. exists rest. reflexivity.
  - split; [lia|]. intros req [].
Qed.

Lemma silent_documents :
  silent (fun response => w <~ ask ;; lift (unwrap_list (Document.from_dict (today w)) response)).
Proof.
  intros a w self. split; [reflexivity|].
  cbn. apply builtin_unwrap_list. intros. apply builtin_Document.
Qed.

Ltac decoding :=
  first [ apply silent_documents
        | apply silent_lift; intros;
          first [ apply builtin_from_api_response | apply builtin_list_from_api_response
                | apply builtin_unwrap_list ];
          intros;
          first [ apply builtin_Account | apply builtin_AccountBalance
                | apply builtin_Transaction | apply builtin_PendingTransaction
                | apply builtin_Beneficiary | apply builtin_BeneficiaryCategory
                | apply builtin_Profile | apply builtin_AuthorisationSetup
                | apply builtin_TransferResponse | apply builtin_PaymentResponse ] ].

(** X21.  An operation that goes through [_request] raises either what
    [_request] raises, or, once the request has been sent and answered, an
    exception of the decoding of the reply, which is never an
    [InvestecAPIError]: a reply that does not decode is not reported as an API
    error, and then the request (a transfer or a payment, too) was made. *)
Theorem decoding_failures_are_not_api_errors (w : world) (self : InvestecClient) :
  fails_in_request_or_after w self (get_accounts w self)
  /\ (forall a, fails_in_request_or_after w self (get_account_balance a w self))
  /\ (forall a f t ty ip,
        fails_in_request_or_after w self (get_account_transactions a f t ty ip w self))
  /\ (forall a, fails_in_request_or_after w self (get_account_pending_transactions a w self))
  /\ (forall a l p, fails_in_request_or_after w self (transfer_multiple a l p w self))
  /\ fails_in_request_or_after w self (get_beneficiaries w self)
  /\ fails_in_request_or_after w self (get_beneficiary_categories w self)
  /\ (forall a l, fails_in_request_or_after w self (pay_beneficiaries a l w self))
  /\ fails_in_request_or_after w self (get_profiles w self)
  /\ (forall p, fails_in_request_or_after w self (get_profile_accounts p w self))
  /\ (forall p a, fails_in_request_or_after w self (get_authorisation_setup p a w self))
  /\ (forall p a, fails_in_request_or_after w self (get_profile_beneficiaries p a w self))
  /\ (forall a f t, fails_in_request_or_after w self (get_documents a f t w self)).
Proof.
  unfold get_accounts, get_account_balance, get_account_transactions,
    get_account_pending_transactions, transfer_multiple, get_beneficiaries,
    get_beneficiary_categories, pay_beneficiaries, get_profiles, get_profile_accounts,
    get_authorisation_setup, get_profile_beneficiaries, get_documents.
  repeat split; intros; cbv zeta; apply fails_then_silent; decoding.
Qed.

(** X22.  Every operation sends at most one API request, to the URL
    [urljoin] makes of the client's base URL and a path that starts with
    [/za/pb/v1/].  The reading operations send [GET] without a body;
    [transfer_multiple] and [pay_beneficiaries] send [POST] with the wire form
    of their request as JSON body. *)
Theorem operations_send_one_request (w : world) (self : InvestecClient) :
  sends_at_most_one self "GET" None (trace (get_accounts w self))
  /\ (forall a, sends_at_most_one self "GET" None (trace (get_account_balance a w self)))
  /\ (forall a f t ty ip,
        sends_at_most_one self "GET" None
          (trace (get_account_transactions a f t ty ip w self)))
  /\ (forall a, sends_at_most_one self "GET" None
                  (trace (get_account_pending_transactions a w self)))
  /\ (forall a l p,
        sends_at_most_one self "POST"
          (Some (TransferRequest.to_dict {| TransferRequest.transfer_list := l;
                                            TransferRequest.profile_id := p |}))
          (trace (transfer_multiple a l p w self)))
  /\ sends_at_most_one self "GET" None (trace (get_beneficiaries w self))
  /\ sends_at_most_one self "GET" None (trace (get_beneficiary_categories w self))
  /\ (forall a l,
        sends_at_most_one self "POST"
          (Some (BeneficiaryPaymentRequest.to_dict
                   {| BeneficiaryPaymentRequest.payment_list := l |}))
          (trace (pay_beneficiaries a l w self)))
  /\ sends_at_most_one self "GET" None (trace (get_profiles w self))
  /\ (forall p, sends_at_most_one self "GET" None (trace (get_profile_accounts p w self)))
  /\ (forall p a, sends_at_most_one self "GET" None
                    (trace (get_authorisation_setup p a w self)))
  /\ (forall p a, sends_at_most_one self "GET" None
                    (trace (get_profile_beneficiaries p a w self)))
  /\ (forall a f t, sends_at_most_one self "GET" None (trace (get_documents a f t w self)))
  /\ (forall a ty d, sends_at_most_one self "GET" None (trace (get_document a ty d w self))).
Proof.
  unfold get_accounts, get_account_balance, get_account_transactions,
    get_account_pending_transactions, transfer_multiple, get_beneficiaries,
    get_beneficiary_categories, pay_beneficiaries, get_profiles, get_profile_accounts,
    get_authorisation_setup, get_profile_beneficiaries, get_documents.
  repeat match goal with |- _ /\ _ => split end; intros; cbv zeta;
    try (apply (sends_then_silent _ _ _ _ _ w self); decoding).
  rewrite get_document_eq. cbv zeta. unfold sends_at_most_one.
  destruct (value (_get_auth_headers w self)) as [hs|e]; cbn [trace].
  - rewrite api_requests_app, api_requests_auth. cbn [app api_requests flat_map List.length In].
    split; [lia|]. intros req [<-|[]]. cbn [Client.method json url].
    split; [reflexivity|]. split; [|reflexivity]. unfold api_path. cbn [url].
    eexists. reflexivity.
  - rewrite api_requests_auth. split; [cbn; lia|]. intros req [].
Qed.

End WithRuntime.

(** *** Closed instances, in the example runtime *)

Import ExampleRuntime ExtraExamples.
#[local] Existing Instance runtime.

Lemma decoding_failures_are_not_api_errors_witness :
  raised_by_request (world_answering (ok_response unreadable_transactions))
    fresh_client InvalidOperation
  \/ (isinstance (InvalidOperation : exn pyval) KApiError = false
      /\ exists req,
           api_requests
             (trace (get_account_transactions "A1" None None None false
                       (world_answering (ok_response unreadable_transactions))
                       fresh_client))
           = [req]).
Proof.
  exact (proj1 (proj2 (proj2 (decoding_failures_are_not_api_errors
                                (world_answering (ok_response unreadable_transactions))
                                fresh_client)))
           "A1" None None None false InvalidOperation eq_refl).
Defined.

Lemma operations_send_one_request_witness :
  Client.method accounts_request = "GET"
  /\ api_path fresh_client accounts_request
  /\ json accounts_request = None.
Proof.
  apply (proj2 (proj1 (operations_send_one_request (world_answering too_many_requests)
                         fresh_client)) accounts_request).
  left. reflexivity.
Defined.

End TrafficLaws.
